(** * Analytics aggregation of the operations backend (routes/analytics.js)

    A shallow embedding of the request handlers of [routes/analytics.js]:
    the in-process grouping, bucketing and metric derivation applied to the
    order, user and campaign rows once they are fetched, with the statistics
    of [routes/chatbots.js] and the two checks of [middleware/auth.js].  The
    handlers are modelled as functions of the fetched rows; the remote store
    and the identity service are parameters, the HTTP plumbing stays
    outside.

    The definitions come first: Numbers ([Num]), the values and global
    functions of the language ([Js]), dates ([Date]), then the handlers
    ([Analytics], [Auth], [Chatbots]).  The properties follow, each module
    of facts after the definitions it is about. *)

From Stdlib Require Import ZArith List String Ascii Bool Lia Permutation Sorted.
From Stdlib Require Import SpecFloat DecimalString.
Import ListNotations.

Local Open Scope Z_scope.

(** ** ECMAScript Numbers

    A Number is an IEEE-754 binary64 value.  Every finite binary64 value is
    an integer multiple of [2^-1074], so a finite Number is represented by
    that integer: [Fin k] stands for [k * 2^-1074].  Each arithmetic
    operation computes the exact result and rounds it to the nearest
    representable value, ties to the even significand; a magnitude that
    rounds to [2^1024] or more becomes an infinity.  Negative zero is
    identified with zero: the handlers below never divide by a computed
    value and print zero through [toFixed], which drops its sign. *)

Module Num.

Inductive number : Type :=
| NaN
| Inf (neg : bool)
| Fin (k : Z).

(** [2^1074]: the Number 1 counted in units of [2^-1074]. *)
Definition U : Z := 2 ^ 1074.

(** Nearest integer to [p / d] for [0 <= p] and [0 < d], ties to even. *)
Definition round_half_even (p d : Z) : Z :=
  let m := p / d in
  let r := p mod d in
  if 2 * r <? d then m
  else if d <? 2 * r then m + 1
  else if Z.even m then m else m + 1.

(** Number of low bits a magnitude with integer part [q] loses so that 53
    significant bits remain. *)
Definition ulp_shift (q : Z) : Z :=
  if q <? 2 ^ 53 then 0 else Z.log2 q - 52.

(** The magnitude [p / d] (in units) rounded to 53 significant bits. *)
Definition round_mag (p d : Z) : Z :=
  let s := ulp_shift (p / d) in
  round_half_even p (d * 2 ^ s) * 2 ^ s.

(** The exact quotient [p / d] of two integers, [0 < d], counted in units,
    rounded to a Number. *)
Definition round_ratio (p d : Z) : number :=
  let k := round_mag (Z.abs p) d in
  if 2 ^ 2098 <=? k then Inf (p <? 0) else Fin (Z.sgn p * k).

Definition zero : number := Fin 0.

(** The Number nearest to the integer [n]. *)
Definition of_Z (n : Z) : number := round_ratio (n * U) 1.

(** The Number nearest to the decimal [m * 10^e]. *)
Definition of_decimal (m e : Z) : number :=
  if 0 <=? e then round_ratio (m * 10 ^ e * U) 1
  else round_ratio (m * U) (10 ^ (- e)).

Definition fneg (x : number) : number :=
  match x with
  | NaN => NaN
  | Inf s => Inf (negb s)
  | Fin k => Fin (- k)
  end.

Definition fadd (x y : number) : number :=
  match x, y with
  | NaN, _ | _, NaN => NaN
  | Inf a, Inf b => if Bool.eqb a b then Inf a else NaN
  | Inf a, Fin _ => Inf a
  | Fin _, Inf b => Inf b
  | Fin a, Fin b => round_ratio (a + b) 1
  end.

Definition fsub (x y : number) : number := fadd x (fneg y).

Definition fmul (x y : number) : number :=
  match x, y with
  | NaN, _ | _, NaN => NaN
  | Inf a, Inf b => Inf (xorb a b)
  | Inf a, Fin k | Fin k, Inf a =>
      if k =? 0 then NaN else Inf (xorb a (k <? 0))
  | Fin a, Fin b => round_ratio (a * b) U
  end.

Definition fdiv (x y : number) : number :=
  match x, y with
  | NaN, _ | _, NaN => NaN
  | Inf _, Inf _ => NaN
  | Inf a, Fin k => Inf (xorb a (k <? 0))
  | Fin _, Inf _ => Fin 0
  | Fin a, Fin b =>
      if b =? 0 then (if a =? 0 then NaN else Inf (a <? 0))
      else if 0 <? b then round_ratio (a * U) b
      else round_ratio (- (a * U)) (- b)
  end.

(** [x > 0], the test a sort comparator's result undergoes. *)
Definition is_pos (x : number) : bool :=
  match x with
  | NaN => false
  | Inf s => negb s
  | Fin k => 0 <? k
  end.

(** [x || 0]: NaN and zero are falsy. *)
Definition or_zero (x : number) : number :=
  match x with
  | NaN => Fin 0
  | Inf s => Inf s
  | Fin k => Fin k
  end.

(** *** Number.prototype.toFixed(2)

    For a finite [x] below [10^21] in magnitude the result is the decimal
    string of [n / 100], where [n] is the integer nearest to [100 * |x|]
    (the larger one on a tie), with a minus sign when [x < 0].  The result
    is kept as that integer; [fixed_string] renders it. *)

Inductive fixed : Type :=
| FxNaN                          (* "NaN" *)
| FxInf (neg : bool)             (* "Infinity", "-Infinity" *)
| FxDec (neg : bool) (n : Z)     (* digits of n with two decimals *)
| FxBig (k : Z).                 (* |x| >= 10^21: printed as by ToString *)

Definition toFixed2 (x : number) : fixed :=
  match x with
  | NaN => FxNaN
  | Inf s => FxInf s
  | Fin k =>
      if 10 ^ 21 * U <=? Z.abs k then FxBig k
      else FxDec (k <? 0) ((200 * Z.abs k + U) / (2 * U))
  end.

(** *** Predicates used to state properties of Numbers *)

(** [k] units is a binary64 value: rounding leaves it as it is. *)
Definition representable (k : Z) : Prop := round_ratio k 1 = Fin k.

(** A Number of the model that denotes a binary64 value. *)
Definition wf (x : number) : Prop :=
  match x with
  | Fin k => representable k
  | _ => True
  end.

(** [x < y]; false when either is NaN. *)
Definition num_lt (x y : number) : bool :=
  match x, y with
  | NaN, _ | _, NaN => false
  | Inf a, Inf b => a && negb b
  | Inf a, Fin _ => a
  | Fin _, Inf b => negb b
  | Fin a, Fin b => a <? b
  end.

(** A bound on magnitudes, in units, below which a rounded result is
    finite. *)
Definition huge : Z := 2 ^ 2097.

Definition is_nan (x : number) : bool :=
  match x with
  | NaN => true
  | _ => false
  end.

Definition is_finite (x : number) : bool :=
  match x with
  | Fin _ => true
  | _ => false
  end.

End Num.

(** ** Values of the fetched rows and the global functions applied to them *)

Module Js.
Import Num.

Local Open Scope string_scope.
Local Open Scope Z_scope.

(** A scalar as it arrives in the JSON of a row.  [JNum m e] is the numeric
    literal [m * 10^e]. *)
Inductive json : Type :=
| JNull
| JBool (b : bool)
| JNum (m e : Z)
| JStr (s : string).

(** An entity reference: a null column, an integer key or a text key. *)
Inductive ident : Type :=
| IdNull
| IdInt (n : Z)
| IdStr (s : string).

Definition code (c : ascii) : Z := Z.of_nat (nat_of_ascii c).

Definition is_digit (c : ascii) : bool := (48 <=? code c) && (code c <=? 57).

Definition digit_val (c : ascii) : Z := code c - 48.

(** White space skipped by [parseFloat] and [parseInt] (the ASCII part). *)
Definition is_space (c : ascii) : bool :=
  ((9 <=? code c) && (code c <=? 13)) || (code c =? 32).

Fixpoint skip_space (s : string) : string :=
  match s with
  | String c s' => if is_space c then skip_space s' else s
  | EmptyString => s
  end.

(** Reads decimal digits onto the value [acc]: the value, how many digits
    were read, and what follows them. *)
Fixpoint digits (s : string) (acc n : Z) : Z * Z * string :=
  match s with
  | String c s' =>
      if is_digit c then digits s' (10 * acc + digit_val c) (n + 1)
      else (acc, n, s)
  | EmptyString => (acc, n, s)
  end.

Definition sign_prefix (s : string) : bool * string :=
  match s with
  | String "-" s' => (true, s')
  | String "+" s' => (false, s')
  | _ => (false, s)
  end.

(** The ExponentPart at the head of [s], zero when there is none. *)
Definition exponent_part (s : string) : Z :=
  match s with
  | String c s' =>
      if (code c =? 101) || (code c =? 69) then
        let (neg, s'') := sign_prefix s' in
        let '(v, n, _) := digits s'' 0 0 in
        if 0 <? n then (if neg then - v else v) else 0
      else 0
  | EmptyString => 0
  end.

(** [parseFloat] of a string: the longest prefix of the trimmed text that
    is a StrDecimalLiteral, NaN when there is none. *)
Definition parseFloat_string (s : string) : number :=
  let (neg, s1) := sign_prefix (skip_space s) in
  if prefix "Infinity" s1 then Inf neg
  else
    let '(iv, ic, s2) := digits s1 0 0 in
    let '(mv, fc, s3) :=
      match s2 with
      | String "." s' => digits s' iv 0
      | _ => (iv, 0, s2)
      end in
    if ic + fc =? 0 then NaN
    else of_decimal (if neg then - mv else mv) (exponent_part s3 - fc).

(** [parseFloat(v)]: the argument is first converted to a string; a Number
    prints to the text that reads back as itself. *)
Definition parseFloat (v : json) : number :=
  match v with
  | JNull => parseFloat_string "null"
  | JBool b => parseFloat_string (if b then "true" else "false")
  | JNum m e => of_decimal m e
  | JStr s => parseFloat_string s
  end.

Definition hex_val (c : ascii) : option Z :=
  if is_digit c then Some (digit_val c)
  else if (97 <=? code c) && (code c <=? 102) then Some (code c - 87)
  else if (65 <=? code c) && (code c <=? 70) then Some (code c - 55)
  else None.

Fixpoint hex_digits (s : string) (acc n : Z) : Z * Z :=
  match s with
  | String c s' =>
      match hex_val c with
      | Some d => hex_digits s' (16 * acc + d) (n + 1)
      | None => (acc, n)
      end
  | EmptyString => (acc, n)
  end.

(** [parseInt(s)] with no radix; [None] is NaN. *)
Definition parseInt (s : string) : option Z :=
  let (neg, s1) := sign_prefix (skip_space s) in
  let '(v, n) :=
    if prefix "0x" s1 || prefix "0X" s1 then hex_digits (substring 2 (length s1) s1) 0 0
    else let '(v, n, _) := digits s1 0 0 in (v, n) in
  if n =? 0 then None else Some (if neg then - v else v).

(** [s] with the white space at its end removed. *)
Fixpoint trim_end (s : string) : string :=
  match s with
  | EmptyString => EmptyString
  | String c s' =>
      match trim_end s' with
      | EmptyString => if is_space c then EmptyString else String c EmptyString
      | r => String c r
      end
  end.

(** The digits of radix [r] that make up all of [s]; [None] when [s] is
    empty or has another character. *)
Fixpoint radix_digits (r : Z) (s : string) (acc : Z) : option Z :=
  match s with
  | EmptyString => None
  | String c s' =>
      match hex_val c with
      | Some d =>
          if d <? r then
            match s' with
            | EmptyString => Some (r * acc + d)
            | _ => radix_digits r s' (r * acc + d)
            end
          else None
      | None => None
      end
  end.

(** What may follow the digits of a decimal literal that is the whole
    text: nothing, or an exponent and nothing more. *)
Definition exponent_only (s : string) : option Z :=
  match s with
  | EmptyString => Some 0
  | String c s' =>
      if (code c =? 101) || (code c =? 69) then
        let (neg, s'') := sign_prefix s' in
        let '(v, n, rest) := digits s'' 0 0 in
        if (0 <? n) && String.eqb rest "" then Some (if neg then - v else v)
        else None
      else None
  end.

(** [Number(s)] of a string: the whole text, white space at both ends
    apart, has to be a numeric literal; the empty text is 0. *)
Definition to_number (s : string) : number :=
  let t := trim_end (skip_space s) in
  if String.eqb t "" then zero
  else if prefix "0x" t || prefix "0X" t then
    match radix_digits 16 (substring 2 (length t) t) 0 with
    | Some v => of_Z v
    | None => NaN
    end
  else if prefix "0o" t || prefix "0O" t then
    match radix_digits 8 (substring 2 (length t) t) 0 with
    | Some v => of_Z v
    | None => NaN
    end
  else if prefix "0b" t || prefix "0B" t then
    match radix_digits 2 (substring 2 (length t) t) 0 with
    | Some v => of_Z v
    | None => NaN
    end
  else
    let (neg, s1) := sign_prefix t in
    if String.eqb s1 "Infinity" then Inf neg
    else
      let '(iv, ic, s2) := digits s1 0 0 in
      let '(mv, fc, s3) :=
        match s2 with
        | String "." s' => digits s' iv 0
        | _ => (iv, 0, s2)
        end in
      if ic + fc =? 0 then NaN
      else
        match exponent_only s3 with
        | Some e => of_decimal (if neg then - mv else mv) (e - fc)
        | None => NaN
        end.

(** Decimal digits of an integer, as [String(n)] prints one. *)
Definition dec_string (n : Z) : string := NilZero.string_of_int (Z.to_int n).

Fixpoint zeros (n : nat) : string :=
  match n with
  | O => ""
  | S n' => String "0" (zeros n')
  end.

(** [s.padStart(w, '0')] *)
Definition padStart0 (w : nat) (s : string) : string :=
  (zeros (w - length s) ++ s)%string.

(** The string a [toFixed(2)] result is, where the digits are modelled. *)
Definition fixed_string (f : fixed) : option string :=
  match f with
  | FxNaN => Some "NaN"
  | FxInf s => Some (if s then "-Infinity" else "Infinity")
  | FxDec s n =>
      Some ((if s then "-" else "") ++ dec_string (n / 100) ++ "."
            ++ padStart0 2 (dec_string (n mod 100)))%string
  | FxBig _ => None
  end.

(** A computed field that is either a Number or a [toFixed] string. *)
Inductive out : Type :=
| ONum (x : number)
| OFixed (f : fixed).

(** *** Arrays *)

Section Arrays.
Context {A : Type}.

(** [a.slice(0, end)], [end] being [None] for NaN. *)
Definition slice_to (e : option Z) (l : list A) : list A :=
  match e with
  | None => []
  | Some n =>
      if n <? 0 then firstn (Z.to_nat (Z.max (Z.of_nat (List.length l) + n) 0)) l
      else firstn (Z.to_nat n) l
  end.

(** [a.sort(cmp)]: the sort is stable; [gt x y] says [cmp(x, y) > 0],
    that is, [y] goes before [x].  A comparator that answers NaN counts as
    answering 0.  The language fixes the result only for a consistent
    comparator, and this insertion sort stands for the engine's sort under
    that condition: with [b - a] on Numbers it holds when none of them is
    NaN.  What is proved of the order of a result assumes it. *)
Variable gt : A -> A -> bool.

Fixpoint insert_sorted (x : A) (l : list A) : list A :=
  match l with
  | [] => [x]
  | y :: l' => if gt x y then y :: insert_sorted x l' else x :: l
  end.

Definition js_sort (l : list A) : list A := fold_right insert_sorted [] l.
End Arrays.

(** *** Plain objects used as dictionaries

    The own properties are kept in creation order.  A key that names a
    member of [Object.prototype] is found by the lookup before any own
    property exists, so the guard [if (!obj[key])] never creates it and the
    update lands on the inherited member. *)

Definition inherited (k : string) : bool :=
  existsb (String.eqb k)
    ["constructor"; "hasOwnProperty"; "isPrototypeOf"; "propertyIsEnumerable";
     "toLocaleString"; "toString"; "valueOf"; "__proto__";
     "__defineGetter__"; "__defineSetter__"; "__lookupGetter__"; "__lookupSetter__"].

Section Objects.
Context {V : Type}.

Definition obj : Type := list (string * V).

Fixpoint get (k : string) (o : obj) : option V :=
  match o with
  | [] => None
  | (k', v) :: o' => if String.eqb k k' then Some v else get k o'
  end.

Fixpoint update (k : string) (f : V -> V) (o : obj) : obj :=
  match o with
  | [] => []
  | (k', v) :: o' =>
      if String.eqb k k' then (k', f v) :: o' else (k', v) :: update k f o'
  end.

(** [if (!obj[k]) obj[k] = init;  obj[k] = f(obj[k])] *)
Definition touch (k : string) (init : V) (f : V -> V) (o : obj) : obj :=
  if inherited k then o
  else match get k o with
       | Some _ => update k f o
       | None => (o ++ [(k, f init)])%list
       end.

(** The array index a property key denotes, if it is one: the canonical
    decimal text of an integer below [2^32 - 1]. *)
Definition array_index (k : string) : option Z :=
  let '(v, n, rest) := digits k 0 0 in
  if (0 <? n) && String.eqb rest "" && String.eqb (dec_string v) k
     && (v <? 4294967295)
  then Some v else None.

Definition index_gt (a b : Z * V) : bool := fst b <? fst a.

Fixpoint indexed (o : obj) : list (Z * V) :=
  match o with
  | [] => []
  | (k, v) :: o' =>
      match array_index k with
      | Some i => (i, v) :: indexed o'
      | None => indexed o'
      end
  end.

Fixpoint named (o : obj) : list V :=
  match o with
  | [] => []
  | (k, v) :: o' =>
      match array_index k with
      | Some _ => named o'
      | None => v :: named o'
      end
  end.

(** [Object.values(o)]: array-index keys first, in ascending numeric
    order, then the other keys in creation order. *)
Definition values (o : obj) : list V :=
  (map snd (js_sort index_gt (indexed o)) ++ named o)%list.
End Objects.

Arguments obj V : clear implicits.

End Js.

(** ** Date objects

    A Date holds a time value: milliseconds since 1970-01-01T00:00:00Z, or
    NaN ([None], an Invalid Date).  The functions are those of the
    ECMAScript specification; the local-time getters and [setDate] see the
    time value shifted by the host's offset from UTC, [tza] milliseconds
    (taken as constant), while [toISOString] prints UTC. *)

Module Date.
Import Js.

Local Open Scope string_scope.
Local Open Scope Z_scope.

Definition msPerDay : Z := 86400000.

Definition Day (t : Z) : Z := t / msPerDay.

Definition TimeWithinDay (t : Z) : Z := t mod msPerDay.

Definition DaysInYear (y : Z) : Z :=
  if (y mod 4 =? 0) && (negb (y mod 100 =? 0) || (y mod 400 =? 0)) then 366 else 365.

Definition DayFromYear (y : Z) : Z :=
  365 * (y - 1970) + (y - 1969) / 4 - (y - 1901) / 100 + (y - 1601) / 400.

(** The year whose first day is the latest one not after day [d]. *)
Definition YearFromDay (d : Z) : Z :=
  let y := 1970 + d * 400 / 146097 in
  if d <? DayFromYear y then y - 1
  else if DayFromYear (y + 1) <=? d then y + 1
  else y.

Definition YearFromTime (t : Z) : Z := YearFromDay (Day t).

Definition InLeapYear (t : Z) : Z :=
  if DaysInYear (YearFromTime t) =? 366 then 1 else 0.

Definition DayWithinYear (t : Z) : Z := Day t - DayFromYear (YearFromTime t).

(** Day number within the year on which month [m] (0 = January) starts. *)
Definition month_start (leap m : Z) : Z :=
  match m with
  | 0 => 0
  | 1 => 31
  | 2 => 59 + leap
  | 3 => 90 + leap
  | 4 => 120 + leap
  | 5 => 151 + leap
  | 6 => 181 + leap
  | 7 => 212 + leap
  | 8 => 243 + leap
  | 9 => 273 + leap
  | 10 => 304 + leap
  | 11 => 334 + leap
  | _ => 365 + leap
  end.

Definition MonthFromTime (t : Z) : Z :=
  let d := DayWithinYear t in
  let l := InLeapYear t in
  if d <? 31 then 0
  else if d <? 59 + l then 1
  else if d <? 90 + l then 2
  else if d <? 120 + l then 3
  else if d <? 151 + l then 4
  else if d <? 181 + l then 5
  else if d <? 212 + l then 6
  else if d <? 243 + l then 7
  else if d <? 273 + l then 8
  else if d <? 304 + l then 9
  else if d <? 334 + l then 10
  else 11.

Definition DateFromTime (t : Z) : Z :=
  DayWithinYear t - month_start (InLeapYear t) (MonthFromTime t) + 1.

(** 0 = Sunday, ..., 6 = Saturday. *)
Definition WeekDay (t : Z) : Z := (Day t + 4) mod 7.

Definition MakeDay (year month date : Z) : Z :=
  let ym := year + month / 12 in
  let mn := month mod 12 in
  DayFromYear ym
  + month_start (if DaysInYear ym =? 366 then 1 else 0) mn
  + date - 1.

Definition MakeDate (day time : Z) : Z := day * msPerDay + time.

Definition MakeTime (hour min sec ms : Z) : Z :=
  hour * 3600000 + min * 60000 + sec * 1000 + ms.

Definition TimeClip (t : Z) : option Z :=
  if Z.abs t <=? 8640000000000000 then Some t else None.

(** [Date.UTC(year, month, date, hours, minutes, seconds)] *)
Definition UTC (year month date hour min sec : Z) : option Z :=
  TimeClip (MakeDate (MakeDay year month date) (MakeTime hour min sec 0)).

Definition LocalTime (tza t : Z) : Z := t + tza.

Definition getDate (tza t : Z) : Z := DateFromTime (LocalTime tza t).
Definition getDay (tza t : Z) : Z := WeekDay (LocalTime tza t).
Definition getMonth (tza t : Z) : Z := MonthFromTime (LocalTime tza t).
Definition getFullYear (tza t : Z) : Z := YearFromTime (LocalTime tza t).

Definition HourFromTime (t : Z) : Z := (t / 3600000) mod 24.

Definition getHours (tza t : Z) : Z := HourFromTime (LocalTime tza t).

(** [d.setDate(dt)] on a valid Date: the new time value. *)
Definition setDate (tza t dt : Z) : option Z :=
  let lt := LocalTime tza t in
  let newDate :=
    MakeDate (MakeDay (YearFromTime lt) (MonthFromTime lt) dt) (TimeWithinDay lt) in
  TimeClip (newDate - tza).

Definition pad (w : nat) (n : Z) : string := padStart0 w (dec_string n).

(** The year as [toISOString] prints it: four digits, or a sign and six. *)
Definition iso_year (y : Z) : string :=
  if (0 <=? y) && (y <=? 9999) then pad 4 y
  else
    let sign := if y <? 0 then "-" else "+" in
    (sign ++ pad 6 (Z.abs y))%string.

(** [d.toISOString().split('T')[0]] on a valid Date. *)
Definition iso_date (t : Z) : string :=
  (iso_year (YearFromTime t) ++ "-" ++ pad 2 (MonthFromTime t + 1) ++ "-"
   ++ pad 2 (DateFromTime t))%string.

End Date.

(** ** The handlers of routes/analytics.js *)

Module Analytics.
Import Num Js Date.

Local Open Scope string_scope.
Local Open Scope Z_scope.

(** A row of [orders] with the columns the handlers read.  [o_created_at]
    is the time value of [new Date(order.created_at)]; [o_stores_name] and
    [o_delivery_companies_name] are the names of the joined rows. *)
Record order : Type := {
  o_total : json;
  o_status : json;
  o_created_at : option Z;
  o_created_by : ident;
  o_store_id : ident;
  o_stores_name : option string;
  o_delivery_company_id : ident;
  o_delivery_companies_name : option string
}.

Record user : Type := { u_created_at : json }.

Record campaign : Type := {
  c_status : json;
  c_recipients_count : option Z;
  c_opened_count : option Z;
  c_clicked_count : option Z
}.

(** What a handler sends: [res.json(body)] or an error status. *)
Inductive response (A : Type) : Type :=
| Json (body : A)
| Failure (status : Z) (message : string).

Arguments Json {A} body.
Arguments Failure {A} status message.

(** What a helper does: return or throw. *)
Inductive exn : Type := RangeError | TypeError.

Inductive outcome (A : Type) : Type :=
| Done (a : A)
| Throw (e : exn).

Arguments Done {A} a.
Arguments Throw {A} e.

(** [parseFloat(order.total) || 0] *)
Definition amount (o : order) : number := or_zero (parseFloat (o_total o)).

(** [o.status === s] *)
Definition has_status (s : string) (o : order) : bool :=
  match o_status o with
  | JStr t => String.eqb t s
  | _ => false
  end.

Definition count_status (s : string) (orders : list order) : Z :=
  Z.of_nat (List.length (filter (has_status s) orders)).

Definition len {A : Type} (l : list A) : Z := Z.of_nat (List.length l).

(** [orders.reduce((sum, o) => sum + (parseFloat(o.total) || 0), 0)] *)
Definition revenue_sum (orders : list order) : number :=
  fold_left (fun sum o => fadd sum (amount o)) orders zero.

(** *** GET /overview *)

Record status_counts : Type := {
  pending : Z;
  processing : Z;
  delivered : Z;
  cancelled : Z
}.

Record orders_section : Type := {
  total : Z;
  revenue : fixed;
  average_value : out;
  by_status : status_counts
}.

Record users_section : Type := {
  new_users : Z;
  total_users : Z
}.

Record campaigns_section : Type := {
  campaigns_total : Z;
  sent : Z;
  total_recipients : number;
  total_opens : number;
  total_clicks : number
}.

Record analytics : Type := {
  orders : orders_section;
  users : users_section;
  campaigns : campaigns_section
}.

(** [c.field || 0] on an integer column *)
Definition count_or_zero (c : option Z) : number :=
  match c with
  | Some n => of_Z n
  | None => zero
  end.

Definition sum_counts (f : campaign -> option Z) (cs : list campaign) : number :=
  fold_left (fun sum c => fadd sum (count_or_zero (f c))) cs zero.

Definition is_sent (c : campaign) : bool :=
  match c_status c with
  | JStr t => String.eqb t "sent"
  | _ => false
  end.

Definition summarize (os : list order) (us : list user) (cs : list campaign)
  : analytics :=
  {| orders :=
       {| total := len os;
          revenue := toFixed2 (revenue_sum os);
          average_value :=
            if 0 <? len os
            then OFixed (toFixed2 (fdiv (revenue_sum os) (of_Z (len os))))
            else ONum zero;
          by_status :=
            {| pending := count_status "pending" os;
               processing := count_status "processing" os;
               delivered := count_status "delivered" os;
               cancelled := count_status "cancelled" os |} |};
     users := {| new_users := len us; total_users := len us |};
     campaigns :=
       {| campaigns_total := len cs;
          sent := Z.of_nat (List.length (filter is_sent cs));
          total_recipients := sum_counts c_recipients_count cs;
          total_opens := sum_counts c_opened_count cs;
          total_clicks := sum_counts c_clicked_count cs |} |}.

(** *** GET /conversion-funnel *)

Record stage : Type := { count : Z; rate : out }.

Record funnel : Type := {
  f_pending : stage;
  f_processing : stage;
  f_delivered : stage;
  f_cancelled : stage;
  f_total : Z
}.

(** [total > 0 ? ((count / total) * 100).toFixed(2) : 0] *)
Definition rate_of (c t : Z) : out :=
  if 0 <? t then OFixed (toFixed2 (fmul (fdiv (of_Z c) (of_Z t)) (of_Z 100)))
  else ONum zero.

Definition stage_of (s : string) (os : list order) : stage :=
  {| count := count_status s os; rate := rate_of (count_status s os) (len os) |}.

Definition conversionFunnel (os : list order) : funnel :=
  {| f_pending := stage_of "pending" os;
     f_processing := stage_of "processing" os;
     f_delivered := stage_of "delivered" os;
     f_cancelled := stage_of "cancelled" os;
     f_total := len os |}.

(** *** GET /top-performers *)

(** The property key an entity reference converts to. *)
Definition key_of (i : ident) : string :=
  match i with
  | IdNull => "null"
  | IdInt n => dec_string n
  | IdStr s => s
  end.

(** [row?.name || 'Unknown'] *)
Definition name_or_unknown (n : option string) : string :=
  match n with
  | Some s => if String.eqb s "" then "Unknown" else s
  | None => "Unknown"
  end.

(** A rollup of the store grouping ([store_id], [store_name]) or of the
    delivery grouping ([delivery_id], [delivery_name]). *)
Record performance : Type := {
  entity_id : ident;
  entity_name : string;
  total_orders : Z;
  total_revenue : number
}.

Definition add_order (o : order) (p : performance) : performance :=
  {| entity_id := entity_id p;
     entity_name := entity_name p;
     total_orders := total_orders p + 1;
     total_revenue := fadd (total_revenue p) (amount o) |}.

Definition perf_step (id : order -> ident) (name : order -> option string)
  (acc : obj performance) (o : order) : obj performance :=
  touch (key_of (id o))
    {| entity_id := id o;
       entity_name := name_or_unknown (name o);
       total_orders := 0;
       total_revenue := zero |}
    (add_order o) acc.

Definition storePerformance (os : list order) : obj performance :=
  fold_left (perf_step o_store_id o_stores_name) os [].

Definition deliveryPerformance (os : list order) : obj performance :=
  fold_left (perf_step o_delivery_company_id o_delivery_companies_name) os [].

(** [(a, b) => b.total_revenue - a.total_revenue] is positive *)
Definition revenue_gt (a b : performance) : bool :=
  is_pos (fsub (total_revenue b) (total_revenue a)).

(** [(a, b) => b.total_orders - a.total_orders] is positive *)
Definition orders_gt (a b : performance) : bool :=
  0 <? total_orders b - total_orders a.

(** The [limit] query parameter once through [parseInt]; 10 when absent. *)
Definition parse_limit (limit : option string) : option Z :=
  match limit with
  | Some s => parseInt s
  | None => Some 10
  end.

Definition topPerformers (type limit : option string) (os : list order)
  : response (list performance) :=
  let type := match type with Some t => t | None => "stores" end in
  if String.eqb type "stores" then
    Json (slice_to (parse_limit limit)
            (js_sort revenue_gt (values (storePerformance os))))
  else if String.eqb type "delivery" then
    Json (slice_to (parse_limit limit)
            (js_sort orders_gt (values (deliveryPerformance os))))
  else Failure 400 "Invalid type parameter".

(** *** GET /customer-ltv *)

(** [!customerId] *)
Definition falsy (i : ident) : bool :=
  match i with
  | IdNull => true
  | IdInt n => n =? 0
  | IdStr s => String.eqb s ""
  end.

Record customer : Type := {
  customer_id : ident;
  customer_orders : Z;
  total_spent : number
}.

Definition add_purchase (o : order) (c : customer) : customer :=
  {| customer_id := customer_id c;
     customer_orders := customer_orders c + 1;
     total_spent := fadd (total_spent c) (amount o) |}.

Definition ltv_step (acc : obj customer) (o : order) : obj customer :=
  if falsy (o_created_by o) then acc
  else touch (key_of (o_created_by o))
         {| customer_id := o_created_by o; customer_orders := 0; total_spent := zero |}
         (add_purchase o) acc.

Definition customerValues (os : list order) : obj customer :=
  fold_left ltv_step os [].

Definition spent_gt (a b : customer) : bool :=
  is_pos (fsub (total_spent b) (total_spent a)).

Record ltv : Type := {
  average_ltv : out;
  total_customers : Z;
  top_customers : list customer
}.

Definition customerLifetimeValue (os : list order) : ltv :=
  let customers := values (customerValues os) in
  {| average_ltv :=
       if 0 <? len customers
       then OFixed (toFixed2
              (fdiv (fold_left (fun sum c => fadd sum (total_spent c)) customers zero)
                    (of_Z (len customers))))
       else ONum zero;
     total_customers := len customers;
     top_customers := slice_to (Some 10) (js_sort spent_gt customers) |}.

(** *** groupByPeriod (GET /revenue) *)

Record bucket : Type := {
  period : option string;       (* [None] is [undefined] *)
  bucket_revenue : number;
  bucket_orders : Z
}.

(** The [key] computed for one order; [None] when no branch assigns it. *)
Definition period_key (tza : Z) (unit : string) (date : option Z)
  : outcome (option string) :=
  if String.eqb unit "day" then
    match date with
    | Some t => Done (Some (iso_date t))
    | None => Throw RangeError
    end
  else if String.eqb unit "week" then
    match date with
    | Some t =>
        match setDate tza t (getDate tza t - getDay tza t) with
        | Some weekStart => Done (Some (iso_date weekStart))
        | None => Throw RangeError
        end
    | None => Throw RangeError
    end
  else if String.eqb unit "month" then
    match date with
    | Some t =>
        Done (Some (dec_string (getFullYear tza t) ++ "-"
                    ++ padStart0 2 (dec_string (getMonth tza t + 1)))%string)
    | None => Done (Some "NaN-NaN")
    end
  else if String.eqb unit "year" then
    match date with
    | Some t => Done (Some (dec_string (getFullYear tza t)))
    | None => Done (Some "NaN")
    end
  else Done None.

Definition property_key (key : option string) : string :=
  match key with
  | Some s => s
  | None => "undefined"
  end.

Definition add_to_bucket (o : order) (b : bucket) : bucket :=
  {| period := period b;
     bucket_revenue := fadd (bucket_revenue b) (amount o);
     bucket_orders := bucket_orders b + 1 |}.

Definition bucket_step (tza : Z) (unit : string)
  (acc : outcome (obj bucket)) (o : order) : outcome (obj bucket) :=
  match acc with
  | Throw e => Throw e
  | Done grouped =>
      match period_key tza unit (o_created_at o) with
      | Throw e => Throw e
      | Done key =>
          Done (touch (property_key key)
                  {| period := key; bucket_revenue := zero; bucket_orders := 0 |}
                  (add_to_bucket o) grouped)
      end
  end.

(** [a.period.localeCompare(b.period) > 0]; on keys of one format the
    collation order is the order of the digits. *)
Definition period_gt (a b : bucket) : bool :=
  match String.compare (property_key (period a)) (property_key (period b)) with
  | Gt => true
  | _ => false
  end.

Definition defined_period (b : bucket) : bool :=
  match period b with
  | Some _ => true
  | None => false
  end.

(** [.sort((a, b) => a.period.localeCompare(b.period))]: with fewer than
    two buckets the comparator is not called; called on an [undefined]
    period it throws. *)
Definition sort_buckets (l : list bucket) : outcome (list bucket) :=
  match l with
  | [] | [_] => Done l
  | _ => if forallb defined_period l then Done (js_sort period_gt l)
         else Throw TypeError
  end.

Definition groupByPeriod (tza : Z) (os : list order) (unit : string)
  : outcome (list bucket) :=
  match fold_left (bucket_step tza unit) os (Done []) with
  | Throw e => Throw e
  | Done grouped => sort_buckets (values grouped)
  end.

(** *** groupOrdersByPeriod (GET /orders/trends) *)

(** The value of a property of a trend entry.  [FNative k n] is the text
    of the function [Object.prototype[k]] followed by [n] digits 1: what
    adding 1 to an inherited member gives. *)
Inductive field : Type :=
| FUndefined
| FCount (n : Z)
| FText (s : string)
| FNative (k : string) (ones : nat).

(** [(v || 0) + 1] *)
Definition bump (v : field) : field :=
  match v with
  | FUndefined => FCount 1
  | FCount n => FCount (n + 1)
  | FText s => if String.eqb s "" then FCount 1 else FText (s ++ "1")%string
  | FNative k n => FNative k (S n)
  end.

(** A trend entry: [period], [total], then the status counters in creation
    order, the four fixed ones first. *)
Record trend : Type := {
  t_period : field;
  t_total : Z;
  t_statuses : obj field
}.

Definition fresh_trend (key : option string) : trend :=
  {| t_period := match key with Some s => FText s | None => FUndefined end;
     t_total := 0;
     t_statuses := [("pending", FCount 0); ("processing", FCount 0);
                    ("delivered", FCount 0); ("cancelled", FCount 0)] |}.

(** The property name [order.status] converts to.  The text of a JSON
    number is not modelled: [None]. *)
Definition status_name (v : json) : option string :=
  match v with
  | JNull => Some "null"
  | JBool b => Some (if b then "true" else "false")
  | JNum _ _ => None
  | JStr s => Some s
  end.

(** [entry[s] = (entry[s] || 0) + 1]: the name may be [period] or [total];
    an inherited member is read from the prototype and its text lands in an
    own property, except [__proto__], whose setter ignores a text. *)
Definition count_under (s : string) (e : trend) : trend :=
  if String.eqb s "period" then
    {| t_period := bump (t_period e); t_total := t_total e;
       t_statuses := t_statuses e |}
  else if String.eqb s "total" then
    {| t_period := t_period e; t_total := t_total e + 1;
       t_statuses := t_statuses e |}
  else
    match get s (t_statuses e) with
    | Some _ =>
        {| t_period := t_period e; t_total := t_total e;
           t_statuses := update s bump (t_statuses e) |}
    | None =>
        if String.eqb s "__proto__" then e
        else
          {| t_period := t_period e; t_total := t_total e;
             t_statuses :=
               (t_statuses e
                ++ [(s, if inherited s then FNative s 1 else FCount 1)])%list |}
    end.

(** [entry.total += 1; entry[order.status] = (entry[order.status] || 0) + 1] *)
Definition add_to_trend (s : string) (e : trend) : trend :=
  count_under s
    {| t_period := t_period e; t_total := t_total e + 1;
       t_statuses := t_statuses e |}.

Definition trend_key (tza : Z) (unit : string) (date : option Z)
  : outcome (option string) :=
  if String.eqb unit "day" then
    match date with
    | Some t => Done (Some (iso_date t))
    | None => Throw RangeError
    end
  else if String.eqb unit "hour" then
    match date with
    | Some t =>
        Done (Some (iso_date t ++ " "
                    ++ padStart0 2 (dec_string (getHours tza t)) ++ ":00")%string)
    | None => Throw RangeError
    end
  else Done None.

(** One order; [None] when the order's status is a JSON number. *)
Definition trend_step (tza : Z) (unit : string)
  (acc : option (outcome (obj trend))) (o : order)
  : option (outcome (obj trend)) :=
  match acc with
  | None => None
  | Some (Throw e) => Some (Throw e)
  | Some (Done grouped) =>
      match trend_key tza unit (o_created_at o) with
      | Throw e => Some (Throw e)
      | Done key =>
          match status_name (o_status o) with
          | None => None
          | Some s =>
              Some (Done (touch (property_key key) (fresh_trend key)
                            (add_to_trend s) grouped))
          end
      end
  end.

Definition trend_gt (a b : trend) : bool :=
  match t_period a, t_period b with
  | FText x, FText y =>
      match String.compare x y with
      | Gt => true
      | _ => false
      end
  | _, _ => false
  end.

Definition text_period (e : trend) : bool :=
  match t_period e with
  | FText _ => true
  | _ => false
  end.

(** The final sort: as for the revenue buckets, the comparator is not
    called on fewer than two entries and throws on a period that is not a
    text. *)
Definition sort_trends (l : list trend) : outcome (list trend) :=
  match l with
  | [] | [_] => Done l
  | _ => if forallb text_period l then Done (js_sort trend_gt l)
         else Throw TypeError
  end.

Definition groupOrdersByPeriod (tza : Z) (os : list order) (unit : string)
  : option (outcome (list trend)) :=
  match fold_left (trend_step tza unit) os (Some (Done [])) with
  | None => None
  | Some (Throw e) => Some (Throw e)
  | Some (Done grouped) => Some (sort_trends (values grouped))
  end.

(** *** The handlers around the two helpers *)

(** [period = 'month'] in the destructuring of the query: the default
    stands in for an absent parameter only. *)
Definition or_default (d : string) (p : option string) : string :=
  match p with
  | Some s => s
  | None => d
  end.

(** GET /revenue once the orders are fetched: a throw of the helper is
    caught and answered with status 500. *)
Definition revenueAnalytics (tza : Z) (period : option string) (os : list order)
  : response (list bucket) :=
  match groupByPeriod tza os (or_default "month" period) with
  | Done l => Json l
  | Throw _ => Failure 500 "Failed to get revenue analytics"
  end.

(** The start of the window of GET /orders/trends at the time [now]:
    [startDate.setDate(startDate.getDate() - parseInt(days))], [None] being
    an Invalid Date. *)
Definition trends_start (tza now : Z) (days : option string) : option Z :=
  match (match days with Some s => parseInt s | None => Some 30 end) with
  | Some n => setDate tza now (getDate tza now - n)
  | None => None
  end.

(** GET /orders/trends: [rows] is what the store returns for a start
    time; [toISOString] throws on an Invalid Date before the store is
    asked. *)
Definition orderTrends (tza now : Z) (period days : option string)
  (rows : Z -> list order) : option (response (list trend)) :=
  match trends_start tza now days with
  | None => Some (Failure 500 "Failed to get order trends")
  | Some start =>
      match groupOrdersByPeriod tza (rows start) (or_default "day" period) with
      | None => None
      | Some (Throw _) => Some (Failure 500 "Failed to get order trends")
      | Some (Done l) => Some (Json l)
      end
  end.

(** The default start of the window of GET /overview:
    [new Date().setDate(new Date().getDate() - 30)], the clock being read
    at [now] for the receiver and then at [later] for the argument. *)
Definition overview_start (tza now later : Z) : option Z :=
  setDate tza now (getDate tza later - 30).

(** *** Notions used to state properties of the handlers *)

(** A rate as a number of hundredths: the digits of a [toFixed(2)] string,
    or the Number 0. *)
Definition rate_value (r : out) : option Z :=
  match r with
  | ONum (Fin 0) => Some 0
  | OFixed (FxDec false n) => Some n
  | OFixed (FxDec true n) => Some (- n)
  | _ => None
  end.

(** The rate [r] is the [toFixed(2)] text of [n] hundredths, [n / 100]
    being the percentage [100 * c / t] up to half a hundredth and the two
    roundings of the quotient and of the product:
    [|n / 100 - 100 * c / t| <= 1 / 200 + 3 * (100 * c / t) / 2^53]. *)
Definition rate_near (r : out) (c t : Z) : Prop :=
  exists n, r = OFixed (FxDec false n)
    /\ 0 <= n <= 10000
    /\ 2 ^ 53 * (2 * n * t - 20000 * c - t) <= 60000 * c
    /\ 2 ^ 53 * (20000 * c - t - 2 * n * t) <= 60000 * c.

(** The sum of the four rates of a funnel, in hundredths. *)
Definition rate_sum (f : funnel) : option Z :=
  match rate_value (rate (f_pending f)), rate_value (rate (f_processing f)),
        rate_value (rate (f_delivered f)), rate_value (rate (f_cancelled f)) with
  | Some a, Some b, Some c, Some d => Some (a + b + c + d)
  | _, _, _, _ => None
  end.

Definition known_status (o : order) : bool :=
  has_status "pending" o || has_status "processing" o
  || has_status "delivered" o || has_status "cancelled" o.

(** The total of [o] is the amount of [c] whole cents. *)
Definition whole_cents (o : order) (c : Z) : Prop :=
  0 <= c /\ amount o = of_decimal c (-2).

Definition sum_Z (l : list Z) : Z := fold_right Z.add 0 l.

Definition finite_amount (o : order) : Prop := is_finite (amount o) = true.




(** The orders of [os] whose entity reference converts to the key [k]. *)
Definition with_key (id : order -> ident) (k : string) (os : list order)
  : list order :=
  filter (fun o => String.eqb (key_of (id o)) k) os.


(** The customer entry opened by [o1] once the orders [l] are added. *)
Definition account_of (o1 : order) (l : list order) : customer :=
  fold_left (fun c o => add_purchase o c) l
    {| customer_id := o_created_by o1; customer_orders := 0; total_spent := zero |}.

(** The orders that reach the customer grouping. *)
Definition with_customer (os : list order) : list order :=
  filter (fun o => negb (falsy (o_created_by o))) os.

(** The text starts like a number or a date: with a digit or a sign. *)
Definition starts_numeric (s : string) : bool :=
  match s with
  | String c _ => is_digit c || Ascii.eqb c "-" || Ascii.eqb c "+"
  | EmptyString => false
  end.

(** The period of an order, [None] also when computing it throws. *)
Definition order_period (tza : Z) (unit : string) (o : order) : option string :=
  match period_key tza unit (o_created_at o) with
  | Done key => key
  | Throw _ => None
  end.

Definition period_throws (tza : Z) (unit : string) (o : order) : bool :=
  match period_key tza unit (o_created_at o) with
  | Done _ => false
  | Throw _ => true
  end.

(** The orders of [os] whose period converts to the property [k]. *)
Definition in_period (tza : Z) (unit k : string) (os : list order) : list order :=
  filter (fun o => String.eqb (property_key (order_period tza unit o)) k) os.

(** The bucket of period [key] holding the orders [l]. *)
Definition bucket_of (key : option string) (l : list order) : bucket :=
  {| period := key; bucket_revenue := revenue_sum l; bucket_orders := len l |}.

Definition sum_by {A : Type} (f : A -> Z) (l : list A) : Z :=
  fold_right Z.add 0 (map f l).

(** The period of an order for the trends, [None] also when computing
    it throws. *)
Definition trend_period (tza : Z) (unit : string) (o : order) : option string :=
  match trend_key tza unit (o_created_at o) with
  | Done key => key
  | Throw _ => None
  end.

(** The property name of the status of an order, empty where it is not
    modelled. *)
Definition status_text (o : order) : string :=
  match status_name (o_status o) with
  | Some s => s
  | None => ""
  end.

(** The order passes through [trend_step]: its date is a date and its
    status has a modelled name. *)
Definition trend_runs (tza : Z) (unit : string) (o : order) : bool :=
  match trend_key tza unit (o_created_at o), status_name (o_status o) with
  | Done _, Some _ => true
  | _, _ => false
  end.

Definition in_trend (tza : Z) (unit k : string) (os : list order) : list order :=
  filter (fun o => String.eqb (property_key (trend_period tza unit o)) k) os.

(** The trend entry of period [key] after the orders [l]. *)
Definition trend_of (key : option string) (l : list order) : trend :=
  fold_left (fun e o => add_to_trend (status_text o) e) l (fresh_trend key).

(** What one order adds to the [total] of its entry. *)
Definition total_weight (o : order) : Z :=
  if String.eqb (status_text o) "total" then 2 else 1.

(** A count column read as an integer, null as 0. *)
Definition count_of (c : option Z) : Z :=
  match c with
  | Some n => n
  | None => 0
  end.

(** *** Sample rows *)

Definition blank : order :=
  {| o_total := JNull; o_status := JNull; o_created_at := None;
     o_created_by := IdNull; o_store_id := IdNull; o_stores_name := None;
     o_delivery_company_id := IdNull; o_delivery_companies_name := None |}.

Definition with_status (s : string) : order :=
  {| o_total := JNull; o_status := JStr s; o_created_at := None;
     o_created_by := IdNull; o_store_id := IdNull; o_stores_name := None;
     o_delivery_company_id := IdNull; o_delivery_companies_name := None |}.

Definition with_total (t : json) : order :=
  {| o_total := t; o_status := JStr "pending"; o_created_at := None;
     o_created_by := IdNull; o_store_id := IdNull; o_stores_name := None;
     o_delivery_company_id := IdNull; o_delivery_companies_name := None |}.

(** An order of [t] for store and delivery company [n], both named [name]. *)
Definition sale (n : Z) (name : string) (t : json) : order :=
  {| o_total := t; o_status := JStr "delivered"; o_created_at := None;
     o_created_by := IdInt n; o_store_id := IdInt n; o_stores_name := Some name;
     o_delivery_company_id := IdInt n; o_delivery_companies_name := Some name |}.


Definition placed_at (t : Z) : order :=
  {| o_total := JNum 1 0; o_status := JStr "pending"; o_created_at := Some t;
     o_created_by := IdNull; o_store_id := IdNull; o_stores_name := None;
     o_delivery_company_id := IdNull; o_delivery_companies_name := None |}.

End Analytics.

(** ** The token check of middleware/auth.js

    The identity service is a parameter: what [getUser] answers for a
    token, and what the [users] table answers for a user id. *)

Module Auth.
Import Js.

Local Open Scope string_scope.
Local Open Scope Z_scope.

(** [s.split(' ')] *)
Fixpoint split_space (s : string) : list string :=
  match s with
  | EmptyString => [EmptyString]
  | String c s' =>
      if Ascii.eqb c " " then EmptyString :: split_space s'
      else
        match split_space s' with
        | p :: ps => String c p :: ps
        | [] => [String c EmptyString]
        end
  end.

(** [authHeader && authHeader.split(' ')[1]]; [None] when it is falsy:
    no header, an empty header, no second part or an empty one. *)
Definition token_of (authHeader : option string) : option string :=
  match authHeader with
  | None => None
  | Some h =>
      if String.eqb h "" then None
      else
        match nth_error (split_space h) 1 with
        | Some t => if String.eqb t "" then None else Some t
        | None => None
        end
  end.

(** A middleware ends the request with a status or passes it on. *)
Inductive passage (A : Type) : Type :=
| Stop (status : Z) (message : string)
| Pass (a : A).

Arguments Stop {A} status message.
Arguments Pass {A} a.

(** What [supabase.auth.getUser(token)] does: it throws, or it resolves
    with a user or none and an error or none. *)
Inductive lookup : Type :=
| Raised
| Answered (user : option string) (error : bool).

Definition authenticateToken (getUser : string -> lookup)
  (authHeader : option string) : passage string :=
  match token_of authHeader with
  | None => Stop 401 "Access token required"
  | Some token =>
      match getUser token with
      | Raised => Stop 500 "Authentication failed"
      | Answered user error =>
          if error then Stop 401 "Invalid or expired token"
          else
            match user with
            | None => Stop 401 "Invalid or expired token"
            | Some u => Pass u
            end
      end
  end.

(** What the query of the role of a user does: it throws, or it resolves
    with the role of the row found, if any, and an error or none. *)
Inductive role_lookup : Type :=
| RoleRaised
| RoleAnswered (role : option json) (error : bool).

Definition requireAdmin (roleOf : string -> role_lookup) (user : option string)
  : passage unit :=
  match user with
  | None => Stop 401 "Authentication required"
  | Some u =>
      match roleOf u with
      | RoleRaised => Stop 500 "Authorization failed"
      | RoleAnswered role error =>
          if error then Stop 403 "Admin access required"
          else
            match role with
            | Some (JStr r) =>
                if String.eqb r "admin" then Pass tt
                else Stop 403 "Admin access required"
            | _ => Stop 403 "Admin access required"
            end
      end
  end.

(** The text has a space in it. *)
Fixpoint has_space (s : string) : bool :=
  match s with
  | EmptyString => false
  | String c s' => Ascii.eqb c " " || has_space s'
  end.

End Auth.

(** ** The statistics of routes/chatbots.js *)

Module Chatbots.
Import Num Js Date.

Local Open Scope string_scope.
Local Open Scope Z_scope.

(** A row of [chatbot_sessions].  [s_started_at] is the time value of
    [new Date(s.started_at)]; [s_ended_at] is [None] for a null column and
    else the time value of [new Date(s.ended_at)]; [s_messages] is the
    length of the messages, [None] for a null column. *)
Record session : Type := {
  s_started_at : option Z;
  s_ended_at : option (option Z);
  s_messages : option Z
}.

(** [new Date(now.getFullYear(), now.getMonth() - 1, 1)]: local midnight
    of the first day of the month before; a year from 0 to 99 counts from
    1900. *)
Definition lastMonth (tza now : Z) : option Z :=
  let y := getFullYear tza now in
  let yr := if (0 <=? y) && (y <=? 99) then 1900 + y else y in
  TimeClip (MakeDate (MakeDay yr (getMonth tza now - 1) 1) 0 - tza).

(** [new Date(s.started_at) >= lastMonth] *)
Definition since (start : option Z) (s : session) : bool :=
  match s_started_at s, start with
  | Some a, Some b => b <=? a
  | _, _ => false
  end.

(** [!s.ended_at] *)
Definition is_active (s : session) : bool :=
  match s_ended_at s with
  | None => true
  | Some _ => false
  end.

(** [s.messages?.length || 0] *)
Definition messages_length (s : session) : number :=
  match s_messages s with
  | Some n => of_Z n
  | None => zero
  end.

(** The Number a Date converts to. *)
Definition time_number (d : option Z) : number :=
  match d with
  | Some t => of_Z t
  | None => NaN
  end.

(** [new Date(s.ended_at)]; of null it is the epoch. *)
Definition end_date (s : session) : option Z :=
  match s_ended_at s with
  | Some d => d
  | None => Some 0
  end.

(** [(end - start) / 1000 / 60] *)
Definition minutes (s : session) : number :=
  fdiv (fdiv (fsub (time_number (end_date s)) (time_number (s_started_at s)))
          (of_Z 1000))
       (of_Z 60).

Definition calculateAvgDuration (sessions : list session) : fixed :=
  toFixed2
    (fdiv (fold_left (fun sum d => fadd sum d) (map minutes sessions) zero)
          (of_Z (Z.of_nat (List.length sessions)))).

Record stats : Type := {
  total_sessions : Z;
  active_sessions : Z;
  avg_messages_per_session : out;
  avg_session_duration : out
}.

(** GET /stats once the sessions are fetched, at the time [now]. *)
Definition chatbotStats (tza now : Z) (sessions : list session) : stats :=
  let current := filter (since (lastMonth tza now)) sessions in
  let ended := filter (fun s => negb (is_active s)) current in
  let n := Z.of_nat (List.length current) in
  {| total_sessions := n;
     active_sessions := Z.of_nat (List.length (filter is_active current));
     avg_messages_per_session :=
       if 0 <? n
       then OFixed (toFixed2
              (fdiv (fold_left (fun sum s => fadd sum (messages_length s)) current zero)
                    (of_Z n)))
       else ONum zero;
     avg_session_duration :=
       if 0 <? Z.of_nat (List.length ended)
       then OFixed (calculateAvgDuration ended)
       else ONum zero |}.

(** GET /sessions: [offset + limit - 1], the end of the range asked of
    the store.  A parameter of the query is a text, an absent one is the
    Number of its default, and [+] with a text on either side joins the
    two texts. *)
Definition range_end (offset limit : option string) : number :=
  match offset, limit with
  | None, None => fsub (fadd (of_Z 0) (of_Z 50)) (of_Z 1)
  | Some o, None => fsub (to_number (o ++ "50")) (of_Z 1)
  | None, Some l => fsub (to_number ("0" ++ l)) (of_Z 1)
  | Some o, Some l => fsub (to_number (o ++ l)) (of_Z 1)
  end.

(** The text is made of decimal digits only. *)
Fixpoint all_digits (s : string) : bool :=
  match s with
  | EmptyString => true
  | String c s' => is_digit c && all_digits s'
  end.

(** The integer a text of digits denotes. *)
Definition digits_value (s : string) : Z := fst (fst (digits s 0 0)).

(** A session of the sample: started at [a], ended at [b] or still open. *)
Definition talk (a : option Z) (b : option (option Z)) : session :=
  {| s_started_at := a; s_ended_at := b; s_messages := Some 2 |}.

End Chatbots.

Module NumFacts.
Import Num.

Lemma U_pos : 0 < U.
Proof. unfold U. apply Z.pow_pos_nonneg; lia. Qed.

Lemma round_half_even_near (p d : Z) :
  0 <= p -> 0 < d ->
  0 <= round_half_even p d /\ 2 * Z.abs (round_half_even p d * d - p) <= d.
Proof.
  intros Hp Hd. unfold round_half_even.
  pose proof (Z.div_mod p d) as E.
  pose proof (Z.mod_pos_bound p d Hd) as B.
  pose proof (Z.div_pos p d Hp Hd) as Q.
  destruct (2 * (p mod d) <? d) eqn:C1; [apply Z.ltb_lt in C1; nia|].
  apply Z.ltb_ge in C1.
  destruct (d <? 2 * (p mod d)) eqn:C2; [apply Z.ltb_lt in C2; nia|].
  apply Z.ltb_ge in C2.
  destruct (Z.even (p / d)); nia.
Qed.

Lemma round_half_even_exact (p d : Z) :
  0 < d -> p mod d = 0 -> round_half_even p d = p / d.
Proof.
  intros Hd E. unfold round_half_even. rewrite E.
  destruct (2 * 0 <? d) eqn:C; [reflexivity|]. apply Z.ltb_ge in C. lia.
Qed.

Lemma ulp_shift_nonneg (q : Z) : 0 <= ulp_shift q.
Proof.
  unfold ulp_shift. destruct (q <? 2 ^ 53) eqn:C; [lia|].
  apply Z.ltb_ge in C.
  assert (53 <= Z.log2 q) by (apply Z.log2_le_pow2; lia). lia.
Qed.

Lemma ulp_shift_spec (q : Z) :
  2 ^ 53 <= q ->
  2 ^ 52 * 2 ^ ulp_shift q <= q < 2 ^ 53 * 2 ^ ulp_shift q.
Proof.
  intros H. unfold ulp_shift.
  destruct (q <? 2 ^ 53) eqn:C; [apply Z.ltb_lt in C; lia|].
  assert (53 <= Z.log2 q) by (apply Z.log2_le_pow2; lia).
  assert (0 < q) by lia.
  pose proof (Z.log2_spec q H1) as [L1 L2].
  replace (Z.succ (Z.log2 q)) with (53 + (Z.log2 q - 52)) in L2 by lia.
  replace (Z.log2 q) with (52 + (Z.log2 q - 52)) in L1 at 1 by lia.
  rewrite Z.pow_add_r in L1, L2 by lia. lia.
Qed.

Lemma pow2_pos (e : Z) : 0 <= e -> 0 < 2 ^ e.
Proof. intros. apply Z.pow_pos_nonneg; lia. Qed.

(** Below [2^53] the magnitude is rounded to the nearest unit. *)
Lemma round_mag_small (p d : Z) :
  0 <= p -> 0 < d -> p / d < 2 ^ 53 ->
  round_mag p d = round_half_even p d.
Proof.
  intros Hp Hd Hq. unfold round_mag, ulp_shift.
  apply Z.ltb_lt in Hq. rewrite Hq.
  change (2 ^ 0) with 1. rewrite !Z.mul_1_r. reflexivity.
Qed.

(** From [2^53] on the relative error is at most [2^-53]. *)
Lemma round_mag_big (p d : Z) :
  0 <= p -> 0 < d -> 2 ^ 53 <= p / d ->
  2 ^ 53 * Z.abs (round_mag p d * d - p) <= p.
Proof.
  intros Hp Hd Hq. unfold round_mag.
  pose proof (ulp_shift_spec _ Hq) as [S1 _].
  pose proof (ulp_shift_nonneg (p / d)) as S0.
  set (s := ulp_shift (p / d)) in *.
  pose proof (pow2_pos s S0) as Ps.
  assert (HD : 0 < d * 2 ^ s) by nia.
  destruct (round_half_even_near p (d * 2 ^ s) Hp HD) as [_ E].
  set (m := round_half_even p (d * 2 ^ s)) in *.
  replace (m * 2 ^ s * d) with (m * (d * 2 ^ s)) by ring.
  pose proof (Z.mul_div_le p d Hd) as Q.
  assert (2 ^ 52 * (d * 2 ^ s) <= p) by nia.
  lia.
Qed.

(** The rounded magnitude is a significand of at most 53 bits (or [2^53]
    after a carry) times a power of two. *)
Lemma round_mag_form (p d : Z) :
  0 <= p -> 0 < d ->
  exists m e, round_mag p d = m * 2 ^ e /\ 0 <= m <= 2 ^ 53 /\ 0 <= e.
Proof.
  intros Hp Hd. unfold round_mag.
  pose proof (ulp_shift_nonneg (p / d)) as S0.
  exists (round_half_even p (d * 2 ^ ulp_shift (p / d))), (ulp_shift (p / d)).
  split; [reflexivity|]. split; [|assumption].
  set (s := ulp_shift (p / d)) in *.
  pose proof (pow2_pos s S0) as Ps.
  assert (HD : 0 < d * 2 ^ s) by nia.
  assert (Hlt : p / (d * 2 ^ s) < 2 ^ 53).
  { apply Z.div_lt_upper_bound; [assumption|].
    destruct (Z_lt_le_dec (p / d) (2 ^ 53)) as [C|C].
    - unfold s, ulp_shift. apply Z.ltb_lt in C as C'. rewrite C'.
      change (2 ^ 0) with 1. rewrite Z.mul_1_r.
      pose proof (Z.mul_succ_div_gt p d Hd). nia.
    - pose proof (ulp_shift_spec _ C) as [_ S2]. fold s in S2.
      pose proof (Z.mul_succ_div_gt p d Hd). nia. }
  unfold round_half_even.
  pose proof (Z.div_pos p (d * 2 ^ s) Hp HD).
  repeat match goal with |- context [if ?b then _ else _] => destruct b end; lia.
Qed.

(** A value of that form is left unchanged. *)
Lemma round_mag_exact (m e : Z) :
  0 <= m <= 2 ^ 53 -> 0 <= e -> round_mag (m * 2 ^ e) 1 = m * 2 ^ e.
Proof.
  intros Hm He. pose proof (pow2_pos e He) as Pe.
  destruct (Z_lt_le_dec (m * 2 ^ e) (2 ^ 53)) as [C|C].
  - rewrite round_mag_small; rewrite ?Z.div_1_r; try nia.
    rewrite round_half_even_exact; rewrite ?Z.div_1_r, ?Z.mod_1_r; lia.
  - unfold round_mag. rewrite Z.div_1_r, Z.mul_1_l.
    pose proof (ulp_shift_nonneg (m * 2 ^ e)) as S0.
    assert (Hs : ulp_shift (m * 2 ^ e) = Z.log2 m + e - 52).
    { unfold ulp_shift. apply Z.ltb_ge in C. rewrite C.
      rewrite Z.log2_mul_pow2 by nia. lia. }
    set (s := ulp_shift (m * 2 ^ e)) in *.
    pose proof (pow2_pos s S0) as Ps.
    assert (D : exists c, m * 2 ^ e = c * 2 ^ s).
    { assert (Hm0 : 0 < m) by nia.
      pose proof (Z.log2_spec m Hm0) as [L1 L2].
      destruct (Z_le_gt_dec (Z.log2 m) 52) as [L|L].
      - exists (m * 2 ^ (e - s)).
        rewrite <- Z.mul_assoc, <- Z.pow_add_r by lia. f_equal. f_equal. lia.
      - assert (Z.log2 m = 53).
        { assert (Z.log2 m <= Z.log2 (2 ^ 53)) by (apply Z.log2_le_mono; lia).
          rewrite Z.log2_pow2 in H by lia. lia. }
        assert (m = 2 ^ 53).
        { rewrite H in L1. lia. }
        subst m. exists (2 ^ 52).
        rewrite <- !Z.pow_add_r by lia. f_equal. lia. }
    destruct D as [c Dc]. rewrite Dc.
    rewrite round_half_even_exact by (rewrite ?Z.mod_mul; lia).
    rewrite Z.div_mul by lia. reflexivity.
Qed.

Lemma round_mag_zero (d : Z) : 0 < d -> round_mag 0 d = 0.
Proof.
  intros Hd. rewrite round_mag_small by (rewrite ?Z.div_0_l; lia).
  unfold round_half_even. rewrite Z.div_0_l, Z.mod_0_l by lia.
  destruct (2 * 0 <? d) eqn:C; [reflexivity|]. apply Z.ltb_ge in C. lia.
Qed.

Lemma round_mag_nonneg (p d : Z) : 0 <= p -> 0 < d -> 0 <= round_mag p d.
Proof.
  intros Hp Hd. destruct (round_mag_form p d Hp Hd) as (m & e & -> & Hm & He).
  pose proof (pow2_pos e He). nia.
Qed.

Lemma round_mag_int_pos (z : Z) : 0 < z -> 0 < round_mag z 1.
Proof.
  intros Hz. destruct (Z_lt_le_dec z (2 ^ 53)) as [C|C].
  - rewrite round_mag_small; rewrite ?Z.div_1_r; try lia.
    rewrite round_half_even_exact; rewrite ?Z.div_1_r, ?Z.mod_1_r; lia.
  - pose proof (round_mag_big z 1) as B. rewrite Z.div_1_r in B.
    specialize (B ltac:(lia) ltac:(lia) C). lia.
Qed.

(** *** Representable values *)


Lemma round_ratio_cases (p d : Z) :
  0 < d ->
  (round_ratio p d = Inf (p <? 0) /\ 2 ^ 2098 <= round_mag (Z.abs p) d) \/
  (round_ratio p d = Fin (Z.sgn p * round_mag (Z.abs p) d)
   /\ 0 <= round_mag (Z.abs p) d < 2 ^ 2098).
Proof.
  intros Hd. unfold round_ratio.
  pose proof (round_mag_nonneg (Z.abs p) d (Z.abs_nonneg p) Hd).
  destruct (2 ^ 2098 <=? round_mag (Z.abs p) d) eqn:C.
  - left. apply Z.leb_le in C. auto.
  - right. apply Z.leb_gt in C. auto.
Qed.

Lemma round_ratio_wf (p d : Z) : 0 < d -> wf (round_ratio p d).
Proof.
  intros Hd. destruct (round_ratio_cases p d Hd) as [[-> _]|[-> B]]; [exact I|].
  simpl. unfold representable.
  destruct (round_mag_form (Z.abs p) d (Z.abs_nonneg p) Hd) as (m & e & E & Hm & He).
  set (k := round_mag (Z.abs p) d) in *.
  assert (A : Z.abs (Z.sgn p * k) = k \/ k = 0).
  { destruct (Z.sgn_spec p) as [[_ ->]|[[P0 ->]|[_ ->]]]; try lia.
    right. unfold k. rewrite <- P0. simpl Z.abs. apply round_mag_zero. lia. }
  assert (R : round_mag k 1 = k) by (rewrite E; apply round_mag_exact; assumption).
  destruct A as [A|A].
  - unfold round_ratio. rewrite A, R.
    destruct (2 ^ 2098 <=? k) eqn:C; [apply Z.leb_le in C; lia|].
    f_equal. clear - B.
    destruct (Z.sgn_spec p) as [[_ ->]|[[_ ->]|[_ ->]]];
      rewrite ?Z.mul_1_l, ?Z.mul_0_l; try reflexivity.
    + destruct (Z.sgn_spec k) as [[? ->]|[[? ->]|[? ->]]]; lia.
    + rewrite Z.mul_opp_l, Z.mul_1_l.
      destruct (Z.sgn_spec (- k)) as [[? ->]|[[? ->]|[? ->]]]; lia.
  - rewrite A, Z.mul_0_r. unfold round_ratio. simpl Z.abs.
    rewrite round_mag_zero by lia. reflexivity.
Qed.

Lemma wf_zero : wf zero.
Proof.
  simpl. unfold representable, round_ratio. simpl Z.abs.
  rewrite round_mag_zero by lia. reflexivity.
Qed.

Lemma fadd_wf (x y : number) : wf (fadd x y).
Proof.
  destruct x as [|a|a], y as [|b|b]; simpl; try exact I.
  - destruct (Bool.eqb a b); exact I.
  - apply round_ratio_wf. lia.
Qed.

(** Adding zero changes nothing. *)
Lemma fadd_zero_r (x : number) : wf x -> fadd x zero = x.
Proof.
  destruct x as [|a|a]; simpl; intros H; try reflexivity.
  rewrite Z.add_0_r. exact H.
Qed.

Lemma of_decimal_wf (m e : Z) : wf (of_decimal m e).
Proof.
  unfold of_decimal. destruct (0 <=? e) eqn:C.
  - apply round_ratio_wf. lia.
  - apply round_ratio_wf. apply Z.leb_gt in C. apply Z.pow_pos_nonneg; lia.
Qed.

Lemma or_zero_wf (x : number) : wf x -> wf (or_zero x).
Proof. destruct x; simpl; auto. intros _. apply wf_zero. Qed.

(** *** Order *)


(** The sign of a difference is the sign of the exact difference. *)
Lemma is_pos_fsub (x y : number) : is_pos (fsub y x) = num_lt x y.
Proof.
  destruct x as [|[]|a], y as [|[]|b]; simpl; try reflexivity.
  - replace (b + - a) with (b - a) by lia.
    destruct (round_ratio_cases (b - a) 1 ltac:(lia)) as [[-> B]|[-> B]]; simpl.
    + destruct (Z.ltb_spec (b - a) 0), (Z.ltb_spec a b); simpl; try reflexivity; try lia.
      assert (b - a = 0) by lia. rewrite H1 in B. simpl Z.abs in B.
      rewrite round_mag_zero in B; lia.
    + destruct (Z.ltb_spec a b).
      * apply Z.ltb_lt. rewrite Z.sgn_pos by lia.
        pose proof (round_mag_int_pos (Z.abs (b - a))). lia.
      * apply Z.ltb_ge.
        destruct (Z.sgn_spec (b - a)) as [[? ->]|[[? ->]|[? ->]]]; lia.
Qed.

(** *** Error of one rounding *)

Lemma U_big : 2 ^ 1000 <= U.
Proof. unfold U. apply Z.pow_le_mono_r; lia. Qed.

Lemma U_small : 2 ^ 53 * U < 2 ^ 2000.
Proof.
  unfold U. rewrite <- Z.pow_add_r by lia. apply Z.pow_lt_mono_r; lia.
Qed.

Lemma round_ratio_big (p d : Z) :
  0 < d -> 2 ^ 53 * d <= p -> p < 2 ^ 2097 * d ->
  exists k, round_ratio p d = Fin k /\ 0 < k
            /\ 2 ^ 53 * Z.abs (k * d - p) <= p.
Proof.
  intros Hd Hlo Hhi.
  assert (Hq : 2 ^ 53 <= p / d) by (apply Z.div_le_lower_bound; lia).
  assert (Hp : 0 <= p) by nia.
  pose proof (round_mag_big p d Hp Hd Hq) as E.
  unfold round_ratio. rewrite (Z.abs_eq p) by lia.
  set (k := round_mag p d) in *.
  assert (K : 0 < k /\ k < 2 ^ 2098) by (change (2 ^ 2098) with (2 * 2 ^ 2097); nia).
  destruct (2 ^ 2098 <=? k) eqn:C; [apply Z.leb_le in C; lia|].
  exists k. rewrite Z.sgn_pos by nia. rewrite Z.mul_1_l.
  split; [reflexivity|]. split; [apply K|exact E].
Qed.

Lemma round_ratio_int (z : Z) :
  0 <= z < 2 ^ 2097 ->
  exists k, round_ratio z 1 = Fin k /\ 0 <= k /\ 2 ^ 53 * Z.abs (k - z) <= z.
Proof.
  intros Hz. destruct (Z_lt_le_dec z (2 ^ 53)) as [C|C].
  - exists z. unfold round_ratio. rewrite (Z.abs_eq z) by lia.
    rewrite round_mag_small; rewrite ?Z.div_1_r; try lia.
    rewrite round_half_even_exact; rewrite ?Z.div_1_r, ?Z.mod_1_r; try lia.
    destruct (2 ^ 2098 <=? z) eqn:D; [apply Z.leb_le in D; lia|].
    split; [|lia]. f_equal.
    destruct (Z.sgn_spec z) as [[? ->]|[[? ->]|[? ->]]]; lia.
  - destruct (round_ratio_big z 1) as (k & E & K & B); try lia.
    exists k. rewrite Z.mul_1_r in B. split; [assumption|]. lia.
Qed.

Lemma of_Z_exact (n : Z) : 0 <= n <= 2 ^ 53 -> of_Z n = Fin (n * U).
Proof.
  intros Hn. unfold of_Z, round_ratio.
  pose proof U_pos. pose proof U_small.
  rewrite (Z.abs_eq (n * U)) by nia.
  assert (R : round_mag (n * U) 1 = n * U) by (unfold U; apply round_mag_exact; lia).
  rewrite R.
  destruct (2 ^ 2098 <=? n * U) eqn:C.
  - apply Z.leb_le in C.
    assert (n * U <= 2 ^ 53 * U) by (apply Z.mul_le_mono_nonneg_r; lia).
    assert (2 ^ 2000 <= 2 ^ 2098) by (apply Z.pow_le_mono_r; lia). lia.
  - f_equal. assert (0 <= n * U) by (apply Z.mul_nonneg_nonneg; lia).
    destruct (Z.sgn_spec (n * U)) as [[? ->]|[[? ->]|[? ->]]]; lia.
Qed.

Lemma toFixed2_nonneg (k : Z) :
  0 <= k < 10 ^ 21 * U ->
  toFixed2 (Fin k) = FxDec false ((200 * k + U) / (2 * U)).
Proof.
  intros Hk. unfold toFixed2. rewrite (Z.abs_eq k) by lia.
  destruct (10 ^ 21 * U <=? k) eqn:C; [apply Z.leb_le in C; lia|].
  destruct (Z.ltb_spec k 0); [lia|reflexivity].
Qed.


(** *** Bounds with the constants kept abstract *)

Lemma U_lo : 2 ^ 128 <= U.
Proof. unfold U. apply Z.pow_le_mono_r; lia. Qed.

Lemma U_huge : 2 ^ 64 * U < huge.
Proof.
  unfold U, huge. rewrite <- Z.pow_add_r by lia. apply Z.pow_lt_mono_r; lia.
Qed.

Lemma round_ratio_rel (p d : Z) :
  0 < d -> 2 ^ 53 * d <= p -> p < huge * d ->
  exists k, round_ratio p d = Fin k /\ 0 < k
            /\ 2 ^ 53 * Z.abs (k * d - p) <= p.
Proof. apply round_ratio_big. Qed.

Lemma round_ratio_zero (d : Z) : 0 < d -> round_ratio 0 d = Fin 0.
Proof.
  intros Hd. unfold round_ratio. simpl Z.abs.
  rewrite round_mag_zero by lia. reflexivity.
Qed.

Lemma fadd_rel (a b : Z) :
  0 <= a -> 0 <= b -> a + b < huge ->
  exists s, fadd (Fin a) (Fin b) = Fin s /\ 0 <= s
            /\ 2 ^ 53 * Z.abs (s - (a + b)) <= a + b.
Proof.
  intros Ha Hb Hs. simpl. apply round_ratio_int. unfold huge in Hs. lia.
Qed.

End NumFacts.

Module RoundingFacts.
Import Num NumFacts.

(** Arithmetic behind the funnel rate: two roundings, then the nearest
    hundredth. *)
Lemma rate_arith (u c t k1 k2 n : Z) :
  0 < u -> 0 < t -> 0 <= c ->
  2 ^ 53 * Z.abs (k1 * t - c * u) <= c * u ->
  2 ^ 53 * Z.abs (k2 - 100 * k1) <= 100 * k1 ->
  2 * u * n <= 200 * k2 + u < 2 * u * n + 2 * u ->
  2 ^ 53 * (2 * n * t - 20000 * c - t) <= 60000 * c /\
  2 ^ 53 * (20000 * c - t - 2 * n * t) <= 60000 * c.
Proof.
  intros Hu Ht Hc E1 E2 [N1 N2].
  set (A := k1 * t - c * u) in *.
  set (B := k2 - 100 * k1) in *.
  assert (HA : Z.abs A <= c * u) by lia.
  assert (F1 : 2 ^ 53 * Z.abs (100 * t * B) <= 20000 * (c * u)).
  { rewrite Z.abs_mul, (Z.abs_eq (100 * t)) by lia.
    assert (100 * t * (2 ^ 53 * Z.abs B) <= 100 * t * (100 * k1)) by (apply Z.mul_le_mono_nonneg_l; lia).
    assert (k1 * t = c * u + A) by (unfold A; lia).
    nia. }
  assert (F : 2 ^ 53 * Z.abs (100 * k2 * t - 10000 * (c * u)) <= 30000 * (c * u)).
  { replace (100 * k2 * t - 10000 * (c * u)) with (100 * t * B + 10000 * A) by (unfold A, B; ring).
    pose proof (Z.abs_triangle (100 * t * B) (10000 * A)).
    rewrite (Z.abs_mul 10000 A) in H. simpl (Z.abs 10000) in H. lia. }
  clear F1 E1 E2 HA.
  set (X := 100 * k2 * t - 10000 * (c * u)) in *.
  assert (T1 : 2 * u * n * t <= (200 * k2 + u) * t) by (apply Z.mul_le_mono_nonneg_r; lia).
  assert (T2 : (200 * k2 + u) * t < (2 * u * n + 2 * u) * t) by (apply Z.mul_lt_mono_pos_r; lia).
  split.
  - apply (Z.mul_le_mono_pos_r _ _ u Hu).
    replace (2 ^ 53 * (2 * n * t - 20000 * c - t) * u)
      with (2 ^ 53 * (2 * u * n * t - u * t - 20000 * (c * u))) by ring.
    assert (2 * u * n * t - u * t - 20000 * (c * u) <= 2 * X) by (unfold X; lia).
    lia.
  - apply (Z.mul_le_mono_pos_r _ _ u Hu).
    replace (2 ^ 53 * (20000 * c - t - 2 * n * t) * u)
      with (2 ^ 53 * (20000 * (c * u) - u * t - 2 * u * n * t)) by ring.
    assert (20000 * (c * u) - u * t - 2 * u * n * t <= - 2 * X) by (unfold X; lia).
    lia.
Qed.

(** The quotient of two counts. *)
Lemma fdiv_counts (c t : Z) :
  0 < c <= t -> t < 2 ^ 53 ->
  exists k1, fdiv (Fin (c * U)) (Fin (t * U)) = Fin k1 /\ 0 < k1
             /\ 2 ^ 53 * Z.abs (k1 * t - c * U) <= c * U.
Proof.
  intros Hc Ht. pose proof U_pos as HU. pose proof U_lo as HL.
  pose proof U_huge as HH.
  assert (TU : 0 < t * U) by (apply Z.mul_pos_pos; lia).
  assert (CU : 0 < c * U) by (apply Z.mul_pos_pos; lia).
  unfold fdiv.
  destruct (Z.eqb_spec (t * U) 0) as [E|_]; [lia|].
  destruct (Z.ltb_spec 0 (t * U)) as [_|]; [|lia].
  destruct (round_ratio_rel (c * U * U) (t * U)) as (k1 & E & K1 & E1).
  - assumption.
  - assert (2 ^ 53 * t <= c * U).
    { assert (1 * U <= c * U) by (apply Z.mul_le_mono_nonneg_r; lia). lia. }
    replace (2 ^ 53 * (t * U)) with (2 ^ 53 * t * U) by ring.
    apply Z.mul_le_mono_nonneg_r; lia.
  - replace (huge * (t * U)) with (huge * t * U) by ring.
    apply Z.mul_lt_mono_pos_r; [assumption|].
    assert (c * U <= t * U) by (apply Z.mul_le_mono_nonneg_r; lia).
    assert (U * t < huge * t) by (apply Z.mul_lt_mono_pos_r; lia).
    lia.
  - exists k1. split; [assumption|]. split; [assumption|].
    replace (k1 * (t * U) - c * U * U) with ((k1 * t - c * U) * U) in E1 by ring.
    rewrite Z.abs_mul, (Z.abs_eq U) in E1 by lia.
    apply (Z.mul_le_mono_pos_r _ _ U HU). lia.
Qed.

(** A product by one hundred. *)
Lemma fmul_hundred (k1 : Z) :
  2 ^ 53 <= k1 -> 100 * k1 < huge ->
  exists k2, fmul (Fin k1) (Fin (100 * U)) = Fin k2 /\ 0 < k2
             /\ 2 ^ 53 * Z.abs (k2 - 100 * k1) <= 100 * k1.
Proof.
  intros Hlo Hhi. pose proof U_pos as HU.
  unfold fmul.
  destruct (round_ratio_rel (k1 * (100 * U)) U) as (k2 & E & K2 & E2).
  - assumption.
  - replace (k1 * (100 * U)) with (100 * k1 * U) by ring.
    apply Z.mul_le_mono_nonneg_r; lia.
  - replace (k1 * (100 * U)) with (100 * k1 * U) by ring.
    apply Z.mul_lt_mono_pos_r; lia.
  - exists k2. split; [assumption|]. split; [assumption|].
    replace (k2 * U - k1 * (100 * U)) with ((k2 - 100 * k1) * U) in E2 by ring.
    rewrite Z.abs_mul, (Z.abs_eq U) in E2 by lia.
    apply (Z.mul_le_mono_pos_r _ _ U HU).
    replace (100 * k1 * U) with (k1 * (100 * U)) by ring. lia.
Qed.

End RoundingFacts.

Module FunnelFacts.
Import Num Js Analytics NumFacts RoundingFacts.
Local Open Scope string_scope.
Local Open Scope Z_scope.

(** A rate is the nearest hundredth to the percentage, up to the two
    roundings of the division and the product. *)
Lemma rate_of_spec (c t : Z) :
  0 <= c <= t -> 0 < t < 2 ^ 32 ->
  exists n, rate_of c t = OFixed (FxDec false n) /\ 0 <= n
    /\ 2 ^ 53 * (2 * n * t - 20000 * c - t) <= 60000 * c
    /\ 2 ^ 53 * (20000 * c - t - 2 * n * t) <= 60000 * c.
Proof.
  intros Hc Ht. unfold rate_of.
  destruct (Z.ltb_spec 0 t) as [_|]; [|lia].
  rewrite !of_Z_exact by lia.
  pose proof U_pos as HU. pose proof U_lo as HL. pose proof U_huge as HH.
  destruct (Z.eq_dec c 0) as [->|Hc0].
  - exists 0. rewrite Z.mul_0_l.
    assert (TU : 0 < t * U) by (apply Z.mul_pos_pos; lia).
    unfold fdiv.
    destruct (Z.eqb_spec (t * U) 0) as [E|_]; [lia|].
    destruct (Z.ltb_spec 0 (t * U)) as [_|]; [|lia].
    rewrite Z.mul_0_l, round_ratio_zero by assumption.
    unfold fmul. rewrite Z.mul_0_l, round_ratio_zero by assumption.
    rewrite toFixed2_nonneg by lia.
    rewrite Z.mul_0_r, Z.add_0_l, Z.div_small by lia.
    repeat split; lia.
  - destruct (fdiv_counts c t) as (k1 & -> & K1 & E1); try lia.
    assert (CU : c * U <= t * U) by (apply Z.mul_le_mono_nonneg_r; lia).
    assert (CU1 : 1 * U <= c * U) by (apply Z.mul_le_mono_nonneg_r; lia).
    assert (B1 : c * U <= 2 * (k1 * t) /\ k1 * t <= 2 * (c * U)) by lia.
    assert (L1 : 2 ^ 53 <= k1).
    { destruct (Z_lt_le_dec k1 (2 ^ 53)) as [C|C]; [|assumption].
      assert (k1 * t < 2 ^ 53 * 2 ^ 53) by (apply Z.mul_lt_mono_nonneg; lia).
      lia. }
    assert (H1 : k1 <= 2 * U).
    { apply (Z.mul_le_mono_pos_r _ _ t); lia. }
    destruct (fmul_hundred k1) as (k2 & -> & K2 & E2); try lia.
    rewrite toFixed2_nonneg by lia.
    exists ((200 * k2 + U) / (2 * U)).
    split; [reflexivity|].
    split; [apply Z.div_pos; lia|].
    apply (rate_arith U c t k1 k2); try lia.
    pose proof (Z.div_mod (200 * k2 + U) (2 * U) ltac:(lia)).
    pose proof (Z.mod_pos_bound (200 * k2 + U) (2 * U) ltac:(lia)).
    lia.
Qed.

End FunnelFacts.

Module JsFacts.
Import Num Js.
Local Open Scope string_scope.
Local Open Scope Z_scope.

(** *** Sorting *)

Section Sorting.
Context {A : Type} (gt : A -> A -> bool).

Lemma insert_sorted_perm (x : A) (l : list A) :
  Permutation (insert_sorted gt x l) (x :: l).
Proof.
  induction l as [|y l IH]; simpl; [reflexivity|].
  destruct (gt x y); [|reflexivity].
  rewrite IH. apply perm_swap.
Qed.

Lemma js_sort_perm (l : list A) : Permutation (js_sort gt l) l.
Proof.
  induction l as [|x l IH]; simpl; [reflexivity|].
  rewrite insert_sorted_perm. constructor. exact IH.
Qed.

Lemma js_sort_length (l : list A) :
  List.length (js_sort gt l) = List.length l.
Proof. apply Permutation_length, js_sort_perm. Qed.

(** On elements where the comparator is consistent the result is
    ordered: no element has to go after a later one. *)
Variable P : A -> Prop.
Hypothesis asym : forall x y, P x -> P y -> gt x y = true -> gt y x = false.
Hypothesis ntrans :
  forall x y z, P x -> P y -> P z ->
                gt x y = false -> gt y z = false -> gt x z = false.


End Sorting.

(** *** slice *)



(** *** Objects *)

Section ObjectFacts.
Context {V : Type}.
Implicit Types (o : obj V) (k : string) (f : V -> V).

Lemma get_In k o v : get k o = Some v -> In (k, v) o.
Proof.
  induction o as [|[k' v'] o IH]; simpl; [discriminate|].
  destruct (String.eqb_spec k k') as [->|N].
  - intros [= ->]. left. reflexivity.
  - intros H. right. apply IH, H.
Qed.

Lemma get_None k o : get k o = None <-> ~ In k (map fst o).
Proof.
  induction o as [|[k' v'] o IH]; simpl; [tauto|].
  destruct (String.eqb_spec k k') as [->|N].
  - split; [discriminate|]. intros H. exfalso. apply H. left. reflexivity.
  - rewrite IH. split; [intros H [E|I]; [congruence|tauto]|tauto].
Qed.

Lemma In_get k o v : NoDup (map fst o) -> In (k, v) o -> get k o = Some v.
Proof.
  induction o as [|[k' v'] o IH]; simpl; [tauto|].
  intros ND [E|I].
  - injection E as -> ->. rewrite String.eqb_refl. reflexivity.
  - inversion ND as [|? ? NI ND']; subst.
    destruct (String.eqb_spec k k') as [->|N].
    + exfalso. apply NI. change k' with (fst (k', v)). apply in_map, I.
    + apply IH; assumption.
Qed.

Lemma update_keys k f o : map fst (update k f o) = map fst o.
Proof.
  induction o as [|[k' v'] o IH]; simpl; [reflexivity|].
  destruct (String.eqb k k'); simpl; [reflexivity|]. rewrite IH. reflexivity.
Qed.

Lemma get_update_same k f o :
  get k (update k f o) = option_map f (get k o).
Proof.
  induction o as [|[k' v'] o IH]; simpl; [reflexivity|].
  destruct (String.eqb k k') eqn:E; simpl; rewrite E; [reflexivity|exact IH].
Qed.

Lemma get_update_other k k' f o :
  k <> k' -> get k' (update k f o) = get k' o.
Proof.
  intros N. induction o as [|[k0 v0] o IH]; simpl; [reflexivity|].
  destruct (String.eqb_spec k k0) as [->|N0]; simpl.
  - destruct (String.eqb_spec k' k0); [congruence|reflexivity].
  - destruct (String.eqb k' k0); [reflexivity|exact IH].
Qed.

Lemma get_app k o o' :
  get k (o ++ o')%list = match get k o with Some v => Some v | None => get k o' end.
Proof.
  induction o as [|[k0 v0] o IH]; simpl; [reflexivity|].
  destruct (String.eqb k k0); [reflexivity|exact IH].
Qed.

(** The entry [touch] leaves under its key. *)
Lemma get_touch_same k init f o :
  inherited k = false ->
  get k (touch k init f o)
  = Some (f (match get k o with Some v => v | None => init end)).
Proof.
  intros I. unfold touch. rewrite I.
  destruct (get k o) as [v|] eqn:G.
  - rewrite get_update_same, G. reflexivity.
  - rewrite get_app, G. simpl. rewrite String.eqb_refl. reflexivity.
Qed.

Lemma get_touch_other k k' init f o :
  k <> k' -> get k' (touch k init f o) = get k' o.
Proof.
  intros N. unfold touch. destruct (inherited k); [reflexivity|].
  destruct (get k o) as [v|] eqn:G.
  - apply get_update_other, N.
  - rewrite get_app. destruct (get k' o); [reflexivity|]. simpl.
    destruct (String.eqb_spec k' k); [congruence|reflexivity].
Qed.

Lemma get_touch_inherited k init f o :
  inherited k = true -> touch k init f o = o.
Proof. intros I. unfold touch. rewrite I. reflexivity. Qed.

(** Own keys stay distinct. *)
Lemma touch_NoDup k init f o :
  NoDup (map fst o) -> NoDup (map fst (touch k init f o)).
Proof.
  intros ND. unfold touch. destruct (inherited k); [assumption|].
  destruct (get k o) as [v|] eqn:G.
  - rewrite update_keys. assumption.
  - rewrite map_app. simpl.
    apply (Permutation_NoDup (l := k :: map fst o)).
    + apply Permutation_cons_append.
    + constructor; [apply get_None, G|assumption].
Qed.

Lemma update_Forall (Q : V -> Prop) k f o :
  (forall v, Q v -> Q (f v)) ->
  Forall (fun kv => Q (snd kv)) o ->
  Forall (fun kv => Q (snd kv)) (update k f o).
Proof.
  intros Hf. induction 1 as [|[k' v'] o Hv Ho IH]; simpl; [constructor|].
  destruct (String.eqb k k'); constructor; simpl in *; auto.
Qed.

Lemma touch_Forall (Q : V -> Prop) k init f o :
  Q (f init) -> (forall v, Q v -> Q (f v)) ->
  Forall (fun kv => Q (snd kv)) o ->
  Forall (fun kv => Q (snd kv)) (touch k init f o).
Proof.
  intros Hi Hf Ho. unfold touch. destruct (inherited k); [assumption|].
  destruct (get k o).
  - apply update_Forall; assumption.
  - apply Forall_app. split; [assumption|]. constructor; [exact Hi|constructor].
Qed.

(** [Object.values] lists every own property once. *)
Lemma values_perm o : Permutation (values o) (map snd o).
Proof.
  unfold values.
  rewrite (Permutation_map snd (js_sort_perm index_gt (indexed o))).
  induction o as [|[k v] o IH]; simpl; [reflexivity|].
  destruct (array_index k); simpl.
  - constructor. exact IH.
  - rewrite <- IH. symmetry. apply Permutation_middle.
Qed.

Lemma values_length o : List.length (values o) = List.length o.
Proof. rewrite (Permutation_length (values_perm o)). apply length_map. Qed.

Lemma In_values o v : In v (values o) <-> exists k, In (k, v) o.
Proof.
  split.
  - intros H. apply (Permutation_in _ (values_perm o)) in H.
    apply in_map_iff in H. destruct H as ([k v'] & E & I). simpl in E. subst.
    exists k. exact I.
  - intros [k I]. apply (Permutation_in _ (Permutation_sym (values_perm o))).
    change v with (snd (k, v)). apply in_map, I.
Qed.

(** With no array-index key the values come in creation order. *)
Lemma values_named o :
  Forall (fun kv => array_index (fst kv) = None) o -> values o = map snd o.
Proof.
  intros H. unfold values.
  assert (E : indexed o = [] /\ named o = map snd o).
  { induction H as [|[k v] o Hk Ho [I N]]; simpl; [auto|].
    simpl in Hk. rewrite Hk, I, N. auto. }
  destruct E as [-> ->]. reflexivity.
Qed.
End ObjectFacts.

End JsFacts.

Module FunnelClaims.
Import Num Js Analytics NumFacts RoundingFacts FunnelFacts JsFacts.
Local Open Scope string_scope.
Local Open Scope Z_scope.

Lemma len_nonneg {A : Type} (l : list A) : 0 <= len l.
Proof. unfold len. lia. Qed.

Lemma len_cons {A : Type} (x : A) (l : list A) : len (x :: l) = len l + 1.
Proof. unfold len. simpl List.length. lia. Qed.

Lemma count_status_cons (s : string) (o : order) (os : list order) :
  count_status s (o :: os)
  = (if has_status s o then 1 else 0) + count_status s os.
Proof.
  unfold count_status. simpl. destruct (has_status s o); simpl List.length; lia.
Qed.

Lemma count_status_nonneg (s : string) (os : list order) : 0 <= count_status s os.
Proof. unfold count_status. lia. Qed.

(** An order has at most one of the four statuses, and exactly one when
    its status is known. *)
Lemma one_status (o : order) :
  (if has_status "pending" o then 1 else 0)
  + (if has_status "processing" o then 1 else 0)
  + (if has_status "delivered" o then 1 else 0)
  + (if has_status "cancelled" o then 1 else 0)
  = if known_status o then 1 else 0.
Proof.
  unfold known_status, has_status. destruct (o_status o) as [| |? ?|t]; try reflexivity.
  destruct (String.eqb_spec t "pending") as [->|]; [reflexivity|].
  destruct (String.eqb_spec t "processing") as [->|]; [reflexivity|].
  destruct (String.eqb_spec t "delivered") as [->|]; [reflexivity|].
  destruct (String.eqb t "cancelled"); reflexivity.
Qed.

Lemma counts_le_len (os : list order) :
  count_status "pending" os + count_status "processing" os
  + count_status "delivered" os + count_status "cancelled" os <= len os.
Proof.
  induction os as [|o os IH]; [reflexivity|].
  rewrite !count_status_cons, len_cons. pose proof (one_status o).
  destruct (known_status o); lia.
Qed.

Lemma counts_eq_len (os : list order) :
  forallb known_status os = true ->
  count_status "pending" os + count_status "processing" os
  + count_status "delivered" os + count_status "cancelled" os = len os.
Proof.
  induction os as [|o os IH]; [reflexivity|]. simpl forallb.
  intros H. apply andb_prop in H. destruct H as [K H].
  rewrite !count_status_cons, len_cons. pose proof (one_status o) as E.
  rewrite K in E. specialize (IH H). lia.
Qed.

(** C1, first half, fails: three orders of three known statuses have
    rates 33.33, 33.33, 33.33 and 0.00, which sum to 99.99. *)
Lemma funnel_rates_below_100 :
  forallb known_status
    [with_status "pending"; with_status "processing"; with_status "delivered"] = true
  /\ rate_sum (conversionFunnel
       [with_status "pending"; with_status "processing"; with_status "delivered"])
     = Some 9999
  /\ rate_sum (conversionFunnel
       [with_status "pending"; with_status "processing"; with_status "delivered";
        with_status "cancelled"; with_status "cancelled"; with_status "cancelled";
        with_status "cancelled"])
     = Some 10001.
Proof. vm_compute. repeat split. Qed.

Lemma count_status_le_len (s : string) (os : list order) :
  count_status s os <= len os.
Proof.
  induction os as [|o os IH]; [reflexivity|].
  rewrite count_status_cons, len_cons. destruct (has_status s o); lia.
Qed.

(** With at least one order a rate is the text of the nearest hundredth
    to the percentage of its status. *)
Lemma stage_rate_near (s : string) (os : list order) :
  os <> [] -> len os < 2 ^ 32 ->
  rate_near (rate (stage_of s os)) (count_status s os) (len os).
Proof.
  intros NE B.
  assert (T : 0 < len os).
  { destruct os as [|o os]; [congruence|]. rewrite len_cons.
    pose proof (len_nonneg os). lia. }
  pose proof (count_status_nonneg s os) as C0.
  pose proof (count_status_le_len s os) as C1.
  destruct (rate_of_spec (count_status s os) (len os)) as (n & E & N & Up & Lo);
    try lia.
  exists n. cbn [stage_of rate]. split; [exact E|].
  split; [|split; assumption]. split; [exact N|].
  set (t := len os) in *. set (c := count_status s os) in *.
  destruct (Z_le_gt_dec n 10000) as [L|G]; [assumption|exfalso].
  assert (10001 * t <= n * t) by (apply Z.mul_le_mono_nonneg_r; lia). lia.
Qed.

(** C1, as the handler has it: with no order the four rates are the
    Number 0; otherwise each rate is the text of the hundredth nearest to
    the percentage of its status count in the total.  So the four rates of
    fewer than [2^32] orders sum to at most 100.02, to at least 99.98 when
    every status is one of the four, and to 0 when there is no order. *)
Theorem funnel_rates_sum (os : list order) :
  len os < 2 ^ 32 ->
  (os = [] ->
   rate (f_pending (conversionFunnel os)) = ONum zero
   /\ rate (f_processing (conversionFunnel os)) = ONum zero
   /\ rate (f_delivered (conversionFunnel os)) = ONum zero
   /\ rate (f_cancelled (conversionFunnel os)) = ONum zero)
  /\ (os <> [] ->
      rate_near (rate (f_pending (conversionFunnel os)))
        (count_status "pending" os) (len os)
      /\ rate_near (rate (f_processing (conversionFunnel os)))
           (count_status "processing" os) (len os)
      /\ rate_near (rate (f_delivered (conversionFunnel os)))
           (count_status "delivered" os) (len os)
      /\ rate_near (rate (f_cancelled (conversionFunnel os)))
           (count_status "cancelled" os) (len os))
  /\ exists n, rate_sum (conversionFunnel os) = Some n
       /\ 0 <= n <= 10002
       /\ (os = [] -> n = 0)
       /\ (os <> [] -> forallb known_status os = true -> 9998 <= n).
Proof.
  intros Hlen.
  split; [intros ->; repeat split|].
  split.
  { intros NE. cbn [conversionFunnel f_pending f_processing f_delivered f_cancelled].
    repeat split; apply stage_rate_near; assumption. }
  assert (T : os = [] \/ 0 < len os).
  { destruct os as [|o os']; [left; reflexivity|right].
    rewrite len_cons. pose proof (len_nonneg os'). lia. }
  destruct T as [->|T].
  - exists 0. vm_compute. repeat split; try discriminate. congruence.
  - pose proof (counts_le_len os) as Hle.
    pose proof (count_status_nonneg "pending" os) as P1.
    pose proof (count_status_nonneg "processing" os) as P2.
    pose proof (count_status_nonneg "delivered" os) as P3.
    pose proof (count_status_nonneg "cancelled" os) as P4.
    destruct (rate_of_spec (count_status "pending" os) (len os))
      as (n1 & E1 & N1 & U1 & L1); try lia.
    destruct (rate_of_spec (count_status "processing" os) (len os))
      as (n2 & E2 & N2 & U2 & L2); try lia.
    destruct (rate_of_spec (count_status "delivered" os) (len os))
      as (n3 & E3 & N3 & U3 & L3); try lia.
    destruct (rate_of_spec (count_status "cancelled" os) (len os))
      as (n4 & E4 & N4 & U4 & L4); try lia.
    exists (n1 + n2 + n3 + n4).
    split.
    { unfold rate_sum, conversionFunnel, stage_of. simpl.
      rewrite E1, E2, E3, E4. reflexivity. }
    set (t := len os) in *.
    set (c1 := count_status "pending" os) in *.
    set (c2 := count_status "processing" os) in *.
    set (c3 := count_status "delivered" os) in *.
    set (c4 := count_status "cancelled" os) in *.
    set (N := n1 + n2 + n3 + n4).
    assert (NT : N * t = n1 * t + n2 * t + n3 * t + n4 * t) by (unfold N; ring).
    split; [split; [lia|]|split].
    + destruct (Z_le_gt_dec N 10002) as [C|C]; [assumption|exfalso].
      assert (10003 * t <= N * t) by (apply Z.mul_le_mono_nonneg_r; lia).
      lia.
    + intros ->. vm_compute in T. discriminate.
    + intros _ K. pose proof (counts_eq_len os K) as Heq. fold t c1 c2 c3 c4 in Heq.
      destruct (Z_le_gt_dec 9998 N) as [C|C]; [assumption|exfalso].
      assert (N * t <= 9997 * t) by (apply Z.mul_le_mono_nonneg_r; lia).
      lia.
Qed.

Lemma funnel_rates_sum_witness :
  ([with_status "pending"; with_status "processing"; with_status "delivered"] = [] ->
   rate (f_pending (conversionFunnel
     [with_status "pending"; with_status "processing"; with_status "delivered"]))
   = ONum zero
   /\ rate (f_processing (conversionFunnel
        [with_status "pending"; with_status "processing"; with_status "delivered"]))
      = ONum zero
   /\ rate (f_delivered (conversionFunnel
        [with_status "pending"; with_status "processing"; with_status "delivered"]))
      = ONum zero
   /\ rate (f_cancelled (conversionFunnel
        [with_status "pending"; with_status "processing"; with_status "delivered"]))
      = ONum zero)
  /\ ([with_status "pending"; with_status "processing"; with_status "delivered"] <> [] ->
      rate_near (rate (f_pending (conversionFunnel
          [with_status "pending"; with_status "processing"; with_status "delivered"])))
        (count_status "pending"
           [with_status "pending"; with_status "processing"; with_status "delivered"])
        (len [with_status "pending"; with_status "processing"; with_status "delivered"])
      /\ rate_near (rate (f_processing (conversionFunnel
             [with_status "pending"; with_status "processing"; with_status "delivered"])))
           (count_status "processing"
              [with_status "pending"; with_status "processing"; with_status "delivered"])
           (len [with_status "pending"; with_status "processing"; with_status "delivered"])
      /\ rate_near (rate (f_delivered (conversionFunnel
             [with_status "pending"; with_status "processing"; with_status "delivered"])))
           (count_status "delivered"
              [with_status "pending"; with_status "processing"; with_status "delivered"])
           (len [with_status "pending"; with_status "processing"; with_status "delivered"])
      /\ rate_near (rate (f_cancelled (conversionFunnel
             [with_status "pending"; with_status "processing"; with_status "delivered"])))
           (count_status "cancelled"
              [with_status "pending"; with_status "processing"; with_status "delivered"])
           (len [with_status "pending"; with_status "processing"; with_status "delivered"]))
  /\ exists n,
       rate_sum (conversionFunnel
         [with_status "pending"; with_status "processing"; with_status "delivered"])
       = Some n
       /\ 0 <= n <= 10002
       /\ ([with_status "pending"; with_status "processing"; with_status "delivered"] = []
           -> n = 0)
       /\ ([with_status "pending"; with_status "processing"; with_status "delivered"] <> []
           -> forallb known_status
                [with_status "pending"; with_status "processing"; with_status "delivered"]
              = true
           -> 9998 <= n).
Proof.
  apply (funnel_rates_sum
    [with_status "pending"; with_status "processing"; with_status "delivered"]).
  vm_compute. reflexivity.
Defined.

End FunnelClaims.

Module RevenueFacts.
Import Num Js Analytics NumFacts RoundingFacts JsFacts FunnelClaims.
Local Open Scope string_scope.
Local Open Scope Z_scope.

(** The Number of a whole number of cents. *)
Lemma of_decimal_cents (c : Z) :
  0 <= c < 2 ^ 53 ->
  exists k, of_decimal c (-2) = Fin k /\ 0 <= k
            /\ 2 ^ 53 * Z.abs (100 * k - c * U) <= c * U.
Proof.
  intros Hc. pose proof U_pos as HU. pose proof U_lo as HL.
  pose proof U_huge as HH.
  unfold of_decimal. change (0 <=? -2) with false. cbv iota.
  change (10 ^ (- -2)) with 100.
  destruct (Z.eq_dec c 0) as [->|N].
  - exists 0. rewrite Z.mul_0_l, round_ratio_zero by lia. split; [reflexivity|]. lia.
  - assert (C1 : 1 * U <= c * U) by (apply Z.mul_le_mono_nonneg_r; lia).
    assert (C2 : c * U <= 2 ^ 53 * U) by (apply Z.mul_le_mono_nonneg_r; lia).
    destruct (round_ratio_rel (c * U) 100) as (k & E & K & B); try lia.
    exists k. split; [assumption|]. split; [lia|].
    replace (100 * k) with (k * 100) by ring. assumption.
Qed.

(** One step of the running sum: the accumulated error grows by three
    parts in [2^53] of the exact sum. *)
Lemma sum_step_arith (u S k S' C c j : Z) :
  0 < u -> 0 <= S -> 0 <= k -> 0 <= C -> 0 <= c -> 0 <= j -> 3 * (j + 1) <= 2 ^ 53 ->
  2 ^ 53 * Z.abs (100 * S - u * C) <= 3 * (j * (u * C)) ->
  2 ^ 53 * Z.abs (100 * k - c * u) <= c * u ->
  2 ^ 53 * Z.abs (S' - (S + k)) <= S + k ->
  2 ^ 53 * Z.abs (100 * S' - u * (C + c)) <= 3 * ((j + 1) * (u * (C + c))).
Proof.
  intros Hu HS Hk HC Hc Hj Hb I1 I2 I3.
  assert (P : 0 <= u * C) by (apply Z.mul_nonneg_nonneg; lia).
  assert (Q : 0 <= u * c) by (apply Z.mul_nonneg_nonneg; lia).
  replace (c * u) with (u * c) in I2 by ring.
  replace (u * (C + c)) with (u * C + u * c) by ring.
  set (p := u * C) in *. set (q := u * c) in *.
  assert (JP : 0 <= j * p) by (apply Z.mul_nonneg_nonneg; lia).
  assert (JQ : 0 <= j * q) by (apply Z.mul_nonneg_nonneg; lia).
  assert (JB : 3 * (j * p) <= 2 ^ 53 * p).
  { replace (3 * (j * p)) with (3 * j * p) by ring.
    apply Z.mul_le_mono_nonneg_r; lia. }
  replace ((j + 1) * (p + q)) with (j * p + j * q + p + q) by ring.
  lia.
Qed.

(** The running sum of whole-cent amounts stays within that error of the
    exact sum. *)
Lemma revenue_sum_cents (cents : order -> Z) (os : list order) :
  (forall o, In o os -> whole_cents o (cents o)) ->
  forall (S C j : Z),
    0 <= S -> 0 <= C -> 0 <= j ->
    3 * (j + len os) <= 2 ^ 53 ->
    C + sum_Z (map cents os) < 2 ^ 53 ->
    2 ^ 53 * Z.abs (100 * S - U * C) <= 3 * (j * (U * C)) ->
    exists S',
      fold_left (fun sum o => fadd sum (amount o)) os (Fin S) = Fin S'
      /\ 0 <= S'
      /\ 2 ^ 53 * Z.abs (100 * S' - U * (C + sum_Z (map cents os)))
         <= 3 * ((j + len os) * (U * (C + sum_Z (map cents os)))).
Proof.
  pose proof U_pos as HU. pose proof U_huge as HH.
  induction os as [|o os IH]; intros W S C j HS HC Hj Hb Hc I.
  - exists S. simpl. change (len []) with 0.
    rewrite !Z.add_0_r. auto.
  - assert (W' : forall o', In o' os -> whole_cents o' (cents o'))
      by (intros; apply W; right; assumption).
    assert (N : 0 <= sum_Z (map cents os)).
    { clear - W'. induction os as [|a os IH]; simpl; [lia|].
      destruct (W' a (or_introl eq_refl)) as [? _].
      assert (0 <= sum_Z (map cents os)) by (apply IH; intros; apply W'; right; assumption).
      lia. }
    destruct (W o (or_introl eq_refl)) as [C0 A].
    simpl map in *. simpl sum_Z in *. rewrite len_cons in *.
    pose proof (len_nonneg os) as L.
    destruct (of_decimal_cents (cents o)) as (k & Ek & K & Bk); [lia|].
    rewrite Ek in A.
    assert (P : 0 <= U * C) by (apply Z.mul_nonneg_nonneg; lia).
    assert (JB : 3 * (j * (U * C)) <= 2 ^ 53 * (U * C)).
    { replace (3 * (j * (U * C))) with (3 * j * (U * C)) by ring.
      apply Z.mul_le_mono_nonneg_r; lia. }
    assert (CB : U * C <= U * 2 ^ 53) by (apply Z.mul_le_mono_nonneg_l; lia).
    assert (cB : cents o * U <= 2 ^ 53 * U) by (apply Z.mul_le_mono_nonneg_r; lia).
    destruct (fadd_rel S k) as (S1 & E1 & HS1 & B1); try lia.
    cbn [fold_left]. rewrite A, E1.
    pose proof (sum_step_arith U S k S1 C (cents o) j HU HS K HC C0 Hj ltac:(lia) I Bk B1) as I'.
    destruct (IH W' S1 (C + cents o) (j + 1)) as (S' & E' & HS' & B'); try lia.
    exists S'. split; [assumption|]. split; [assumption|].
    replace (C + (cents o + sum_Z (map cents os)))
      with (C + cents o + sum_Z (map cents os)) by ring.
    replace (j + (len os + 1)) with (j + 1 + len os) by ring.
    assumption.
Qed.

(** The revenue of whole-cent orders is their exact total. *)
Lemma revenue_exact (cents : order -> Z) (os : list order) :
  (forall o, In o os -> whole_cents o (cents o)) ->
  6 * len os * (1 + sum_Z (map cents os)) <= 2 ^ 53 ->
  toFixed2 (revenue_sum os) = FxDec false (sum_Z (map cents os)).
Proof.
  intros W Hb. pose proof U_pos as HU. pose proof U_huge as HH.
  pose proof (len_nonneg os) as L.
  assert (N : 0 <= sum_Z (map cents os)).
  { clear - W. induction os as [|a os IH]; simpl; [lia|].
    destruct (W a (or_introl eq_refl)) as [? _].
    assert (0 <= sum_Z (map cents os)) by (apply IH; intros; apply W; right; assumption).
    lia. }
  set (T := sum_Z (map cents os)) in *.
  destruct (Z.eq_dec (len os) 0) as [Z0|NZ].
  - assert (os = []) by (destruct os; [reflexivity|rewrite len_cons in Z0; pose proof (len_nonneg os); lia]).
    subst os. unfold T. simpl. vm_compute. reflexivity.
  - assert (LT : len os * (1 + T) = len os + len os * T) by ring.
    assert (0 <= len os * T) by (apply Z.mul_nonneg_nonneg; lia).
    assert (1 * (1 + T) <= len os * (1 + T)) by (apply Z.mul_le_mono_nonneg_r; lia).
    destruct (revenue_sum_cents cents os W 0 0 0) as (S & E & HS & B); try lia.
    all: try (fold T; lia).
    all: try (rewrite Z.mul_0_r; simpl; lia).
    unfold revenue_sum, zero. rewrite E.
    rewrite !Z.add_0_l in B. fold T in B.
    assert (B2 : 2 ^ 53 * (2 * Z.abs (100 * S - U * T)) < 2 ^ 53 * U).
    { replace (3 * (len os * (U * T))) with (3 * (len os * T) * U) in B by ring.
      assert (6 * (len os * T) * U < 2 ^ 53 * U) by (apply Z.mul_lt_mono_pos_r; lia).
      lia. }
    apply Z.mul_lt_mono_pos_l in B2; [|lia].
    assert (UT : U * T <= U * 2 ^ 53) by (apply Z.mul_le_mono_nonneg_l; lia).
    rewrite toFixed2_nonneg by lia.
    f_equal. symmetry. apply (Z.div_unique _ _ _ (200 * S + U - 2 * U * T)); lia.
Qed.

End RevenueFacts.

Module OverviewClaims.
Import Num Js Analytics NumFacts RoundingFacts JsFacts FunnelClaims RevenueFacts.
Local Open Scope string_scope.
Local Open Scope Z_scope.

Lemma sum_Z_perm (l l' : list Z) : Permutation l l' -> sum_Z l = sum_Z l'.
Proof. induction 1; simpl in *; lia. Qed.

Lemma len_perm {A : Type} (l l' : list A) : Permutation l l' -> len l = len l'.
Proof. intros H. unfold len. rewrite (Permutation_length H). reflexivity. Qed.

Lemma len_app {A : Type} (l l' : list A) : len (l ++ l') = len l + len l'.
Proof. unfold len. rewrite length_app. lia. Qed.

(** Every running sum denotes a binary64 value. *)
Lemma revenue_fold_wf (os : list order) (acc : number) :
  wf acc -> wf (fold_left (fun sum o => fadd sum (amount o)) os acc).
Proof.
  revert acc. induction os as [|o os IH]; intros acc H; simpl; [exact H|].
  apply IH, fadd_wf.
Qed.

(** C2 fails: the sum is rounded after every addition, so a large total
    absorbs the small ones added after it but not their sum added before
    it.  The revenue of 1e16, 1, 1 is 10000000000000000.00; that of the
    same orders as 1, 1, 1e16 is 10000000000000002.00. *)
Lemma revenue_depends_on_order :
  Permutation
    [with_total (JNum 1 16); with_total (JNum 1 0); with_total (JNum 1 0)]
    [with_total (JNum 1 0); with_total (JNum 1 0); with_total (JNum 1 16)]
  /\ revenue (orders (summarize
       [with_total (JNum 1 16); with_total (JNum 1 0); with_total (JNum 1 0)] [] []))
     = FxDec false 1000000000000000000
  /\ revenue (orders (summarize
       [with_total (JNum 1 0); with_total (JNum 1 0); with_total (JNum 1 16)] [] []))
     = FxDec false 1000000000000000200.
Proof.
  split.
  - apply (Permutation_cons_append [with_total (JNum 1 0); with_total (JNum 1 0)]).
  - vm_compute. split; reflexivity.
Qed.

(** C2, as the handler has it: when every total is a whole number of
    cents and [6 * n * (1 + cents in all) <= 2^53] for the [n] orders, the
    revenue is the exact total, whatever the order of the rows. *)
Theorem revenue_permutation (cents : order -> Z) (os os' : list order)
  (us : list user) (cs : list campaign) :
  Permutation os os' ->
  (forall o, In o os -> whole_cents o (cents o)) ->
  6 * len os * (1 + sum_Z (map cents os)) <= 2 ^ 53 ->
  revenue (orders (summarize os us cs)) = FxDec false (sum_Z (map cents os))
  /\ revenue (orders (summarize os' us cs)) = revenue (orders (summarize os us cs)).
Proof.
  intros P W B. simpl.
  rewrite (revenue_exact cents os W B). split; [reflexivity|].
  rewrite (revenue_exact cents os').
  - f_equal. apply sum_Z_perm, Permutation_map, Permutation_sym, P.
  - intros o I. apply W, (Permutation_in _ (Permutation_sym P)), I.
  - rewrite <- (len_perm _ _ P).
    rewrite <- (sum_Z_perm _ _ (Permutation_map cents P)). exact B.
Qed.

Lemma revenue_permutation_witness :
  revenue (orders (summarize
    [with_total (JNum 1050 (-2)); with_total (JStr "2.5")] [] []))
  = FxDec false
      (sum_Z (map (fun o => match o_total o with JNum m _ => m | _ => 250 end)
                [with_total (JNum 1050 (-2)); with_total (JStr "2.5")]))
  /\ revenue (orders (summarize
       [with_total (JStr "2.5"); with_total (JNum 1050 (-2))] [] []))
     = revenue (orders (summarize
         [with_total (JNum 1050 (-2)); with_total (JStr "2.5")] [] [])).
Proof.
  apply (revenue_permutation
           (fun o => match o_total o with JNum m _ => m | _ => 250 end)).
  - apply perm_swap.
  - intros o [<-|[<-|[]]]; split; vm_compute; try reflexivity; discriminate.
  - vm_compute. discriminate.
Defined.

(** C5: an order whose total is null or the text abc has amount 0; it
    leaves the revenue as it is without it, and the average is the same sum
    over one order more. *)
Theorem unparsable_total_counts_zero (l1 l2 : list order) (o : order)
  (us : list user) (cs : list campaign) :
  o_total o = JNull \/ o_total o = JStr "abc" ->
  amount o = zero
  /\ revenue (orders (summarize (l1 ++ o :: l2) us cs))
     = revenue (orders (summarize (l1 ++ l2) us cs))
  /\ average_value (orders (summarize (l1 ++ o :: l2) us cs))
     = OFixed (toFixed2 (fdiv (revenue_sum (l1 ++ l2)) (of_Z (len (l1 ++ l2) + 1)))).
Proof.
  intros H.
  assert (A : amount o = zero).
  { unfold amount. destruct H as [-> | ->]; reflexivity. }
  assert (E : revenue_sum (l1 ++ o :: l2) = revenue_sum (l1 ++ l2)).
  { unfold revenue_sum. rewrite !fold_left_app. cbn [fold_left].
    rewrite A, fadd_zero_r; [reflexivity|].
    apply revenue_fold_wf, wf_zero. }
  split; [exact A|]. simpl. rewrite E. split; [reflexivity|].
  rewrite !len_app, len_cons.
  pose proof (len_nonneg l1). pose proof (len_nonneg l2).
  destruct (Z.ltb_spec 0 (len l1 + (len l2 + 1))); [|lia].
  replace (len l1 + (len l2 + 1)) with (len l1 + len l2 + 1) by lia.
  reflexivity.
Qed.

Lemma unparsable_total_counts_zero_witness :
  amount (with_total (JStr "abc")) = zero
  /\ revenue (orders (summarize
       ([with_total (JNum 5 0)] ++ with_total (JStr "abc") :: [with_total (JNum 7 0)])
       [] []))
     = revenue (orders (summarize
         ([with_total (JNum 5 0)] ++ [with_total (JNum 7 0)]) [] []))
  /\ average_value (orders (summarize
       ([with_total (JNum 5 0)] ++ with_total (JStr "abc") :: [with_total (JNum 7 0)])
       [] []))
     = OFixed (toFixed2
         (fdiv (revenue_sum ([with_total (JNum 5 0)] ++ [with_total (JNum 7 0)]))
               (of_Z (len ([with_total (JNum 5 0)] ++ [with_total (JNum 7 0)]) + 1)))).
Proof.
  apply (unparsable_total_counts_zero
           [with_total (JNum 5 0)] [with_total (JNum 7 0)] (with_total (JStr "abc"))).
  right. reflexivity.
Defined.

(** C10: the users section reports the number of fetched user rows under
    both names. *)
Theorem total_users_is_new_users (os : list order) (us : list user)
  (cs : list campaign) :
  total_users (users (summarize os us cs)) = new_users (users (summarize os us cs))
  /\ new_users (users (summarize os us cs)) = len us.
Proof. split; reflexivity. Qed.

End OverviewClaims.

Module DateFacts.
Import Num Js Date.
Local Open Scope string_scope.
Local Open Scope Z_scope.

Lemma MonthFromTime_range (t : Z) : 0 <= MonthFromTime t <= 11.
Proof.
  unfold MonthFromTime.
  repeat match goal with |- context [if ?b then _ else _] => destruct b end; lia.
Qed.

(** Setting the day of the month [k] days before the current one moves the
    day number back by [k]: the year and month fields cancel. *)
Lemma MakeDay_back (t k : Z) :
  MakeDay (YearFromTime t) (MonthFromTime t) (DateFromTime t - k) = Day t - k.
Proof.
  pose proof (MonthFromTime_range t) as R.
  unfold MakeDay, DateFromTime, DayWithinYear, InLeapYear.
  rewrite Z.div_small, Z.mod_small, Z.add_0_r by lia. lia.
Qed.

Lemma MakeDate_back (t k : Z) :
  MakeDate (Day t - k) (TimeWithinDay t) = t - k * msPerDay.
Proof.
  unfold MakeDate, Day, TimeWithinDay, msPerDay.
  pose proof (Z.div_mod t 86400000 ltac:(lia)). lia.
Qed.

(** [d.setDate(d.getDate() - d.getDay())] moves the time value back by as
    many days as the local day of the week counts. *)
Lemma setDate_week_start (tza t : Z) :
  setDate tza t (getDate tza t - getDay tza t)
  = TimeClip (t - WeekDay (t + tza) * msPerDay).
Proof.
  unfold setDate, getDate, getDay, LocalTime.
  rewrite MakeDay_back, MakeDate_back. f_equal. lia.
Qed.

Lemma Day_back (t k : Z) : Day (t - k * msPerDay) = Day t - k.
Proof.
  unfold Day, msPerDay.
  replace (t - k * 86400000) with (t + (- k) * 86400000) by lia.
  rewrite Z.div_add by lia. lia.
Qed.

Lemma WeekDay_range (t : Z) : 0 <= WeekDay t <= 6.
Proof. unfold WeekDay. pose proof (Z.mod_pos_bound (Day t + 4) 7). lia. Qed.

Lemma WeekDay_week_start (t : Z) : WeekDay (t - WeekDay t * msPerDay) = 0.
Proof.
  unfold WeekDay at 1. rewrite Day_back. unfold WeekDay.
  replace (Day t - (Day t + 4) mod 7 + 4) with (Day t + 4 - (Day t + 4) mod 7) by lia.
  rewrite Zminus_mod, Z.mod_mod, Z.sub_diag by lia. reflexivity.
Qed.

End DateFacts.

Module PeriodClaims.
Import Num Js Date Analytics DateFacts.
Local Open Scope string_scope.
Local Open Scope Z_scope.

(** C3 fails on a host west of Greenwich: five hours behind UTC, the order
    created at 2024-03-13T00:00:00Z (a Wednesday) gets the week key
    2024-03-11, a Monday; on a host at UTC it gets 2024-03-10. *)
Theorem week_key_west_of_utc :
  iso_date 1710288000000 = "2024-03-13"
  /\ WeekDay 1710288000000 = 3
  /\ period_key (-18000000) "week" (Some 1710288000000) = Done (Some "2024-03-11")
  /\ period_key 0 "week" (Some 1710288000000) = Done (Some "2024-03-10")
  /\ groupByPeriod (-18000000) [placed_at 1710288000000] "week"
     = Done [{| period := Some "2024-03-11";
                bucket_revenue := Fin U; bucket_orders := 1 |}].
Proof. vm_compute. repeat split. Qed.

(** C4: an unknown type is answered with status 400 and no list; an unknown
    period is not refused: the order is filed under the key [undefined] and
    the bucket is returned. *)
Theorem unknown_period_not_refused (tza : Z) (o : order)
  (limit : option string) (os : list order) :
  topPerformers (Some "bogus") limit os = Failure 400 "Invalid type parameter"
  /\ groupByPeriod tza [o] "bogus"
     = Done [{| period := None;
                bucket_revenue := fadd zero (amount o); bucket_orders := 1 |}].
Proof. split; reflexivity. Qed.

End PeriodClaims.

Module GroupingFacts.
Import Num Js Analytics NumFacts JsFacts FunnelClaims OverviewClaims.
Local Open Scope string_scope.
Local Open Scope Z_scope.

(** *** Order of Numbers that are not NaN *)


Lemma num_lt_ntrans (x y z : number) :
  is_nan x = false -> is_nan y = false -> is_nan z = false ->
  num_lt x y = false -> num_lt y z = false -> num_lt x z = false.
Proof.
  destruct x as [|[]|a], y as [|[]|b], z as [|[]|c]; simpl;
    try reflexivity; try discriminate.
  intros _ _ _ H1 H2. apply Z.ltb_ge in H1, H2. apply Z.ltb_ge. lia.
Qed.

Lemma amount_not_nan (o : order) : is_nan (amount o) = false.
Proof. unfold amount. destruct (parseFloat (o_total o)); reflexivity. Qed.

Lemma fadd_finite_not_nan (x y : number) :
  is_nan x = false -> is_finite y = true -> is_nan (fadd x y) = false.
Proof.
  destruct x as [|a|a], y as [|b|b]; simpl; try discriminate; try reflexivity.
  intros _ _. unfold round_ratio.
  destruct (2 ^ 2098 <=? round_mag (Z.abs (a + b)) 1); reflexivity.
Qed.

(** *** The store and delivery groupings *)

Section Rollups.
Variable id : order -> ident.
Variable name : order -> option string.

Lemma rollup_of_cons (o1 o : order) (l : list order) (p : performance) :
  fold_left (fun p o => add_order o p) (o :: l) p
  = fold_left (fun p o => add_order o p) l (add_order o p).
Proof. reflexivity. Qed.







Lemma grouping_not_nan (os : list order) (acc : obj performance) :
  Forall finite_amount os ->
  Forall (fun kv => is_nan (total_revenue (snd kv)) = false) acc ->
  Forall (fun kv => is_nan (total_revenue (snd kv)) = false)
    (fold_left (perf_step id name) os acc).
Proof.
  intros Fo. revert acc. induction Fo as [|o os Ho Fo IH]; intros acc F; [exact F|].
  cbn [fold_left]. apply IH. unfold perf_step.
  apply (touch_Forall (fun p => is_nan (total_revenue p) = false)).
  - cbn [add_order total_revenue].
    apply fadd_finite_not_nan; [reflexivity|exact Ho].
  - intros v Hv. cbn [add_order total_revenue].
    apply fadd_finite_not_nan; assumption.
  - exact F.
Qed.


End Rollups.

End GroupingFacts.

Module RankingClaims.
Import Num Js Analytics NumFacts JsFacts FunnelClaims OverviewClaims GroupingFacts.
Local Open Scope string_scope.
Local Open Scope Z_scope.


Lemma In_firstn {A : Type} (n : nat) (l : list A) (x : A) :
  In x (firstn n l) -> In x l.
Proof.
  revert n. induction l as [|a l IH]; intros [|n]; simpl; try tauto.
  intros [E|I]; [left; exact E|right; apply (IH n I)].
Qed.

Lemma StronglySorted_firstn {A : Type} (R : A -> A -> Prop) (n : nat) (l : list A) :
  StronglySorted R l -> StronglySorted R (firstn n l).
Proof.
  intros S. revert n. induction S as [|a l S IH F]; intros [|n]; simpl;
    try constructor; [apply IH|].
  rewrite Forall_forall in *. intros x Hx. apply F.
  apply (In_firstn n l x Hx).
Qed.

Lemma revenue_gt_lt (a b : performance) :
  revenue_gt a b = num_lt (total_revenue a) (total_revenue b).
Proof. apply is_pos_fsub. Qed.

Lemma values_Forall {V : Type} (Q : V -> Prop) (o : obj V) :
  Forall (fun kv => Q (snd kv)) o -> Forall Q (values o).
Proof.
  intros F. apply (Permutation_Forall (Permutation_sym (values_perm o))).
  apply Forall_map. exact F.
Qed.







End RankingClaims.

Module LtvClaims.
Import Num Js Analytics NumFacts JsFacts FunnelClaims OverviewClaims.
Import GroupingFacts RankingClaims.
Local Open Scope string_scope.
Local Open Scope Z_scope.

Lemma ltv_step_skip (acc : obj customer) (o : order) :
  falsy (o_created_by o) = true -> ltv_step acc o = acc.
Proof. intros F. unfold ltv_step. rewrite F. reflexivity. Qed.

(** Only the orders with a customer reference reach the grouping. *)
Lemma customerValues_filter (os : list order) (acc : obj customer) :
  fold_left ltv_step os acc = fold_left ltv_step (with_customer os) acc.
Proof.
  revert acc. induction os as [|o os IH]; intros acc; [reflexivity|].
  unfold with_customer. cbn [fold_left filter].
  destruct (falsy (o_created_by o)) eqn:F; cbn [negb].
  - rewrite (ltv_step_skip acc o F). apply IH.
  - cbn [fold_left]. apply IH.
Qed.

Lemma with_customer_app (l1 l2 : list order) :
  with_customer (l1 ++ l2) = (with_customer l1 ++ with_customer l2)%list.
Proof. apply filter_app. Qed.

Lemma customers_not_nan (os : list order) (acc : obj customer) :
  Forall finite_amount os ->
  Forall (fun kv => is_nan (total_spent (snd kv)) = false) acc ->
  Forall (fun kv => is_nan (total_spent (snd kv)) = false)
    (fold_left ltv_step os acc).
Proof.
  intros Fo. revert acc. induction Fo as [|o os Ho Fo IH]; intros acc F; [exact F|].
  cbn [fold_left]. apply IH. unfold ltv_step.
  destruct (falsy (o_created_by o)); [exact F|].
  apply (touch_Forall (fun c => is_nan (total_spent c) = false)).
  - cbn [add_purchase total_spent].
    apply fadd_finite_not_nan; [reflexivity|exact Ho].
  - intros v Hv. cbn [add_purchase total_spent].
    apply fadd_finite_not_nan; assumption.
  - exact F.
Qed.

Lemma spent_gt_lt (a b : customer) :
  spent_gt a b = num_lt (total_spent a) (total_spent b).
Proof. apply is_pos_fsub. Qed.



End LtvClaims.

Module GroupByFacts.
Import Num Js JsFacts.
Local Open Scope string_scope.
Local Open Scope Z_scope.

(** *** Grouping rows into an object, in general

    Every grouping of the handlers is a fold of [touch]: the row gives the
    key, the entry to open and the update. *)

Section GroupBy.
Context {R V : Type}.
Variable key : R -> string.
Variable init : R -> V.
Variable add : R -> V -> V.

Lemma group_get (k : string) (rs : list R) (acc : obj V) :
  inherited k = false ->
  get k (fold_left (fun acc r => touch (key r) (init r) (add r) acc) rs acc)
  = match get k acc with
    | Some v =>
        Some (fold_left (fun v r => add r v)
                (filter (fun r => String.eqb (key r) k) rs) v)
    | None =>
        match filter (fun r => String.eqb (key r) k) rs with
        | [] => None
        | r1 :: rest =>
            Some (fold_left (fun v r => add r v) (r1 :: rest) (init r1))
        end
    end.
Proof.
  intros I. revert acc. induction rs as [|r rs IH]; intros acc.
  - simpl. destruct (get k acc); reflexivity.
  - cbn [fold_left filter]. rewrite IH.
    destruct (String.eqb_spec (key r) k) as [E|N].
    + rewrite E, get_touch_same by assumption.
      destruct (get k acc); reflexivity.
    + rewrite get_touch_other by assumption. reflexivity.
Qed.

Lemma group_keys (rs : list R) (acc : obj V) :
  NoDup (map fst acc) ->
  Forall (fun kv => inherited (fst kv) = false) acc ->
  NoDup (map fst (fold_left (fun acc r => touch (key r) (init r) (add r) acc) rs acc))
  /\ Forall (fun kv => inherited (fst kv) = false)
       (fold_left (fun acc r => touch (key r) (init r) (add r) acc) rs acc).
Proof.
  revert acc. induction rs as [|r rs IH]; intros acc ND F; [auto|].
  cbn [fold_left]. apply IH.
  - apply touch_NoDup, ND.
  - unfold touch.
    destruct (inherited (key r)) eqn:I; [assumption|].
    destruct (get (key r) acc).
    + clear - F. induction F as [|[k' v'] l Hk Hl IHl]; simpl; [constructor|].
      destruct (String.eqb (key r) k'); constructor; auto.
    + apply Forall_app. split; [assumption|]. constructor; [exact I|constructor].
Qed.


(** A row whose key names a member of [Object.prototype] leaves the
    grouping as it is. *)
Lemma group_skip (rs1 rs2 : list R) (r : R) (acc : obj V) :
  inherited (key r) = true ->
  fold_left (fun acc r => touch (key r) (init r) (add r) acc) (rs1 ++ r :: rs2) acc
  = fold_left (fun acc r => touch (key r) (init r) (add r) acc) (rs1 ++ rs2) acc.
Proof.
  intros I. rewrite !fold_left_app. cbn [fold_left].
  rewrite get_touch_inherited by assumption. reflexivity.
Qed.

(** A measure that every update raises by one adds up, over the entries,
    to the number of rows whose key is not inherited. *)
Variable size : V -> Z.
Hypothesis size_init : forall r, size (init r) = 0.
Hypothesis size_add : forall r v, size (add r v) = size v + 1.

Lemma update_size (k : string) (r : R) (o : obj V) (v : V) :
  get k o = Some v ->
  fold_right Z.add 0 (map (fun kv => size (snd kv)) (update k (add r) o))
  = fold_right Z.add 0 (map (fun kv => size (snd kv)) o) + 1.
Proof.
  revert v. induction o as [|[k' v'] o IH]; intros v; simpl; [discriminate|].
  destruct (String.eqb k k').
  - intros _. simpl. rewrite size_add. lia.
  - intros G. simpl. rewrite (IH v G). lia.
Qed.

Lemma group_size (rs : list R) (acc : obj V) :
  fold_right Z.add 0
    (map (fun kv => size (snd kv))
       (fold_left (fun acc r => touch (key r) (init r) (add r) acc) rs acc))
  = fold_right Z.add 0 (map (fun kv => size (snd kv)) acc)
    + Z.of_nat (List.length (filter (fun r => negb (inherited (key r))) rs)).
Proof.
  revert acc. induction rs as [|r rs IH]; intros acc; [simpl; lia|].
  cbn [fold_left filter]. rewrite IH. unfold touch.
  destruct (inherited (key r)) eqn:I; cbn [negb]; [reflexivity|].
  cbn [List.length]. rewrite Nat2Z.inj_succ.
  destruct (get (key r) acc) as [v|] eqn:G.
  - rewrite (update_size _ _ _ v G). lia.
  - rewrite map_app, fold_right_app. simpl. rewrite size_add, size_init.
    assert (E : forall (l : list Z) (z : Z),
               fold_right Z.add z l = fold_right Z.add 0 l + z).
    { induction l as [|a l IHl]; intros z; simpl; [lia|]. rewrite IHl. lia. }
    rewrite E. lia.
Qed.

End GroupBy.

Lemma sum_values {V : Type} (size : V -> Z) (o : obj V) :
  fold_right Z.add 0 (map size (values o))
  = fold_right Z.add 0 (map (fun kv => size (snd kv)) o).
Proof.
  rewrite <- (map_map snd size).
  assert (P : forall l l' : list Z, Permutation l l' ->
                fold_right Z.add 0 l = fold_right Z.add 0 l').
  { induction 1; simpl; lia. }
  apply P, Permutation_map, values_perm.
Qed.

End GroupByFacts.

Module KeyFacts.
Import Num Js Date Analytics JsFacts.
Local Open Scope string_scope.
Local Open Scope Z_scope.

(** *** Keys made of digits are no members of Object.prototype *)

Lemma inherited_numeric (s : string) : starts_numeric s = true -> inherited s = false.
Proof.
  destruct s as [|c s]; [discriminate|]. unfold starts_numeric, inherited.
  intros H. cbn [existsb String.eqb].
  assert (N : forall d : ascii,
             is_digit d = false -> Ascii.eqb d "-" = false ->
             Ascii.eqb d "+" = false -> Ascii.eqb c d = false).
  { intros d D1 D2 D3. destruct (Ascii.eqb_spec c d) as [->|]; [|reflexivity].
    rewrite D1, D2, D3 in H. discriminate. }
  rewrite !N by reflexivity. reflexivity.
Qed.

Lemma dec_string_numeric (n : Z) : starts_numeric (dec_string n) = true.
Proof.
  unfold dec_string, NilZero.string_of_int, NilZero.string_of_uint.
  destruct (Z.to_int n) as [d|d]; destruct d; reflexivity.
Qed.

Lemma append_numeric (s s' : string) :
  starts_numeric s = true -> starts_numeric (s ++ s') = true.
Proof. destruct s; [discriminate|]. intros H. exact H. Qed.

Lemma padStart0_numeric (w : nat) (s : string) :
  starts_numeric s = true -> starts_numeric (padStart0 w s) = true.
Proof.
  intros H. unfold padStart0. destruct (w - String.length s)%nat; [exact H|].
  reflexivity.
Qed.

Lemma iso_date_numeric (t : Z) : starts_numeric (iso_date t) = true.
Proof.
  unfold iso_date. apply append_numeric. unfold iso_year, pad.
  destruct ((0 <=? YearFromTime t) && (YearFromTime t <=? 9999)).
  - apply padStart0_numeric, dec_string_numeric.
  - destruct (YearFromTime t <? 0); reflexivity.
Qed.

(** No period key names a member of [Object.prototype]. *)
Lemma period_key_own (tza : Z) (unit : string) (date : option Z) (key : option string) :
  period_key tza unit date = Done key -> inherited (property_key key) = false.
Proof.
  unfold period_key.
  destruct (String.eqb unit "day").
  { destruct date as [t|]; [|discriminate]. intros [= <-].
    apply inherited_numeric, iso_date_numeric. }
  destruct (String.eqb unit "week").
  { destruct date as [t|]; [|discriminate].
    destruct (setDate tza t (getDate tza t - getDay tza t)); [|discriminate].
    intros [= <-]. apply inherited_numeric, iso_date_numeric. }
  destruct (String.eqb unit "month").
  { destruct date as [t|]; intros [= <-]; [|reflexivity].
    apply inherited_numeric, append_numeric, dec_string_numeric. }
  destruct (String.eqb unit "year").
  { destruct date as [t|]; intros [= <-]; [|reflexivity].
    apply inherited_numeric, dec_string_numeric. }
  intros [= <-]. reflexivity.
Qed.

Lemma period_key_throws (tza : Z) (unit : string) (date : option Z) (e : exn) :
  period_key tza unit date = Throw e -> e = RangeError.
Proof.
  unfold period_key.
  repeat match goal with
         | |- context [if ?b then _ else _] => destruct b
         | |- context [match ?d with Some _ => _ | None => _ end] => destruct d
         end; congruence.
Qed.

End KeyFacts.

Module BucketFacts.
Import Num Js Date Analytics NumFacts JsFacts FunnelClaims OverviewClaims.
Import DateFacts GroupByFacts KeyFacts.
Local Open Scope string_scope.
Local Open Scope Z_scope.

Lemma bucket_fold_thrown (tza : Z) (unit : string) (os : list order) (e : exn) :
  fold_left (bucket_step tza unit) os (Throw e) = Throw e.
Proof. induction os as [|o os IH]; [reflexivity|exact IH]. Qed.

(** While no period throws, the fold is a plain grouping by period. *)
Lemma bucket_fold_done (tza : Z) (unit : string) (os : list order) (acc : obj bucket) :
  forallb (fun o => negb (period_throws tza unit o)) os = true ->
  fold_left (bucket_step tza unit) os (Done acc)
  = Done (fold_left
            (fun acc o =>
               touch (property_key (order_period tza unit o))
                 {| period := order_period tza unit o;
                    bucket_revenue := zero; bucket_orders := 0 |}
                 (add_to_bucket o) acc) os acc).
Proof.
  revert acc. induction os as [|o os IH]; intros acc H; [reflexivity|].
  cbn [forallb] in H. apply andb_prop in H. destruct H as [H1 H2].
  cbn [fold_left]. rewrite <- (IH _ H2). f_equal.
  unfold bucket_step, order_period. unfold period_throws in H1.
  destruct (period_key tza unit (o_created_at o)); [reflexivity|discriminate].
Qed.

(** The first period that throws ends the fold. *)
Lemma bucket_fold_throws (tza : Z) (unit : string) (os : list order) (acc : obj bucket) :
  forallb (fun o => negb (period_throws tza unit o)) os = false ->
  fold_left (bucket_step tza unit) os (Done acc) = Throw RangeError.
Proof.
  revert acc. induction os as [|o os IH]; intros acc H; [discriminate|].
  cbn [forallb] in H. cbn [fold_left]. unfold bucket_step at 2.
  unfold period_throws in H.
  destruct (period_key tza unit (o_created_at o)) as [key|e] eqn:K.
  - apply IH. exact H.
  - rewrite (period_key_throws _ _ _ _ K). apply bucket_fold_thrown.
Qed.

Lemma bucket_fields (l : list order) (b : bucket) :
  fold_left (fun b o => add_to_bucket o b) l b
  = {| period := period b;
       bucket_revenue :=
         fold_left (fun sum o => fadd sum (amount o)) l (bucket_revenue b);
       bucket_orders := bucket_orders b + len l |}.
Proof.
  revert b. induction l as [|o l IH]; intros b.
  - simpl. change (len []) with 0. rewrite Z.add_0_r. destruct b; reflexivity.
  - cbn [fold_left]. rewrite IH. unfold add_to_bucket.
    cbn [period bucket_revenue bucket_orders]. rewrite len_cons.
    f_equal. lia.
Qed.

Lemma bucket_of_fold (key : option string) (l : list order) :
  fold_left (fun b o => add_to_bucket o b) l
    {| period := key; bucket_revenue := zero; bucket_orders := 0 |}
  = bucket_of key l.
Proof. rewrite bucket_fields. reflexivity. Qed.

Lemma sort_buckets_perm (l bs : list bucket) :
  sort_buckets l = Done bs -> Permutation bs l.
Proof.
  unfold sort_buckets. destruct l as [|a [|b l]]; try (intros [= <-]; reflexivity).
  destruct (forallb defined_period (a :: b :: l)); [|discriminate].
  intros [= <-]. apply (js_sort_perm period_gt (a :: b :: l)).
Qed.

End BucketFacts.

Module BucketProps.
Import Num Js Date Analytics NumFacts JsFacts FunnelClaims OverviewClaims.
Import DateFacts GroupByFacts KeyFacts BucketFacts.
Local Open Scope string_scope.
Local Open Scope Z_scope.

Lemma sum_by_perm {A : Type} (f : A -> Z) (l l' : list A) :
  Permutation l l' -> sum_by f l = sum_by f l'.
Proof. unfold sum_by. induction 1; simpl in *; lia. Qed.

Lemma filter_all {A : Type} (p : A -> bool) (l : list A) :
  forallb p l = true -> filter p l = l.
Proof.
  induction l as [|a l IH]; [reflexivity|]. simpl. intros H.
  apply andb_prop in H. destruct H as [H1 H2]. rewrite H1, (IH H2). reflexivity.
Qed.

(** The grouping behind [groupByPeriod] when no period throws. *)
Lemma grouped_buckets (tza : Z) (unit : string) (os : list order) (bs : list bucket) :
  groupByPeriod tza os unit = Done bs ->
  forallb (fun o => negb (period_throws tza unit o)) os = true
  /\ Permutation bs
       (values (fold_left
          (fun acc o =>
             touch (property_key (order_period tza unit o))
               {| period := order_period tza unit o;
                  bucket_revenue := zero; bucket_orders := 0 |}
               (add_to_bucket o) acc) os [])).
Proof.
  unfold groupByPeriod. intros H.
  destruct (forallb (fun o => negb (period_throws tza unit o)) os) eqn:NT.
  - split; [reflexivity|]. rewrite bucket_fold_done in H by assumption.
    apply sort_buckets_perm, H.
  - rewrite bucket_fold_throws in H by assumption. discriminate.
Qed.

Lemma order_period_own (tza : Z) (unit : string) (o : order) :
  inherited (property_key (order_period tza unit o)) = false.
Proof.
  unfold order_period.
  destruct (period_key tza unit (o_created_at o)) as [key|e] eqn:K; [|reflexivity].
  apply (period_key_own _ _ _ _ K).
Qed.

Lemma bucket_orders_sum (tza : Z) (unit : string) (os : list order)
  (bs : list bucket) :
  groupByPeriod tza os unit = Done bs -> sum_by bucket_orders bs = len os.
Proof.
  intros H. destruct (grouped_buckets _ _ _ _ H) as [NT P].
  pose (key := fun o => property_key (order_period tza unit o)).
  pose (init := fun o => {| period := order_period tza unit o;
                            bucket_revenue := zero; bucket_orders := 0 |}).
  change (Permutation bs
            (values (fold_left
               (fun acc r => touch (key r) (init r) (add_to_bucket r) acc) os [])))
    in P.
  rewrite (sum_by_perm _ _ _ P). unfold sum_by. rewrite sum_values.
  rewrite (group_size key init add_to_bucket bucket_orders
             (fun _ => eq_refl) (fun _ _ => eq_refl) os []).
  simpl fold_right.
  rewrite filter_all; [reflexivity|].
  apply forallb_forall. intros o _. unfold key.
  rewrite order_period_own. reflexivity.
Qed.

(** groupByPeriod, when it returns: every order is in exactly one bucket,
    and a bucket holds the orders of its period, their number and their
    revenue added in the order of the rows. *)
Theorem revenue_buckets_partition (tza : Z) (unit : string) (os : list order)
  (bs : list bucket) :
  groupByPeriod tza os unit = Done bs ->
  sum_by bucket_orders bs = len os
  /\ forall b, In b bs ->
       exists o1 rest,
         in_period tza unit (property_key (period b)) os = o1 :: rest
         /\ b = bucket_of (period b) (o1 :: rest).
Proof.
  intros H. destruct (grouped_buckets _ _ _ _ H) as [NT P].
  pose (key := fun o => property_key (order_period tza unit o)).
  pose (init := fun o => {| period := order_period tza unit o;
                            bucket_revenue := zero; bucket_orders := 0 |}).
  change (Permutation bs
            (values (fold_left
               (fun acc r => touch (key r) (init r) (add_to_bucket r) acc) os [])))
    in P.
  split.
  - apply (bucket_orders_sum _ _ _ _ H).
  - intros b Hb. apply (Permutation_in _ P) in Hb.
    apply In_values in Hb. destruct Hb as [k Hk].
    pose proof (group_keys key init add_to_bucket os [] (NoDup_nil _) (Forall_nil _))
      as [ND F].
    assert (I : inherited k = false).
    { rewrite Forall_forall in F. apply (F (k, b) Hk). }
    pose proof (In_get _ _ _ ND Hk) as E.
    rewrite (group_get key init add_to_bucket k os [] I) in E. cbn [get] in E.
    change (filter (fun r => String.eqb (key r) k) os)
      with (in_period tza unit k os) in E.
    destruct (in_period tza unit k os) as [|o1 rest] eqn:W; [discriminate|].
    injection E as E. unfold init in E. cbv beta in E.
    pose proof (bucket_of_fold (order_period tza unit o1) (o1 :: rest)) as BF.
    cbn [fold_left] in BF. rewrite BF in E.
    assert (K : key o1 = k).
    { assert (M : In o1 (in_period tza unit k os)) by (rewrite W; left; reflexivity).
      apply filter_In in M. destruct M as [_ M]. apply String.eqb_eq, M. }
    exists o1, rest. subst b. cbn [bucket_of period].
    unfold key in K. rewrite K. split; [exact W|reflexivity].
Qed.

Lemma revenue_buckets_partition_witness :
  sum_by bucket_orders
    [ {| period := Some "2024-03"; bucket_revenue := Fin (2 * U); bucket_orders := 2 |} ]
  = len [placed_at 1710288000000; placed_at 1710374400000]
  /\ forall b,
       In b [ {| period := Some "2024-03"; bucket_revenue := Fin (2 * U);
                 bucket_orders := 2 |} ] ->
       exists o1 rest,
         in_period 0 "month" (property_key (period b))
           [placed_at 1710288000000; placed_at 1710374400000] = o1 :: rest
         /\ b = bucket_of (period b) (o1 :: rest).
Proof.
  apply (revenue_buckets_partition 0 "month"
           [placed_at 1710288000000; placed_at 1710374400000]).
  vm_compute. reflexivity.
Defined.

(** groupByPeriod by day or by week: one order whose date is not a date
    makes the whole grouping throw, and GET /revenue answers 500. *)
Theorem revenue_buckets_abort_on_invalid_date (tza : Z) (unit : string)
  (os : list order) (o : order) :
  unit = "day" \/ unit = "week" ->
  In o os -> o_created_at o = None ->
  groupByPeriod tza os unit = Throw RangeError
  /\ revenueAnalytics tza (Some unit) os
     = Failure 500 "Failed to get revenue analytics".
Proof.
  intros HU Ho Hd.
  assert (G : groupByPeriod tza os unit = Throw RangeError).
  { unfold groupByPeriod.
    rewrite bucket_fold_throws; [reflexivity|].
    destruct (forallb (fun o => negb (period_throws tza unit o)) os) eqn:NT;
      [|reflexivity].
    rewrite forallb_forall in NT. specialize (NT o Ho).
    unfold period_throws, period_key in NT. rewrite Hd in NT.
    destruct HU as [-> | ->]; discriminate. }
  split; [exact G|]. unfold revenueAnalytics. cbn [or_default].
  rewrite G. reflexivity.
Qed.

Lemma revenue_buckets_abort_on_invalid_date_witness :
  groupByPeriod 0 [placed_at 1710288000000; blank] "day" = Throw RangeError
  /\ revenueAnalytics 0 (Some "day") [placed_at 1710288000000; blank]
     = Failure 500 "Failed to get revenue analytics".
Proof.
  apply (revenue_buckets_abort_on_invalid_date 0 "day"
           [placed_at 1710288000000; blank] blank).
  - left. reflexivity.
  - simpl. right. left. reflexivity.
  - reflexivity.
Defined.

End BucketProps.

Module PeriodEdges.
Import Num Js Date Analytics NumFacts JsFacts FunnelClaims OverviewClaims.
Import DateFacts GroupByFacts KeyFacts BucketFacts BucketProps.
Local Open Scope string_scope.
Local Open Scope Z_scope.

Lemma unknown_period_key (tza : Z) (unit : string) (date : option Z) :
  unit <> "day" -> unit <> "week" -> unit <> "month" -> unit <> "year" ->
  period_key tza unit date = Done None.
Proof.
  intros D W M Y. unfold period_key.
  destruct (String.eqb_spec unit "day"); [contradiction|].
  destruct (String.eqb_spec unit "week"); [contradiction|].
  destruct (String.eqb_spec unit "month"); [contradiction|].
  destruct (String.eqb_spec unit "year"); [contradiction|].
  reflexivity.
Qed.

Lemma unknown_period_fold (tza : Z) (unit : string) (os : list order) (b : bucket) :
  unit <> "day" -> unit <> "week" -> unit <> "month" -> unit <> "year" ->
  fold_left (bucket_step tza unit) os (Done [("undefined", b)])
  = Done [("undefined", fold_left (fun b o => add_to_bucket o b) os b)].
Proof.
  intros D W M Y. revert b. induction os as [|o os IH]; intros b; [reflexivity|].
  cbn [fold_left]. rewrite <- IH. f_equal.
  unfold bucket_step. rewrite unknown_period_key by assumption. reflexivity.
Qed.

(** groupByPeriod with a period that is none of day, week, month, year:
    nothing is refused; all the orders come back as one bucket with no
    period, their number and their revenue. *)
Theorem unknown_period_one_bucket (tza : Z) (unit : string) (os : list order) :
  unit <> "day" -> unit <> "week" -> unit <> "month" -> unit <> "year" ->
  os <> [] ->
  groupByPeriod tza os unit = Done [bucket_of None os].
Proof.
  intros D W M Y NE. destruct os as [|o os]; [congruence|]. clear NE.
  unfold groupByPeriod. cbn [fold_left]. unfold bucket_step at 2.
  rewrite unknown_period_key by assumption.
  change (touch (property_key None)
            {| period := None; bucket_revenue := zero; bucket_orders := 0 |}
            (add_to_bucket o) [])
    with [("undefined",
           add_to_bucket o
             {| period := None; bucket_revenue := zero; bucket_orders := 0 |})].
  rewrite unknown_period_fold by assumption.
  change (values [("undefined", ?b)]) with [b].
  cbn [sort_buckets]. do 2 f_equal.
  pose proof (bucket_of_fold None (o :: os)) as BF. cbn [fold_left] in BF.
  exact BF.
Qed.

Lemma unknown_period_one_bucket_witness :
  groupByPeriod 0 [placed_at 1710288000000; blank] "quarter"
  = Done [bucket_of None [placed_at 1710288000000; blank]].
Proof.
  apply (unknown_period_one_bucket 0 "quarter" [placed_at 1710288000000; blank]);
    discriminate.
Defined.

(** groupByPeriod by month or by year never throws: an order whose date is
    not a date is filed under NaN-NaN (or NaN) with the others, and GET
    /revenue answers with the buckets. *)
Theorem month_buckets_never_abort (tza : Z) (unit : string) (os : list order) :
  unit = "month" \/ unit = "year" ->
  exists bs, groupByPeriod tza os unit = Done bs
    /\ revenueAnalytics tza (Some unit) os = Json bs
    /\ sum_by bucket_orders bs = len os
    /\ (forall o, In o os -> o_created_at o = None ->
          exists b, In b bs
            /\ period b = Some (if String.eqb unit "month" then "NaN-NaN" else "NaN")).
Proof.
  intros HU.
  assert (K : forall o, exists s, period_key tza unit (o_created_at o) = Done (Some s)).
  { intros o. unfold period_key.
    destruct HU as [-> | ->]; cbn [String.eqb Ascii.eqb Bool.eqb];
      destruct (o_created_at o); eexists; reflexivity. }
  assert (NT : forallb (fun o => negb (period_throws tza unit o)) os = true).
  { apply forallb_forall. intros o _. unfold period_throws.
    destruct (K o) as [s ->]. reflexivity. }
  assert (R : exists bs, groupByPeriod tza os unit = Done bs).
  { unfold groupByPeriod. rewrite bucket_fold_done by assumption.
    pose (key := fun o => property_key (order_period tza unit o)).
    pose (init := fun o => {| period := order_period tza unit o;
                              bucket_revenue := zero; bucket_orders := 0 |}).
    change (fold_left
              (fun acc o => touch (property_key (order_period tza unit o))
                 {| period := order_period tza unit o;
                    bucket_revenue := zero; bucket_orders := 0 |}
                 (add_to_bucket o) acc) os [])
      with (fold_left
              (fun acc r => touch (key r) (init r) (add_to_bucket r) acc) os []).
    set (G := fold_left
                (fun acc r => touch (key r) (init r) (add_to_bucket r) acc) os []).
    assert (DP : forallb defined_period (values G) = true).
    { apply forallb_forall. intros b Hb. apply In_values in Hb.
      destruct Hb as [k Hk]. subst G.
      pose proof (group_keys key init add_to_bucket os [] (NoDup_nil _) (Forall_nil _))
        as [ND F].
      assert (I : inherited k = false).
      { rewrite Forall_forall in F. apply (F (k, b) Hk). }
      pose proof (In_get _ _ _ ND Hk) as E.
      rewrite (group_get key init add_to_bucket k os [] I) in E. cbn [get] in E.
      destruct (filter (fun r => String.eqb (key r) k) os) as [|o1 rest];
        [discriminate|].
      injection E as E. rewrite bucket_fields in E. subst b.
      unfold defined_period, init, order_period. cbn [period].
      destruct (K o1) as [s ->]. reflexivity. }
    unfold sort_buckets. destruct (values G) as [|a [|b l]]; try (eexists; reflexivity).
    rewrite DP. eexists; reflexivity. }
  destruct R as [bs R]. exists bs. split; [exact R|].
  split; [unfold revenueAnalytics; cbn [or_default]; rewrite R; reflexivity|].
  split; [apply (bucket_orders_sum _ _ _ _ R)|].
  intros o Ho Hd. destruct (grouped_buckets _ _ _ _ R) as [_ P].
  pose (key := fun o => property_key (order_period tza unit o)).
  pose (init := fun o => {| period := order_period tza unit o;
                            bucket_revenue := zero; bucket_orders := 0 |}).
  change (Permutation bs
            (values (fold_left
               (fun acc r => touch (key r) (init r) (add_to_bucket r) acc) os [])))
    in P.
  pose (k := key o).
  assert (I : inherited k = false) by apply order_period_own.
  pose proof (group_get key init add_to_bucket k os [] I) as GG. cbn [get] in GG.
  destruct (filter (fun r => String.eqb (key r) k) os) as [|o1 rest] eqn:W.
  { assert (M : In o (filter (fun r => String.eqb (key r) k) os)).
    { apply filter_In. split; [exact Ho|]. apply String.eqb_refl. }
    rewrite W in M. destruct M. }
  assert (K1 : key o1 = k).
  { assert (M : In o1 (filter (fun r => String.eqb (key r) k) os))
      by (rewrite W; left; reflexivity).
    apply filter_In in M. destruct M as [_ M]. apply String.eqb_eq, M. }
  eexists. split.
  - apply (Permutation_in _ (Permutation_sym P)). apply In_values.
    exists k. apply get_In, GG.
  - rewrite bucket_fields. unfold init. cbn [period].
    assert (PK : forall a b : option string,
               (exists s, a = Some s) -> (exists s, b = Some s) ->
               property_key a = property_key b -> a = b).
    { intros a b [s ->] [s' ->]. simpl. congruence. }
    assert (OP : forall x, exists s, order_period tza unit x = Some s).
    { intros x. unfold order_period. destruct (K x) as [s ->]. eexists; reflexivity. }
    rewrite (PK _ _ (OP o1) (OP o) K1).
    unfold order_period, period_key. rewrite Hd.
    destruct HU as [-> | ->]; reflexivity.
Qed.

Lemma month_buckets_never_abort_witness :
  exists bs, groupByPeriod 0 [placed_at 1710288000000; blank] "month" = Done bs
    /\ revenueAnalytics 0 (Some "month") [placed_at 1710288000000; blank] = Json bs
    /\ sum_by bucket_orders bs = len [placed_at 1710288000000; blank]
    /\ (forall o, In o [placed_at 1710288000000; blank] -> o_created_at o = None ->
          exists b, In b bs
            /\ period b = Some (if String.eqb "month" "month" then "NaN-NaN" else "NaN")).
Proof.
  apply (month_buckets_never_abort 0 "month" [placed_at 1710288000000; blank]).
  left. reflexivity.
Defined.

End PeriodEdges.

Module CalendarProps.
Import Num Js Date Analytics DateFacts.
Local Open Scope string_scope.
Local Open Scope Z_scope.

Lemma YearFromDay_spec (d : Z) :
  DayFromYear (YearFromDay d) <= d < DayFromYear (YearFromDay d + 1).
Proof.
  unfold YearFromDay.
  set (y := 1970 + d * 400 / 146097).
  assert (Y : 146097 * (y - 1970) <= d * 400 < 146097 * (y - 1970) + 146097).
  { unfold y. pose proof (Z.div_mod (d * 400) 146097 ltac:(lia)).
    pose proof (Z.mod_pos_bound (d * 400) 146097 ltac:(lia)). lia. }
  clearbody y.
  destruct (Z.ltb_spec d (DayFromYear y)) as [C1|C1].
  - replace (y - 1 + 1) with y by lia. split; [|assumption].
    revert C1. unfold DayFromYear. Z.div_mod_to_equations. lia.
  - destruct (Z.leb_spec (DayFromYear (y + 1)) d) as [C2|C2].
    + split; [assumption|]. revert C2. unfold DayFromYear. Z.div_mod_to_equations. lia.
    + split; assumption.
Qed.

(** The length of a year is the distance between two first days. *)
Lemma DaysInYear_spec (y : Z) : DayFromYear (y + 1) - DayFromYear y = DaysInYear y.
Proof.
  unfold DaysInYear, DayFromYear.
  destruct (Z.eqb_spec (y mod 4) 0) as [A|A];
    destruct (Z.eqb_spec (y mod 100) 0) as [B|B];
    destruct (Z.eqb_spec (y mod 400) 0) as [C|C];
    cbn [andb orb negb]; revert A B C; Z.div_mod_to_equations; lia.
Qed.

Lemma DayWithinYear_range (t : Z) :
  0 <= DayWithinYear t < 365 + InLeapYear t.
Proof.
  unfold DayWithinYear, InLeapYear, YearFromTime.
  pose proof (YearFromDay_spec (Day t)) as Y.
  pose proof (DaysInYear_spec (YearFromDay (Day t))) as D.
  unfold DaysInYear in *.
  destruct ((YearFromDay (Day t) mod 4 =? 0)
            && (negb (YearFromDay (Day t) mod 100 =? 0)
                || (YearFromDay (Day t) mod 400 =? 0))); simpl; lia.
Qed.

Lemma InLeapYear_range (t : Z) : InLeapYear t = 0 \/ InLeapYear t = 1.
Proof. unfold InLeapYear. destruct (DaysInYear (YearFromTime t) =? 366); auto. Qed.

Lemma DateFromTime_range (t : Z) : 1 <= DateFromTime t <= 31.
Proof.
  pose proof (DayWithinYear_range t) as R.
  pose proof (InLeapYear_range t) as L.
  unfold DateFromTime, MonthFromTime.
  set (d := DayWithinYear t) in *. set (l := InLeapYear t) in *.
  repeat match goal with
         | |- context [if ?a <? ?b then _ else _] => destruct (Z.ltb_spec a b)
         end; cbn [month_start]; lia.
Qed.

(** The calendar fields of a time value: the year is the one whose days
    contain the day number, the month and the day of the month are in
    range, and together they give the day number back. *)
Theorem calendar_fields_round_trip (t : Z) :
  DayFromYear (YearFromTime t) <= Day t < DayFromYear (YearFromTime t + 1)
  /\ 0 <= MonthFromTime t <= 11
  /\ 1 <= DateFromTime t <= 31
  /\ MakeDay (YearFromTime t) (MonthFromTime t) (DateFromTime t) = Day t
  /\ MakeDate (Day t) (TimeWithinDay t) = t.
Proof.
  split; [apply YearFromDay_spec|].
  split; [apply MonthFromTime_range|].
  split; [apply DateFromTime_range|].
  split.
  - pose proof (MakeDay_back t 0) as M. rewrite !Z.sub_0_r in M. exact M.
  - pose proof (MakeDate_back t 0) as M. rewrite Z.sub_0_r in M. lia.
Qed.

(** [d.setDate(d.getDate() - k)] moves the time value back by exactly [k]
    days.  So the window of GET /orders/trends starts [days] days before
    now, 30 when none is given; an unreadable [days] makes the handler
    answer 500; and the default window of GET /overview starts 30 days
    before now when both readings of the clock agree. *)
Theorem trends_window_start (tza now : Z) (days : option string)
  (period : option string) (rows : Z -> list order) :
  (forall k, setDate tza now (getDate tza now - k) = TimeClip (now - k * msPerDay))
  /\ (forall n, (match days with Some s => parseInt s | None => Some 30 end) = Some n ->
        trends_start tza now days = TimeClip (now - n * msPerDay))
  /\ ((match days with Some s => parseInt s | None => Some 30 end) = None ->
        orderTrends tza now period days rows
        = Some (Failure 500 "Failed to get order trends"))
  /\ overview_start tza now now = TimeClip (now - 30 * msPerDay).
Proof.
  assert (S : forall k, setDate tza now (getDate tza now - k)
                        = TimeClip (now - k * msPerDay)).
  { intros k. unfold setDate, getDate, LocalTime.
    rewrite MakeDay_back, MakeDate_back. f_equal. lia. }
  split; [exact S|]. split; [|split].
  - intros n E. unfold trends_start. rewrite E. apply S.
  - intros E. unfold orderTrends, trends_start. rewrite E. reflexivity.
  - apply S.
Qed.

Lemma week_key_eq (tza t : Z) :
  period_key tza "week" (Some t)
  = match TimeClip (t - WeekDay (t + tza) * msPerDay) with
    | Some s => Done (Some (iso_date s))
    | None => Throw RangeError
    end.
Proof.
  unfold period_key. cbn [String.eqb Ascii.eqb Bool.eqb].
  rewrite setDate_week_start. reflexivity.
Qed.

(** The week key in general: the UTC date of the time moved back by the
    local day of the week.  It is a Sunday exactly when the day of the week
    is the same in UTC and in local time. *)
Theorem week_key_formula (tza t : Z) :
  period_key tza "week" (Some t)
  = match TimeClip (t - WeekDay (t + tza) * msPerDay) with
    | Some s => Done (Some (iso_date s))
    | None => Throw RangeError
    end
  /\ (WeekDay (t - WeekDay (t + tza) * msPerDay) = 0
      <-> WeekDay t = WeekDay (t + tza)).
Proof.
  split.
  - apply week_key_eq.
  - pose proof (WeekDay_range t). pose proof (WeekDay_range (t + tza)).
    set (w := WeekDay (t + tza)) in *.
    unfold WeekDay at 1. rewrite Day_back. unfold WeekDay in *.
    set (a := Day t + 4) in *.
    replace (Day t - w + 4) with (a - w) by (unfold a; lia).
    split; intros E.
    + revert E. Z.div_mod_to_equations. lia.
    + rewrite <- E. rewrite Zminus_mod, Z.mod_mod, Z.sub_diag by lia. reflexivity.
Qed.

(** On a host at UTC the week key is the date of the Sunday on or before
    the order's date: at most six days back, at the same time of day. *)
Theorem week_key_utc_sunday (t : Z) :
  - 8640000000000000 + 6 * msPerDay <= t <= 8640000000000000 ->
  exists s,
    period_key 0 "week" (Some t) = Done (Some (iso_date s))
    /\ WeekDay s = 0
    /\ Day t - 6 <= Day s <= Day t
    /\ TimeWithinDay s = TimeWithinDay t.
Proof.
  intros R. pose proof (WeekDay_range t) as W.
  exists (t - WeekDay t * msPerDay).
  pose proof (week_key_eq 0 t) as F. rewrite Z.add_0_r in F.
  assert (C : TimeClip (t - WeekDay t * msPerDay) = Some (t - WeekDay t * msPerDay)).
  { unfold TimeClip, msPerDay in *.
    destruct (Z.leb_spec (Z.abs (t - WeekDay t * 86400000)) 8640000000000000);
      [reflexivity|lia]. }
  rewrite C in F. split; [exact F|].
  split; [apply WeekDay_week_start|].
  split; [rewrite Day_back; lia|].
  unfold TimeWithinDay, msPerDay.
  replace (t - WeekDay t * 86400000) with (t + (- WeekDay t) * 86400000) by lia.
  apply Z_mod_plus_full.
Qed.

Lemma week_key_utc_sunday_witness :
  exists s,
    period_key 0 "week" (Some 1710288000000) = Done (Some (iso_date s))
    /\ WeekDay s = 0
    /\ Day 1710288000000 - 6 <= Day s <= Day 1710288000000
    /\ TimeWithinDay s = TimeWithinDay 1710288000000.
Proof.
  apply (week_key_utc_sunday 1710288000000). vm_compute. split; discriminate.
Defined.

End CalendarProps.

Module TrendFacts.
Import Num Js Date Analytics NumFacts JsFacts FunnelClaims OverviewClaims.
Import DateFacts GroupByFacts KeyFacts BucketFacts BucketProps.
Local Open Scope string_scope.
Local Open Scope Z_scope.

(** *** A weighted count over a grouping *)

Section Weights.
Context {R V : Type}.
Variable key : R -> string.
Variable init : R -> V.
Variable add : R -> V -> V.
Variable size : V -> Z.
Variable weight : R -> Z.
Hypothesis size_init : forall r, size (init r) = 0.
Hypothesis size_add : forall r v, size (add r v) = size v + weight r.

Lemma update_weight (k : string) (r : R) (o : obj V) (v : V) :
  get k o = Some v ->
  sum_by (fun kv => size (snd kv)) (update k (add r) o)
  = sum_by (fun kv => size (snd kv)) o + weight r.
Proof.
  unfold sum_by.
  revert v. induction o as [|[k' v'] o IH]; intros v; simpl; [discriminate|].
  destruct (String.eqb k k').
  - intros _. simpl. rewrite size_add. lia.
  - intros G. simpl. rewrite (IH v G). lia.
Qed.

Lemma sum_by_app {A : Type} (f : A -> Z) (l l' : list A) :
  sum_by f (l ++ l') = sum_by f l + sum_by f l'.
Proof. unfold sum_by. induction l as [|a l IH]; simpl; lia. Qed.

Lemma group_weight (rs : list R) (acc : obj V) :
  sum_by (fun kv => size (snd kv))
    (fold_left (fun acc r => touch (key r) (init r) (add r) acc) rs acc)
  = sum_by (fun kv => size (snd kv)) acc
    + sum_by weight (filter (fun r => negb (inherited (key r))) rs).
Proof.
  revert acc. induction rs as [|r rs IH]; intros acc; [unfold sum_by; simpl; lia|].
  cbn [fold_left filter]. rewrite IH. unfold touch.
  destruct (inherited (key r)) eqn:I; cbn [negb]; [reflexivity|].
  destruct (get (key r) acc) as [v|] eqn:G.
  - rewrite (update_weight _ _ _ v G). unfold sum_by. simpl. lia.
  - rewrite sum_by_app. unfold sum_by. simpl. rewrite size_add, size_init. lia.
Qed.
End Weights.

Lemma sum_by_values {V : Type} (size : V -> Z) (o : obj V) :
  sum_by size (values o) = sum_by (fun kv => size (snd kv)) o.
Proof. apply sum_values. Qed.

(** *** The trend keys and the fold *)

Lemma trend_key_own (tza : Z) (unit : string) (date : option Z) (key : option string) :
  trend_key tza unit date = Done key -> inherited (property_key key) = false.
Proof.
  unfold trend_key.
  destruct (String.eqb unit "day").
  { destruct date as [t|]; [|discriminate]. intros [= <-].
    apply inherited_numeric, iso_date_numeric. }
  destruct (String.eqb unit "hour").
  { destruct date as [t|]; [|discriminate]. intros [= <-].
    apply inherited_numeric, append_numeric, iso_date_numeric. }
  intros [= <-]. reflexivity.
Qed.

Lemma trend_period_own (tza : Z) (unit : string) (o : order) :
  inherited (property_key (trend_period tza unit o)) = false.
Proof.
  unfold trend_period.
  destruct (trend_key tza unit (o_created_at o)) as [key|e] eqn:K; [|reflexivity].
  apply (trend_key_own _ _ _ _ K).
Qed.

Lemma trend_key_throws (tza : Z) (unit : string) (date : option Z) (e : exn) :
  trend_key tza unit date = Throw e -> e = RangeError.
Proof.
  unfold trend_key.
  repeat match goal with
         | |- context [if ?b then _ else _] => destruct b
         | |- context [match ?d with Some _ => _ | None => _ end] => destruct d
         end; congruence.
Qed.

Lemma trend_fold_none (tza : Z) (unit : string) (os : list order) :
  fold_left (trend_step tza unit) os None = None.
Proof. induction os as [|o os IH]; [reflexivity|exact IH]. Qed.

Lemma trend_fold_thrown (tza : Z) (unit : string) (os : list order) (e : exn) :
  fold_left (trend_step tza unit) os (Some (Throw e)) = Some (Throw e).
Proof. induction os as [|o os IH]; [reflexivity|exact IH]. Qed.

Lemma trend_fold_done (tza : Z) (unit : string) (os : list order) (acc : obj trend) :
  forallb (trend_runs tza unit) os = true ->
  fold_left (trend_step tza unit) os (Some (Done acc))
  = Some (Done (fold_left
       (fun acc o =>
          touch (property_key (trend_period tza unit o))
            (fresh_trend (trend_period tza unit o))
            (add_to_trend (status_text o)) acc) os acc)).
Proof.
  revert acc. induction os as [|o os IH]; intros acc H; [reflexivity|].
  cbn [forallb] in H. apply andb_prop in H. destruct H as [H1 H2].
  cbn [fold_left]. rewrite <- (IH _ H2). f_equal.
  unfold trend_step, trend_period, status_text. unfold trend_runs in H1.
  destruct (trend_key tza unit (o_created_at o)); [|discriminate].
  destruct (status_name (o_status o)); [reflexivity|discriminate].
Qed.

(** The fold ends with a grouping only if every order passed through. *)
Lemma trend_fold_runs (tza : Z) (unit : string) (os : list order)
  (acc G : obj trend) :
  fold_left (trend_step tza unit) os (Some (Done acc)) = Some (Done G) ->
  forallb (trend_runs tza unit) os = true.
Proof.
  revert acc. induction os as [|o os IH]; intros acc H; [reflexivity|].
  cbn [fold_left forallb] in *. unfold trend_step at 2 in H. unfold trend_runs at 1.
  destruct (trend_key tza unit (o_created_at o)) as [key|e].
  - destruct (status_name (o_status o)) as [s|].
    + cbn [andb]. apply (IH _ H).
    + rewrite trend_fold_none in H. discriminate.
  - rewrite trend_fold_thrown in H. discriminate.
Qed.

Lemma count_under_total (s : string) (e : trend) :
  t_total (count_under s e)
  = t_total e + (if String.eqb s "total" then 1 else 0).
Proof.
  unfold count_under.
  destruct (String.eqb_spec s "period") as [->|]; [simpl; lia|].
  destruct (String.eqb s "total"); [simpl; lia|].
  destruct (get s (t_statuses e)); [simpl; lia|].
  destruct (String.eqb s "__proto__"); simpl; lia.
Qed.

Lemma add_to_trend_total (o : order) (e : trend) :
  t_total (add_to_trend (status_text o) e) = t_total e + total_weight o.
Proof.
  unfold add_to_trend, total_weight. rewrite count_under_total. cbn [t_total].
  destruct (String.eqb (status_text o) "total"); lia.
Qed.

Lemma sort_trends_perm (l ts : list trend) :
  sort_trends l = Done ts -> Permutation ts l.
Proof.
  unfold sort_trends. destruct l as [|a [|b l]]; try (intros [= <-]; reflexivity).
  destruct (forallb text_period (a :: b :: l)); [|discriminate].
  intros [= <-]. apply (js_sort_perm trend_gt (a :: b :: l)).
Qed.

(** The grouping behind [groupOrdersByPeriod] when it returns. *)
Lemma grouped_trends (tza : Z) (unit : string) (os : list order) (ts : list trend) :
  groupOrdersByPeriod tza os unit = Some (Done ts) ->
  forallb (trend_runs tza unit) os = true
  /\ Permutation ts
       (values (fold_left
          (fun acc o =>
             touch (property_key (trend_period tza unit o))
               (fresh_trend (trend_period tza unit o))
               (add_to_trend (status_text o)) acc) os [])).
Proof.
  unfold groupOrdersByPeriod. intros H.
  destruct (fold_left (trend_step tza unit) os (Some (Done [])))
    as [[G|e]|] eqn:F; try discriminate.
  pose proof (trend_fold_runs _ _ _ _ _ F) as R. split; [exact R|].
  rewrite trend_fold_done in F by assumption. injection F as <-.
  injection H as H. apply sort_trends_perm, H.
Qed.

End TrendFacts.

Module TrendProps.
Import Num Js Date Analytics NumFacts JsFacts FunnelClaims OverviewClaims.
Import DateFacts GroupByFacts KeyFacts BucketFacts BucketProps TrendFacts.
Local Open Scope string_scope.
Local Open Scope Z_scope.

(** groupOrdersByPeriod, when it returns: an entry is made of the orders
    of one period, in the order of the rows, and the totals add up to one
    per order, two for an order whose status is the text total. *)
Theorem order_trends_partition (tza : Z) (unit : string) (os : list order)
  (ts : list trend) :
  groupOrdersByPeriod tza os unit = Some (Done ts) ->
  sum_by t_total ts = sum_by total_weight os
  /\ forall e, In e ts ->
       exists o1 rest,
         in_trend tza unit (property_key (trend_period tza unit o1)) os = o1 :: rest
         /\ e = trend_of (trend_period tza unit o1) (o1 :: rest).
Proof.
  intros H. destruct (grouped_trends _ _ _ _ H) as [NT P].
  pose (key := fun o => property_key (trend_period tza unit o)).
  pose (init := fun o => fresh_trend (trend_period tza unit o)).
  pose (add := fun o => add_to_trend (status_text o)).
  change (Permutation ts
            (values (fold_left
               (fun acc r => touch (key r) (init r) (add r) acc) os [])))
    in P.
  split.
  - rewrite (sum_by_perm _ _ _ P), sum_by_values.
    rewrite (group_weight key init add t_total total_weight
               (fun _ => eq_refl) add_to_trend_total os []).
    rewrite filter_all; [reflexivity|].
    apply forallb_forall. intros o _. unfold key.
    rewrite trend_period_own. reflexivity.
  - intros e He. apply (Permutation_in _ P) in He.
    apply In_values in He. destruct He as [k Hk].
    pose proof (group_keys key init add os [] (NoDup_nil _) (Forall_nil _))
      as [ND F].
    assert (I : inherited k = false).
    { rewrite Forall_forall in F. apply (F (k, e) Hk). }
    pose proof (In_get _ _ _ ND Hk) as E.
    rewrite (group_get key init add k os [] I) in E. cbn [get] in E.
    change (filter (fun r => String.eqb (key r) k) os)
      with (in_trend tza unit k os) in E.
    destruct (in_trend tza unit k os) as [|o1 rest] eqn:W; [discriminate|].
    injection E as E.
    assert (K : key o1 = k).
    { assert (M : In o1 (in_trend tza unit k os)) by (rewrite W; left; reflexivity).
      apply filter_In in M. destruct M as [_ M]. apply String.eqb_eq, M. }
    exists o1, rest. unfold key in K. rewrite K. split; [exact W|].
    symmetry. exact E.
Qed.

Lemma order_trends_partition_witness :
  sum_by t_total
    [ {| t_period := FText "2024-03-13"; t_total := 3;
         t_statuses := [("pending", FCount 1); ("processing", FCount 0);
                        ("delivered", FCount 0); ("cancelled", FCount 0)] |} ]
  = sum_by total_weight
      [ {| o_total := JNull; o_status := JStr "total";
           o_created_at := Some 1710288000000; o_created_by := IdNull;
           o_store_id := IdNull; o_stores_name := None;
           o_delivery_company_id := IdNull; o_delivery_companies_name := None |};
        placed_at 1710288000000 ]
  /\ forall e,
       In e [ {| t_period := FText "2024-03-13"; t_total := 3;
                 t_statuses := [("pending", FCount 1); ("processing", FCount 0);
                                ("delivered", FCount 0); ("cancelled", FCount 0)] |} ] ->
       exists o1 rest,
         in_trend 0 "day" (property_key (trend_period 0 "day" o1))
           [ {| o_total := JNull; o_status := JStr "total";
                o_created_at := Some 1710288000000; o_created_by := IdNull;
                o_store_id := IdNull; o_stores_name := None;
                o_delivery_company_id := IdNull; o_delivery_companies_name := None |};
             placed_at 1710288000000 ]
         = o1 :: rest
         /\ e = trend_of (trend_period 0 "day" o1) (o1 :: rest).
Proof.
  apply (order_trends_partition 0 "day"
    [ {| o_total := JNull; o_status := JStr "total";
         o_created_at := Some 1710288000000; o_created_by := IdNull;
         o_store_id := IdNull; o_stores_name := None;
         o_delivery_company_id := IdNull; o_delivery_companies_name := None |};
      placed_at 1710288000000 ]).
  vm_compute. reflexivity.
Defined.

(** An entry made of orders whose status is one of the four fixed ones
    counts each status, and its total is their number. *)
Theorem known_statuses_counted (key : option string) (l : list order) :
  forallb known_status l = true ->
  trend_of key l
  = {| t_period := match key with Some s => FText s | None => FUndefined end;
       t_total := len l;
       t_statuses :=
         [("pending", FCount (count_status "pending" l));
          ("processing", FCount (count_status "processing" l));
          ("delivered", FCount (count_status "delivered" l));
          ("cancelled", FCount (count_status "cancelled" l))] |}.
Proof.
  intros K. unfold trend_of, fresh_trend.
  assert (G : forall p n a b c d,
    fold_left (fun e o => add_to_trend (status_text o) e) l
      {| t_period := p; t_total := n;
         t_statuses := [("pending", FCount a); ("processing", FCount b);
                        ("delivered", FCount c); ("cancelled", FCount d)] |}
    = {| t_period := p; t_total := n + len l;
         t_statuses :=
           [("pending", FCount (a + count_status "pending" l));
            ("processing", FCount (b + count_status "processing" l));
            ("delivered", FCount (c + count_status "delivered" l));
            ("cancelled", FCount (d + count_status "cancelled" l))] |}).
  assert (EQ : forall p n n' a a' b b' c c' d d',
    n = n' -> a = a' -> b = b' -> c = c' -> d = d' ->
    {| t_period := p; t_total := n;
       t_statuses := [("pending", FCount a); ("processing", FCount b);
                      ("delivered", FCount c); ("cancelled", FCount d)] |}
    = {| t_period := p; t_total := n';
         t_statuses := [("pending", FCount a'); ("processing", FCount b');
                        ("delivered", FCount c'); ("cancelled", FCount d')] |})
    by (intros; subst; reflexivity).
  { induction l as [|o l IH]; intros p n a b c d.
    - simpl. change (len []) with 0. unfold count_status. simpl.
      rewrite !Z.add_0_r. reflexivity.
    - cbn [forallb] in K. apply andb_prop in K. destruct K as [K1 K2].
      cbn [fold_left]. rewrite !count_status_cons, len_cons.
      unfold known_status, has_status in K1. unfold has_status, status_text.
      destruct (o_status o) as [| |? ?|s]; try (simpl in K1; discriminate).
      cbn [status_name].
      destruct (String.eqb_spec s "pending") as [E0|N1]; [rewrite E0; clear E0 K1|].
      { cbn [add_to_trend count_under String.eqb Ascii.eqb Bool.eqb get update bump
             t_period t_total t_statuses].
        rewrite (IH K2). apply EQ; lia. }
      destruct (String.eqb_spec s "processing") as [E0|N2]; [rewrite E0; clear E0 K1|].
      { cbn [add_to_trend count_under String.eqb Ascii.eqb Bool.eqb get update bump
             t_period t_total t_statuses].
        rewrite (IH K2). apply EQ; lia. }
      destruct (String.eqb_spec s "delivered") as [E0|N3]; [rewrite E0; clear E0 K1|].
      { cbn [add_to_trend count_under String.eqb Ascii.eqb Bool.eqb get update bump
             t_period t_total t_statuses].
        rewrite (IH K2). apply EQ; lia. }
      destruct (String.eqb_spec s "cancelled") as [E0|N4]; [rewrite E0; clear E0 K1|discriminate].
      cbn [add_to_trend count_under String.eqb Ascii.eqb Bool.eqb get update bump
           t_period t_total t_statuses].
      rewrite (IH K2). apply EQ; lia. }
  rewrite G. reflexivity.
Qed.

Lemma known_statuses_counted_witness :
  trend_of (Some "2024-03-13") [with_status "delivered"; with_status "pending"]
  = {| t_period := FText "2024-03-13";
       t_total := len [with_status "delivered"; with_status "pending"];
       t_statuses :=
         [("pending",
           FCount (count_status "pending" [with_status "delivered"; with_status "pending"]));
          ("processing",
           FCount (count_status "processing" [with_status "delivered"; with_status "pending"]));
          ("delivered",
           FCount (count_status "delivered" [with_status "delivered"; with_status "pending"]));
          ("cancelled",
           FCount (count_status "cancelled" [with_status "delivered"; with_status "pending"]))] |}.
Proof.
  apply (known_statuses_counted (Some "2024-03-13")
           [with_status "delivered"; with_status "pending"]).
  reflexivity.
Defined.

End TrendProps.

Module TrendEdges.
Import Num Js Date Analytics NumFacts JsFacts FunnelClaims OverviewClaims.
Import DateFacts GroupByFacts KeyFacts BucketFacts BucketProps TrendFacts.
Local Open Scope string_scope.
Local Open Scope Z_scope.

Lemma values_singleton {V : Type} (k : string) (v : V) : values [(k, v)] = [v].
Proof. unfold values. simpl. destruct (array_index k); reflexivity. Qed.

Lemma named_status (o : order) :
  (exists s, status_name (o_status o) = Some s) ->
  status_name (o_status o) = Some (status_text o).
Proof. intros [s E]. unfold status_text. rewrite E. reflexivity. Qed.

(** With every status named, the first date that is no date ends the
    fold. *)
Lemma trend_fold_throws (tza : Z) (unit : string) (os : list order)
  (acc : obj trend) (o : order) :
  (forall x, In x os -> exists s, status_name (o_status x) = Some s) ->
  In o os -> trend_key tza unit (o_created_at o) = Throw RangeError ->
  fold_left (trend_step tza unit) os (Some (Done acc)) = Some (Throw RangeError).
Proof.
  revert acc. induction os as [|x os IH]; intros acc N I T; [destruct I|].
  cbn [fold_left]. unfold trend_step at 2.
  destruct (trend_key tza unit (o_created_at x)) as [key|e] eqn:K.
  - destruct (N x (or_introl eq_refl)) as [s ->].
    destruct I as [->|I]; [congruence|].
    apply IH; [intros; apply N; right; assumption|exact I|exact T].
  - rewrite (trend_key_throws _ _ _ _ K). apply trend_fold_thrown.
Qed.

(** groupOrdersByPeriod, by day or by hour: one order whose date is no
    date makes it throw, and GET /orders/trends answers 500. *)
Theorem order_trends_abort_on_invalid_date (tza now : Z) (unit : string)
  (days : option string) (rows : Z -> list order) (os : list order) (o : order) :
  unit = "day" \/ unit = "hour" ->
  (forall x, In x os -> exists s, status_name (o_status x) = Some s) ->
  In o os -> o_created_at o = None ->
  groupOrdersByPeriod tza os unit = Some (Throw RangeError)
  /\ (forall start, trends_start tza now days = Some start -> rows start = os ->
        orderTrends tza now (Some unit) days rows
        = Some (Failure 500 "Failed to get order trends")).
Proof.
  intros HU N I D.
  assert (T : trend_key tza unit (o_created_at o) = Throw RangeError).
  { unfold trend_key. rewrite D. destruct HU as [-> | ->]; reflexivity. }
  assert (G : groupOrdersByPeriod tza os unit = Some (Throw RangeError)).
  { unfold groupOrdersByPeriod.
    rewrite (trend_fold_throws _ _ _ _ o N I T). reflexivity. }
  split; [exact G|]. intros start S R. unfold orderTrends.
  rewrite S, R. cbn [or_default]. rewrite G. reflexivity.
Qed.

Lemma order_trends_abort_on_invalid_date_witness :
  groupOrdersByPeriod 0 [placed_at 1710288000000; blank] "hour"
  = Some (Throw RangeError)
  /\ (forall start,
        trends_start 0 1710288000000 (Some "7") = Some start ->
        (fun _ : Z => [placed_at 1710288000000; blank]) start
        = [placed_at 1710288000000; blank] ->
        orderTrends 0 1710288000000 (Some "hour") (Some "7")
          (fun _ : Z => [placed_at 1710288000000; blank])
        = Some (Failure 500 "Failed to get order trends")).
Proof.
  apply (order_trends_abort_on_invalid_date 0 1710288000000 "hour" (Some "7")
           (fun _ : Z => [placed_at 1710288000000; blank])
           [placed_at 1710288000000; blank] blank).
  - right. reflexivity.
  - intros x [<-|[<-|[]]]; eexists; reflexivity.
  - simpl. right. left. reflexivity.
  - reflexivity.
Defined.

Lemma unknown_trend_key (tza : Z) (unit : string) (date : option Z) :
  unit <> "day" -> unit <> "hour" -> trend_key tza unit date = Done None.
Proof.
  intros D H. unfold trend_key.
  destruct (String.eqb_spec unit "day"); [contradiction|].
  destruct (String.eqb_spec unit "hour"); [contradiction|].
  reflexivity.
Qed.

Lemma unknown_trend_fold (tza : Z) (unit : string) (os : list order) (e : trend) :
  unit <> "day" -> unit <> "hour" ->
  (forall x, In x os -> exists s, status_name (o_status x) = Some s) ->
  fold_left (trend_step tza unit) os (Some (Done [("undefined", e)]))
  = Some (Done [("undefined",
                 fold_left (fun e o => add_to_trend (status_text o) e) os e)]).
Proof.
  intros D H. revert e. induction os as [|o os IH]; intros e N; [reflexivity|].
  cbn [fold_left]. rewrite <- IH by (intros; apply N; right; assumption).
  f_equal. unfold trend_step. rewrite unknown_trend_key by assumption.
  rewrite (named_status o (N o (or_introl eq_refl))). reflexivity.
Qed.

(** groupOrdersByPeriod with a period that is neither day nor hour: all
    the orders make one entry, whose period is undefined. *)
Theorem unknown_period_one_trend (tza : Z) (unit : string) (os : list order) :
  unit <> "day" -> unit <> "hour" ->
  (forall x, In x os -> exists s, status_name (o_status x) = Some s) ->
  os <> [] ->
  groupOrdersByPeriod tza os unit = Some (Done [trend_of None os]).
Proof.
  intros D H N NE. destruct os as [|o os]; [congruence|]. clear NE.
  unfold groupOrdersByPeriod. cbn [fold_left]. unfold trend_step at 2.
  rewrite unknown_trend_key by assumption.
  rewrite (named_status o (N o (or_introl eq_refl))).
  change (touch (property_key None) (fresh_trend None)
            (add_to_trend (status_text o)) [])
    with [("undefined", add_to_trend (status_text o) (fresh_trend None))].
  rewrite unknown_trend_fold; try assumption.
  - rewrite values_singleton. reflexivity.
  - intros; apply N; right; assumption.
Qed.

Lemma unknown_period_one_trend_witness :
  groupOrdersByPeriod 0 [placed_at 1710288000000; blank] "week"
  = Some (Done [trend_of None [placed_at 1710288000000; blank]]).
Proof.
  apply (unknown_period_one_trend 0 "week" [placed_at 1710288000000; blank]);
    try discriminate.
  intros x [<-|[<-|[]]]; eexists; reflexivity.
Defined.




End TrendEdges.

Module RollupProps.
Import Num Js Date Analytics NumFacts JsFacts FunnelClaims OverviewClaims.
Import GroupingFacts RankingClaims GroupByFacts BucketProps TrendFacts.
Local Open Scope string_scope.
Local Open Scope Z_scope.



(** An order whose store id is the name of a member of Object.prototype
    (constructor, toString, ...) reaches no rollup; the order counts of the
    rollups add up to the number of the other orders. *)
Theorem prototype_named_ids_are_dropped (l1 l2 : list order) (o : order) :
  inherited (key_of (o_store_id o)) = true ->
  storePerformance (l1 ++ o :: l2) = storePerformance (l1 ++ l2)
  /\ sum_by total_orders (values (storePerformance (l1 ++ o :: l2)))
     = len (filter (fun x => negb (inherited (key_of (o_store_id x)))) (l1 ++ l2)).
Proof.
  intros I.
  assert (E : storePerformance (l1 ++ o :: l2) = storePerformance (l1 ++ l2)).
  { unfold storePerformance.
    apply (group_skip (fun x => key_of (o_store_id x))
             (fun x => {| entity_id := o_store_id x;
                          entity_name := name_or_unknown (o_stores_name x);
                          total_orders := 0; total_revenue := zero |})
             add_order l1 l2 o [] I). }
  split; [exact E|]. rewrite E, sum_by_values. unfold storePerformance.
  pose proof (group_weight (fun x => key_of (o_store_id x))
                (fun x => {| entity_id := o_store_id x;
                             entity_name := name_or_unknown (o_stores_name x);
                             total_orders := 0; total_revenue := zero |})
                add_order total_orders (fun _ => 1)
                (fun _ => eq_refl) (fun _ _ => eq_refl) (l1 ++ l2) []) as S.
  cbv beta in S. unfold perf_step. rewrite S. unfold sum_by at 1. simpl fold_right.
  generalize (filter (fun x => negb (inherited (key_of (o_store_id x)))) (l1 ++ l2)).
  intros l. unfold sum_by. induction l as [|a l IH]; [reflexivity|].
  cbn [map fold_right]. rewrite len_cons. lia.
Qed.

Lemma prototype_named_ids_are_dropped_witness :
  storePerformance
    ([sale 1 "A" (JNum 1 0)]
     ++ {| o_total := JNum 5 0; o_status := JNull; o_created_at := None;
           o_created_by := IdNull; o_store_id := IdStr "constructor";
           o_stores_name := None; o_delivery_company_id := IdNull;
           o_delivery_companies_name := None |} :: [blank])
  = storePerformance ([sale 1 "A" (JNum 1 0)] ++ [blank])
  /\ sum_by total_orders
       (values (storePerformance
          ([sale 1 "A" (JNum 1 0)]
           ++ {| o_total := JNum 5 0; o_status := JNull; o_created_at := None;
                 o_created_by := IdNull; o_store_id := IdStr "constructor";
                 o_stores_name := None; o_delivery_company_id := IdNull;
                 o_delivery_companies_name := None |} :: [blank])))
     = len (filter (fun x => negb (inherited (key_of (o_store_id x))))
              ([sale 1 "A" (JNum 1 0)] ++ [blank])).
Proof.
  apply (prototype_named_ids_are_dropped [sale 1 "A" (JNum 1 0)] [blank]
    {| o_total := JNum 5 0; o_status := JNull; o_created_at := None;
       o_created_by := IdNull; o_store_id := IdStr "constructor";
       o_stores_name := None; o_delivery_company_id := IdNull;
       o_delivery_companies_name := None |}).
  reflexivity.
Defined.

Lemma slice_to_len {A : Type} (n : Z) (l : list A) :
  len (slice_to (Some n) l)
  = if n <? 0 then Z.max (len l + n) 0 else Z.min n (len l).
Proof.
  unfold slice_to, len. destruct (Z.ltb_spec n 0).
  - rewrite length_firstn. lia.
  - rewrite length_firstn. lia.
Qed.



End RollupProps.

Module CustomerProps.
Import Num Js Date Analytics NumFacts JsFacts FunnelClaims OverviewClaims.
Import GroupingFacts RankingClaims LtvClaims GroupByFacts BucketProps TrendFacts.
Import RollupProps.
Local Open Scope string_scope.
Local Open Scope Z_scope.

Lemma with_customer_truthy (os : list order) :
  Forall (fun o => falsy (o_created_by o) = false) (with_customer os).
Proof.
  apply Forall_forall. intros o H. apply filter_In in H.
  destruct H as [_ H]. destruct (falsy (o_created_by o)); [discriminate|reflexivity].
Qed.

(** On orders that have a customer the step is a plain grouping. *)
Lemma ltv_fold_touch (os : list order) (acc : obj customer) :
  Forall (fun o => falsy (o_created_by o) = false) os ->
  fold_left ltv_step os acc
  = fold_left
      (fun acc o =>
         touch (key_of (o_created_by o))
           {| customer_id := o_created_by o; customer_orders := 0;
              total_spent := zero |}
           (add_purchase o) acc) os acc.
Proof.
  intros F. revert acc. induction F as [|o os Ho F IH]; intros acc; [reflexivity|].
  cbn [fold_left]. rewrite <- IH. f_equal. unfold ltv_step. rewrite Ho. reflexivity.
Qed.

Lemma account_fields (l : list order) (c : customer) :
  fold_left (fun c o => add_purchase o c) l c
  = {| customer_id := customer_id c;
       customer_orders := customer_orders c + len l;
       total_spent :=
         fold_left (fun sum o => fadd sum (amount o)) l (total_spent c) |}.
Proof.
  revert c. induction l as [|o l IH]; intros c.
  - simpl. change (len []) with 0. rewrite Z.add_0_r. destruct c; reflexivity.
  - cbn [fold_left]. rewrite IH. unfold add_purchase.
    cbn [customer_id customer_orders total_spent]. rewrite len_cons.
    f_equal. lia.
Qed.

(** An order whose created_by is null, 0 or the empty text changes nothing
    in the result of GET /customer-ltv; at most ten customers are listed. *)
Theorem ltv_drops_falsy_ids (l1 l2 : list order) (o : order) :
  falsy (o_created_by o) = true ->
  customerLifetimeValue (l1 ++ o :: l2) = customerLifetimeValue (l1 ++ l2)
  /\ total_customers (customerLifetimeValue (l1 ++ o :: l2))
     = len (customerValues (l1 ++ l2))
  /\ len (top_customers (customerLifetimeValue (l1 ++ o :: l2)))
     = Z.min 10 (len (customerValues (l1 ++ l2))).
Proof.
  intros F.
  assert (E : customerValues (l1 ++ o :: l2) = customerValues (l1 ++ l2)).
  { unfold customerValues. rewrite !fold_left_app. cbn [fold_left].
    rewrite ltv_step_skip by assumption. reflexivity. }
  unfold customerLifetimeValue. rewrite E. split; [reflexivity|].
  cbn [total_customers top_customers]. split.
  - unfold len. rewrite values_length. reflexivity.
  - rewrite slice_to_len. cbn. unfold len.
    rewrite js_sort_length, values_length. reflexivity.
Qed.

Lemma ltv_drops_falsy_ids_witness :
  customerLifetimeValue
    ([sale 1 "A" (JNum 1 0)]
     ++ {| o_total := JNum 5 0; o_status := JNull; o_created_at := None;
           o_created_by := IdInt 0; o_store_id := IdNull; o_stores_name := None;
           o_delivery_company_id := IdNull; o_delivery_companies_name := None |}
        :: [sale 2 "B" (JNum 2 0)])
  = customerLifetimeValue ([sale 1 "A" (JNum 1 0)] ++ [sale 2 "B" (JNum 2 0)])
  /\ total_customers (customerLifetimeValue
       ([sale 1 "A" (JNum 1 0)]
        ++ {| o_total := JNum 5 0; o_status := JNull; o_created_at := None;
              o_created_by := IdInt 0; o_store_id := IdNull; o_stores_name := None;
              o_delivery_company_id := IdNull; o_delivery_companies_name := None |}
           :: [sale 2 "B" (JNum 2 0)]))
     = len (customerValues ([sale 1 "A" (JNum 1 0)] ++ [sale 2 "B" (JNum 2 0)]))
  /\ len (top_customers (customerLifetimeValue
       ([sale 1 "A" (JNum 1 0)]
        ++ {| o_total := JNum 5 0; o_status := JNull; o_created_at := None;
              o_created_by := IdInt 0; o_store_id := IdNull; o_stores_name := None;
              o_delivery_company_id := IdNull; o_delivery_companies_name := None |}
           :: [sale 2 "B" (JNum 2 0)])))
     = Z.min 10 (len (customerValues
                        ([sale 1 "A" (JNum 1 0)] ++ [sale 2 "B" (JNum 2 0)]))).
Proof.
  apply (ltv_drops_falsy_ids [sale 1 "A" (JNum 1 0)] [sale 2 "B" (JNum 2 0)]
    {| o_total := JNum 5 0; o_status := JNull; o_created_at := None;
       o_created_by := IdInt 0; o_store_id := IdNull; o_stores_name := None;
       o_delivery_company_id := IdNull; o_delivery_companies_name := None |}).
  reflexivity.
Defined.

(** A customer of GET /customer-ltv is made of the orders that carry its
    id, in row order: it counts them and adds their amounts. *)
Theorem customer_accounts (os : list order) (c : customer) :
  In c (values (customerValues os)) ->
  exists o1 rest,
    with_key o_created_by (key_of (o_created_by o1)) (with_customer os) = o1 :: rest
    /\ customer_id c = o_created_by o1
    /\ customer_orders c = len (o1 :: rest)
    /\ total_spent c = revenue_sum (o1 :: rest).
Proof.
  unfold customerValues. rewrite customerValues_filter.
  rewrite (ltv_fold_touch _ _ (with_customer_truthy os)).
  set (rs := with_customer os).
  pose (key := fun o => key_of (o_created_by o)).
  pose (init := fun o => {| customer_id := o_created_by o; customer_orders := 0;
                            total_spent := zero |}).
  change (In c (values (fold_left
            (fun acc r => touch (key r) (init r) (add_purchase r) acc) rs []))
          -> exists o1 rest,
               filter (fun r => String.eqb (key r) (key o1)) rs = o1 :: rest
               /\ customer_id c = o_created_by o1
               /\ customer_orders c = len (o1 :: rest)
               /\ total_spent c = revenue_sum (o1 :: rest)).
  intros H. apply In_values in H. destruct H as [k Hk].
  pose proof (group_keys key init add_purchase rs [] (NoDup_nil _) (Forall_nil _))
    as [ND F].
  assert (I : inherited k = false).
  { rewrite Forall_forall in F. apply (F (k, c) Hk). }
  pose proof (In_get _ _ _ ND Hk) as E.
  rewrite (group_get key init add_purchase k rs [] I) in E. cbn [get] in E.
  destruct (filter (fun r => String.eqb (key r) k) rs) as [|o1 rest] eqn:W;
    [discriminate|].
  injection E as E. rewrite account_fields in E.
  assert (K : key o1 = k).
  { assert (M : In o1 (filter (fun r => String.eqb (key r) k) rs))
      by (rewrite W; left; reflexivity).
    apply filter_In in M. destruct M as [_ M]. apply String.eqb_eq, M. }
  exists o1, rest. rewrite K. split; [exact W|]. subst c.
  unfold init. cbv beta. cbn [customer_id customer_orders total_spent].
  split; [reflexivity|]. split; [|reflexivity].
  unfold add_purchase. cbn [customer_orders]. rewrite len_cons. lia.
Qed.

Lemma customer_accounts_witness :
  exists o1 rest,
    with_key o_created_by (key_of (o_created_by o1))
      (with_customer [sale 7 "A" (JNum 1 0); blank; sale 7 "A" (JNum 2 0)]) = o1 :: rest
    /\ customer_id (account_of (sale 7 "A" (JNum 1 0))
                      [sale 7 "A" (JNum 1 0); sale 7 "A" (JNum 2 0)])
       = o_created_by o1
    /\ customer_orders (account_of (sale 7 "A" (JNum 1 0))
                          [sale 7 "A" (JNum 1 0); sale 7 "A" (JNum 2 0)])
       = len (o1 :: rest)
    /\ total_spent (account_of (sale 7 "A" (JNum 1 0))
                      [sale 7 "A" (JNum 1 0); sale 7 "A" (JNum 2 0)])
       = revenue_sum (o1 :: rest).
Proof.
  apply (customer_accounts [sale 7 "A" (JNum 1 0); blank; sale 7 "A" (JNum 2 0)]).
  left. reflexivity.
Defined.

End CustomerProps.

Module CustomerClaims.
Import Num Js Date Analytics NumFacts JsFacts FunnelClaims OverviewClaims.
Import GroupingFacts RankingClaims LtvClaims GroupByFacts CustomerProps.
Local Open Scope string_scope.
Local Open Scope Z_scope.







End CustomerClaims.

Module OverviewProps.
Import Num Js Date Analytics NumFacts RoundingFacts FunnelFacts JsFacts.
Import FunnelClaims OverviewClaims BucketProps TrendFacts.
Local Open Scope string_scope.
Local Open Scope Z_scope.

Lemma counts_known (os : list order) :
  count_status "pending" os + count_status "processing" os
  + count_status "delivered" os + count_status "cancelled" os
  = len (filter known_status os).
Proof.
  induction os as [|o os IH]; [reflexivity|].
  rewrite !count_status_cons. pose proof (one_status o) as E.
  cbn [filter]. destruct (known_status o); rewrite ?len_cons; lia.
Qed.

Lemma filter_len_le {A : Type} (p : A -> bool) (l : list A) :
  len (filter p l) <= len l.
Proof.
  induction l as [|a l IH]; [reflexivity|]. cbn [filter].
  destruct (p a); rewrite ?len_cons; lia.
Qed.

Lemma filter_len_full {A : Type} (p : A -> bool) (l : list A) :
  len (filter p l) = len l <-> forallb p l = true.
Proof.
  induction l as [|a l IH]; [split; reflexivity|]. cbn [filter forallb].
  pose proof (filter_len_le p l) as L.
  destruct (p a); rewrite ?len_cons; cbn [andb].
  - rewrite <- IH. lia.
  - split; [lia|discriminate].
Qed.

(** The four counts of the overview are those of the orders with a fixed
    status: they add up to the number of such orders, which is the total
    exactly when every order has one of the four statuses. *)
Theorem status_counts_within_total (os : list order) (us : list user)
  (cs : list campaign) :
  0 <= pending (by_status (orders (summarize os us cs)))
  /\ 0 <= processing (by_status (orders (summarize os us cs)))
  /\ 0 <= delivered (by_status (orders (summarize os us cs)))
  /\ 0 <= cancelled (by_status (orders (summarize os us cs)))
  /\ pending (by_status (orders (summarize os us cs)))
     + processing (by_status (orders (summarize os us cs)))
     + delivered (by_status (orders (summarize os us cs)))
     + cancelled (by_status (orders (summarize os us cs)))
     = len (filter known_status os)
  /\ (len (filter known_status os) = total (orders (summarize os us cs))
      <-> forallb known_status os = true).
Proof.
  cbn [summarize orders by_status pending processing delivered cancelled total].
  repeat (split; [apply count_status_nonneg|]).
  split; [apply counts_known|]. apply filter_len_full.
Qed.

Lemma count_or_zero_exact (c : option Z) :
  0 <= count_of c <= 2 ^ 53 -> count_or_zero c = Fin (count_of c * U).
Proof.
  destruct c as [n|]; simpl; intros H; [apply of_Z_exact; lia|reflexivity].
Qed.

Lemma sum_counts_fold (f : campaign -> option Z) (cs : list campaign) (S : Z) :
  Forall (fun c => 0 <= count_of (f c)) cs ->
  0 <= S -> S + sum_by (fun c => count_of (f c)) cs <= 2 ^ 53 ->
  fold_left (fun sum c => fadd sum (count_or_zero (f c))) cs (Fin (S * U))
  = Fin ((S + sum_by (fun c => count_of (f c)) cs) * U).
Proof.
  intros F. revert S. induction F as [|c cs Hc F IH]; intros S HS B.
  - unfold sum_by. simpl. rewrite Z.add_0_r. reflexivity.
  - assert (N : 0 <= sum_by (fun c => count_of (f c)) cs).
    { clear - F. unfold sum_by. induction F; simpl; lia. }
    unfold sum_by in *. cbn [map fold_right] in B. cbn [fold_left map fold_right].
    rewrite count_or_zero_exact by lia.
    assert (E : fadd (Fin (S * U)) (Fin (count_of (f c) * U))
                = Fin ((S + count_of (f c)) * U)).
    { simpl. rewrite <- Z.mul_add_distr_r. apply (of_Z_exact (S + count_of (f c))). lia. }
    rewrite E, IH by lia. f_equal. lia.
Qed.

(** The campaign totals of the overview are exact: with non-negative
    counts (null counting as 0) that sum to at most [2^53], each total is
    the Number of the integer sum; and no more campaigns are sent than there
    are. *)
Theorem campaign_totals_exact (os : list order) (us : list user)
  (cs : list campaign) :
  Forall (fun c => 0 <= count_of (c_recipients_count c)
                   /\ 0 <= count_of (c_opened_count c)
                   /\ 0 <= count_of (c_clicked_count c)) cs ->
  sum_by (fun c => count_of (c_recipients_count c)) cs <= 2 ^ 53 ->
  sum_by (fun c => count_of (c_opened_count c)) cs <= 2 ^ 53 ->
  sum_by (fun c => count_of (c_clicked_count c)) cs <= 2 ^ 53 ->
  total_recipients (campaigns (summarize os us cs))
  = of_Z (sum_by (fun c => count_of (c_recipients_count c)) cs)
  /\ total_opens (campaigns (summarize os us cs))
     = of_Z (sum_by (fun c => count_of (c_opened_count c)) cs)
  /\ total_clicks (campaigns (summarize os us cs))
     = of_Z (sum_by (fun c => count_of (c_clicked_count c)) cs)
  /\ 0 <= sent (campaigns (summarize os us cs))
       <= campaigns_total (campaigns (summarize os us cs)).
Proof.
  intros F B1 B2 B3.
  assert (G : forall f,
    Forall (fun c => 0 <= count_of (f c)) cs ->
    sum_by (fun c => count_of (f c)) cs <= 2 ^ 53 ->
    sum_counts f cs = of_Z (sum_by (fun c => count_of (f c)) cs)).
  { intros f Ff Bf.
    assert (N : 0 <= sum_by (fun c => count_of (f c)) cs).
    { clear - Ff. unfold sum_by. induction Ff; simpl; lia. }
    rewrite of_Z_exact by lia. unfold sum_counts, zero.
    change (Fin 0) with (Fin (0 * U)).
    rewrite sum_counts_fold; try lia; [reflexivity|assumption]. }
  cbn [summarize campaigns total_recipients total_opens total_clicks sent
       campaigns_total].
  split; [apply G; [|assumption]|split; [apply G; [|assumption]|split;
    [apply G; [|assumption]|]]].
  - eapply Forall_impl; [|exact F]. intros c H; apply H.
  - eapply Forall_impl; [|exact F]. intros c H; apply H.
  - eapply Forall_impl; [|exact F]. intros c H; apply H.
  - split; [lia|]. apply (filter_len_le is_sent cs).
Qed.

Lemma campaign_totals_exact_witness :
  total_recipients (campaigns (summarize [] []
    [ {| c_status := JStr "sent"; c_recipients_count := Some 10;
         c_opened_count := None; c_clicked_count := Some 3 |} ]))
  = of_Z (sum_by (fun c => count_of (c_recipients_count c))
            [ {| c_status := JStr "sent"; c_recipients_count := Some 10;
                 c_opened_count := None; c_clicked_count := Some 3 |} ])
  /\ total_opens (campaigns (summarize [] []
       [ {| c_status := JStr "sent"; c_recipients_count := Some 10;
            c_opened_count := None; c_clicked_count := Some 3 |} ]))
     = of_Z (sum_by (fun c => count_of (c_opened_count c))
               [ {| c_status := JStr "sent"; c_recipients_count := Some 10;
                    c_opened_count := None; c_clicked_count := Some 3 |} ])
  /\ total_clicks (campaigns (summarize [] []
       [ {| c_status := JStr "sent"; c_recipients_count := Some 10;
            c_opened_count := None; c_clicked_count := Some 3 |} ]))
     = of_Z (sum_by (fun c => count_of (c_clicked_count c))
               [ {| c_status := JStr "sent"; c_recipients_count := Some 10;
                    c_opened_count := None; c_clicked_count := Some 3 |} ])
  /\ 0 <= sent (campaigns (summarize [] []
             [ {| c_status := JStr "sent"; c_recipients_count := Some 10;
                  c_opened_count := None; c_clicked_count := Some 3 |} ]))
       <= campaigns_total (campaigns (summarize [] []
             [ {| c_status := JStr "sent"; c_recipients_count := Some 10;
                  c_opened_count := None; c_clicked_count := Some 3 |} ])).
Proof.
  apply (campaign_totals_exact [] []
    [ {| c_status := JStr "sent"; c_recipients_count := Some 10;
         c_opened_count := None; c_clicked_count := Some 3 |} ]).
  - repeat constructor; simpl; lia.
  - vm_compute. discriminate.
  - vm_compute. discriminate.
  - vm_compute. discriminate.
Defined.

End OverviewProps.

Module NumberProps.
Import Num Js Date Analytics NumFacts RoundingFacts FunnelFacts JsFacts.
Import FunnelClaims OverviewClaims OverviewProps.
Local Open Scope string_scope.
Local Open Scope Z_scope.

(** A rate of the funnel with at least one order is a text, never the
    Number 0 of the empty case: the hundredths nearest to the percentage, up
    to the roundings of the division and of the product; it is 100.00 when
    every order has the status and 0.00 when none has. *)
Theorem funnel_rate_nearest_hundredth (s : string) (os : list order) :
  os <> [] -> len os < 2 ^ 32 ->
  exists n,
    rate (stage_of s os) = OFixed (FxDec false n)
    /\ 0 <= n <= 10000
    /\ 2 ^ 53 * (2 * n * len os - 20000 * count_status s os - len os)
       <= 60000 * count_status s os
    /\ 2 ^ 53 * (20000 * count_status s os - len os - 2 * n * len os)
       <= 60000 * count_status s os
    /\ (count_status s os = len os -> n = 10000)
    /\ (count_status s os = 0 -> n = 0).
Proof.
  intros NE B.
  assert (T : 0 < len os).
  { destruct os as [|o os]; [congruence|]. rewrite len_cons.
    pose proof (len_nonneg os). lia. }
  pose proof (count_status_nonneg s os) as C0.
  assert (C1 : count_status s os <= len os) by apply (filter_len_le (has_status s) os).
  destruct (rate_of_spec (count_status s os) (len os)) as (n & E & N & Up & Lo);
    try lia.
  exists n. cbn [stage_of rate]. split; [exact E|].
  set (t := len os) in *. set (c := count_status s os) in *.
  assert (NT : 0 <= n * t) by (apply Z.mul_nonneg_nonneg; lia).
  assert (H1 : n <= 10000).
  { destruct (Z_le_gt_dec n 10000) as [L|G]; [assumption|exfalso].
    assert (10001 * t <= n * t) by (apply Z.mul_le_mono_nonneg_r; lia). lia. }
  split; [lia|]. split; [exact Up|]. split; [exact Lo|]. split.
  - intros Ec. destruct (Z_le_gt_dec 10000 n) as [L|G]; [lia|exfalso].
    assert (n * t <= 9999 * t) by (apply Z.mul_le_mono_nonneg_r; lia). lia.
  - intros Ec. destruct (Z_le_gt_dec n 0) as [L|G]; [lia|exfalso].
    assert (1 * t <= n * t) by (apply Z.mul_le_mono_nonneg_r; lia). lia.
Qed.

Lemma funnel_rate_nearest_hundredth_witness :
  exists n,
    rate (stage_of "pending" [with_status "pending"; with_status "delivered"])
    = OFixed (FxDec false n)
    /\ 0 <= n <= 10000
    /\ 2 ^ 53 * (2 * n * len [with_status "pending"; with_status "delivered"]
                 - 20000 * count_status "pending"
                             [with_status "pending"; with_status "delivered"]
                 - len [with_status "pending"; with_status "delivered"])
       <= 60000 * count_status "pending" [with_status "pending"; with_status "delivered"]
    /\ 2 ^ 53 * (20000 * count_status "pending"
                           [with_status "pending"; with_status "delivered"]
                 - len [with_status "pending"; with_status "delivered"]
                 - 2 * n * len [with_status "pending"; with_status "delivered"])
       <= 60000 * count_status "pending" [with_status "pending"; with_status "delivered"]
    /\ (count_status "pending" [with_status "pending"; with_status "delivered"]
        = len [with_status "pending"; with_status "delivered"] -> n = 10000)
    /\ (count_status "pending" [with_status "pending"; with_status "delivered"] = 0
        -> n = 0).
Proof.
  apply (funnel_rate_nearest_hundredth "pending"
           [with_status "pending"; with_status "delivered"]).
  - discriminate.
  - vm_compute. reflexivity.
Defined.

Lemma parseFloat_wf (v : json) : wf (parseFloat v).
Proof.
  assert (S : forall s, wf (parseFloat_string s)).
  { intros s. unfold parseFloat_string.
    destruct (sign_prefix (skip_space s)) as [neg s1].
    destruct (prefix "Infinity" s1); [exact I|].
    destruct (digits s1 0 0) as [[iv ic] s2].
    destruct (match s2 with
              | String "." s' => digits s' iv 0
              | _ => (iv, 0, s2)
              end) as [[mv fc] s3].
    destruct (ic + fc =? 0); [exact I|apply of_decimal_wf]. }
  destruct v as [|b|m e|s]; [apply S|apply S|apply of_decimal_wf|apply S].
Qed.

Lemma amount_wf (o : order) : wf (amount o).
Proof. apply or_zero_wf, parseFloat_wf. Qed.

Lemma fadd_comm (x y : number) : fadd x y = fadd y x.
Proof.
  destruct x as [|[]|a], y as [|[]|b]; simpl; try reflexivity.
  rewrite Z.add_comm. reflexivity.
Qed.

Lemma fadd_zero_l (x : number) : wf x -> fadd zero x = x.
Proof. intros H. rewrite fadd_comm. apply fadd_zero_r, H. Qed.

(** One addition is rounded once: the revenue and the average of two
    orders do not depend on their order (it takes three to see C2 fail), and
    the revenue of one order is its own amount. *)
Theorem revenue_of_two_orders_symmetric (a b : order) (us : list user)
  (cs : list campaign) :
  revenue (orders (summarize [a; b] us cs)) = revenue (orders (summarize [b; a] us cs))
  /\ average_value (orders (summarize [a; b] us cs))
     = average_value (orders (summarize [b; a] us cs))
  /\ revenue (orders (summarize [a] us cs)) = toFixed2 (amount a).
Proof.
  assert (E : revenue_sum [a; b] = revenue_sum [b; a]).
  { unfold revenue_sum. cbn [fold_left].
    rewrite !fadd_zero_l by apply amount_wf. apply fadd_comm. }
  cbn [summarize orders revenue average_value].
  rewrite E. repeat split.
  unfold revenue_sum. cbn [fold_left]. rewrite fadd_zero_l by apply amount_wf.
  reflexivity.
Qed.

End NumberProps.

Module AuthProps.
Import Js Auth.
Local Open Scope string_scope.
Local Open Scope Z_scope.

Lemma split_space_word (s : string) : has_space s = false -> split_space s = [s].
Proof.
  induction s as [|c s IH]; [reflexivity|]. cbn [has_space split_space].
  intros H. apply orb_false_elim in H. destruct H as [H1 H2].
  rewrite H1, (IH H2). reflexivity.
Qed.

Lemma split_space_first (a b : string) :
  has_space a = false -> split_space (a ++ String " " b) = a :: split_space b.
Proof.
  induction a as [|c a IH]; [reflexivity|]. cbn [has_space append split_space].
  intros H. apply orb_false_elim in H. destruct H as [H1 H2].
  rewrite H1, (IH H2). reflexivity.
Qed.

Lemma append_space_nonempty (a b : string) : String.eqb (a ++ String " " b) "" = false.
Proof. destruct a; reflexivity. Qed.

Lemma eqb_empty (s : string) : s <> "" -> String.eqb s "" = false.
Proof. destruct s; [congruence|reflexivity]. Qed.

(** The token is the second space-separated part of the Authorization
    header, whatever the first part says and whatever follows a second
    space: the scheme is not looked at. *)
Theorem token_is_second_word (getUser : string -> lookup) (scheme tok rest : string) :
  has_space scheme = false -> has_space tok = false -> tok <> "" ->
  token_of (Some (scheme ++ " " ++ tok)) = Some tok
  /\ token_of (Some (scheme ++ " " ++ tok ++ " " ++ rest)) = Some tok
  /\ authenticateToken getUser (Some (scheme ++ " " ++ tok))
     = authenticateToken getUser (Some ("Bearer " ++ tok)).
Proof.
  intros Hs Ht Ne.
  assert (T : forall sch, has_space sch = false ->
                token_of (Some (sch ++ " " ++ tok)) = Some tok).
  { intros sch H. unfold token_of.
    change (sch ++ " " ++ tok) with (sch ++ String " " tok).
    rewrite append_space_nonempty, (split_space_first _ _ H), (split_space_word _ Ht).
    cbn [nth_error]. rewrite (eqb_empty _ Ne). reflexivity. }
  split; [apply T, Hs|]. split.
  - unfold token_of.
    change (scheme ++ " " ++ tok ++ " " ++ rest)
      with (scheme ++ String " " (tok ++ String " " rest)).
    rewrite append_space_nonempty, (split_space_first _ _ Hs), (split_space_first _ _ Ht).
    cbn [nth_error]. rewrite (eqb_empty _ Ne). reflexivity.
  - unfold authenticateToken.
    change ("Bearer " ++ tok) with ("Bearer" ++ " " ++ tok).
    rewrite (T scheme Hs), (T "Bearer" eq_refl). reflexivity.
Qed.

Lemma token_is_second_word_witness :
  token_of (Some ("Basic" ++ " " ++ "abc")) = Some "abc"
  /\ token_of (Some ("Basic" ++ " " ++ "abc" ++ " " ++ "tail")) = Some "abc"
  /\ authenticateToken (fun _ => Raised) (Some ("Basic" ++ " " ++ "abc"))
     = authenticateToken (fun _ => Raised) (Some ("Bearer " ++ "abc")).
Proof.
  apply (token_is_second_word (fun _ => Raised) "Basic" "abc" "tail");
    [reflexivity|reflexivity|discriminate].
Defined.

(** The request is passed on exactly when the header carries a token for
    which the service returns a user and no error; a header in one piece is
    answered 401 without asking the service. *)
Theorem only_verified_tokens_pass (getUser : string -> lookup)
  (authHeader : option string) (u : string) :
  (authenticateToken getUser authHeader = Pass u
   <-> exists t, token_of authHeader = Some t /\ t <> ""
                 /\ getUser t = Answered (Some u) false)
  /\ (forall h, has_space h = false ->
        authenticateToken getUser (Some h) = Stop 401 "Access token required").
Proof.
  split.
  - unfold authenticateToken. split.
    + destruct (token_of authHeader) as [t|] eqn:T; [|discriminate].
      destruct (getUser t) as [|[v|] [|]] eqn:G; try discriminate.
      intros [= ->]. exists t. split; [reflexivity|]. split; [|exact G].
      unfold token_of in T. destruct authHeader as [h|]; [|discriminate].
      destruct (String.eqb h ""); [discriminate|].
      destruct (nth_error (split_space h) 1) as [t'|]; [|discriminate].
      destruct (String.eqb_spec t' ""); [discriminate|]. congruence.
    + intros (t & -> & _ & ->). reflexivity.
  - intros h H. unfold authenticateToken, token_of.
    rewrite (split_space_word _ H). cbn [nth_error].
    destruct (String.eqb h ""); reflexivity.
Qed.

(** requireAdmin passes the request on exactly when there is a user whose
    row is found without error and whose role is the text admin; it never
    answers anything but 401, 403 or 500 otherwise. *)
Theorem admin_role_only (roleOf : string -> role_lookup) (user : option string) :
  (requireAdmin roleOf user = Pass tt
   <-> exists u, user = Some u
                 /\ roleOf u = RoleAnswered (Some (JStr "admin")) false)
  /\ (forall s m, requireAdmin roleOf user = Stop s m ->
        (s = 401 /\ user = None) \/ s = 403 \/ s = 500).
Proof.
  unfold requireAdmin. split; [split|].
  - destruct user as [u|]; [|discriminate].
    destruct (roleOf u) as [|[[| | |r]|] [|]] eqn:R; try discriminate.
    destruct (String.eqb_spec r "admin") as [->|]; [|discriminate].
    intros _. exists u. split; [reflexivity|exact R].
  - intros (u & -> & ->). reflexivity.
  - intros s m. destruct user as [u|]; [|intros [= <- _]; auto].
    destruct (roleOf u) as [|[[| | |r]|] [|]]; try (intros [= <- _]; auto).
    destruct (String.eqb r "admin"); [discriminate|intros [= <- _]; auto].
Qed.

End AuthProps.

Module ChatbotProps.
Import Num Js Date Chatbots NumFacts DateFacts CalendarProps.
Local Open Scope string_scope.
Local Open Scope Z_scope.

Lemma filter_split {A : Type} (p : A -> bool) (l : list A) :
  (List.length l
   = List.length (filter p l) + List.length (filter (fun x => negb (p x)) l))%nat.
Proof.
  induction l as [|a l IH]; [reflexivity|]. cbn [filter].
  destruct (p a); cbn [negb List.length]; lia.
Qed.

Lemma filter_length_le {A : Type} (p : A -> bool) (l : list A) :
  (List.length (filter p l) <= List.length l)%nat.
Proof.
  induction l as [|a l IH]; [constructor|]. cbn [filter].
  destruct (p a); cbn [List.length]; lia.
Qed.

Lemma since_none (l : list session) : filter (since None) l = [].
Proof.
  induction l as [|s l IH]; [reflexivity|]. cbn [filter].
  unfold since at 1. destruct (s_started_at s); exact IH.
Qed.

(** GET /stats: the sessions counted are those started since the first
    day of the month before; they are the active ones and the ended ones,
    and the average duration is the Number 0 exactly when none has ended. *)
Theorem chatbot_counts (tza now : Z) (sessions : list session) :
  total_sessions (chatbotStats tza now sessions)
  = active_sessions (chatbotStats tza now sessions)
    + Z.of_nat (List.length
        (filter (fun s => negb (is_active s))
           (filter (since (lastMonth tza now)) sessions)))
  /\ 0 <= active_sessions (chatbotStats tza now sessions)
       <= total_sessions (chatbotStats tza now sessions)
  /\ total_sessions (chatbotStats tza now sessions) <= Z.of_nat (List.length sessions)
  /\ (avg_session_duration (chatbotStats tza now sessions) = ONum zero
      <-> filter (fun s => negb (is_active s))
            (filter (since (lastMonth tza now)) sessions) = [])
  /\ (lastMonth tza now = None -> total_sessions (chatbotStats tza now sessions) = 0).
Proof.
  cbn [chatbotStats total_sessions active_sessions avg_session_duration].
  set (current := filter (since (lastMonth tza now)) sessions).
  pose proof (filter_split is_active current) as SP.
  pose proof (filter_length_le (since (lastMonth tza now)) sessions) as L.
  fold current in L.
  split; [lia|]. split; [lia|]. split; [lia|]. split.
  - destruct (filter (fun s => negb (is_active s)) current) as [|e l].
    + split; reflexivity.
    + cbn [List.length].
      destruct (Z.ltb_spec 0 (Z.of_nat (S (List.length l)))); [|lia].
      split; discriminate.
  - intros N. unfold current. rewrite N, since_none. reflexivity.
Qed.

Lemma fadd_nan_l (x : number) : fadd NaN x = NaN.
Proof. reflexivity. Qed.

Lemma fadd_nan_r (x : number) : fadd x NaN = NaN.
Proof. destruct x; reflexivity. Qed.

Lemma fold_fadd_nan (l : list number) : fold_left (fun sum d => fadd sum d) l NaN = NaN.
Proof. induction l as [|x l IH]; [reflexivity|exact IH]. Qed.

Lemma fold_fadd_has_nan (l : list number) (acc : number) :
  In NaN l -> fold_left (fun sum d => fadd sum d) l acc = NaN.
Proof.
  revert acc. induction l as [|x l IH]; intros acc H; [destruct H|].
  cbn [fold_left]. destruct H as [->|H].
  - rewrite fadd_nan_r. apply fold_fadd_nan.
  - apply IH, H.
Qed.

(** calculateAvgDuration: one counted session whose ended_at is a text
    that is no date makes the average duration the text NaN. *)
Theorem unreadable_end_makes_average_nan (tza now : Z) (sessions : list session)
  (s : session) :
  In s sessions -> since (lastMonth tza now) s = true ->
  s_ended_at s = Some None ->
  avg_session_duration (chatbotStats tza now sessions) = OFixed FxNaN.
Proof.
  intros I W E. cbn [chatbotStats avg_session_duration].
  set (ended := filter (fun s => negb (is_active s))
                  (filter (since (lastMonth tza now)) sessions)).
  assert (M : In s ended).
  { unfold ended. apply filter_In. split.
    - apply filter_In. split; assumption.
    - unfold is_active. rewrite E. reflexivity. }
  assert (P : 0 < Z.of_nat (List.length ended)).
  { destruct ended; [destruct M|]. cbn [List.length]. lia. }
  destruct (Z.ltb_spec 0 (Z.of_nat (List.length ended))); [|lia].
  unfold calculateAvgDuration.
  rewrite fold_fadd_has_nan; [reflexivity|].
  apply in_map_iff. exists s. split; [|exact M].
  unfold minutes, end_date. rewrite E. reflexivity.
Qed.

Lemma unreadable_end_makes_average_nan_witness :
  avg_session_duration
    (chatbotStats 0 1710288000000
       [talk (Some 1710288000000) (Some (Some 1710288060000));
        talk (Some 1710288000000) (Some None)])
  = OFixed FxNaN.
Proof.
  apply (unreadable_end_makes_average_nan 0 1710288000000
           [talk (Some 1710288000000) (Some (Some 1710288060000));
            talk (Some 1710288000000) (Some None)]
           (talk (Some 1710288000000) (Some None))).
  - simpl. right. left. reflexivity.
  - vm_compute. reflexivity.
  - reflexivity.
Defined.

End ChatbotProps.

Module WindowProps.
Import Num Js Date Chatbots NumFacts DateFacts CalendarProps.
Local Open Scope string_scope.
Local Open Scope Z_scope.

Lemma Day_fields (t : Z) :
  Day t = DayFromYear (YearFromTime t)
          + month_start (InLeapYear t) (MonthFromTime t) + DateFromTime t - 1.
Proof. unfold DateFromTime, DayWithinYear. lia. Qed.

Lemma YearFromTime_epoch (t : Z) : 0 <= t -> 1970 <= YearFromTime t.
Proof.
  intros H. unfold YearFromTime.
  assert (D : 0 <= Day t) by (unfold Day, msPerDay; apply Z.div_pos; lia).
  pose proof (YearFromDay_spec (Day t)) as [_ Y].
  destruct (Z_le_gt_dec 1970 (YearFromDay (Day t))) as [L|G]; [assumption|exfalso].
  revert Y. unfold DayFromYear. Z.div_mod_to_equations. lia.
Qed.

(** The first day of the month before, as a day number. *)
Lemma previous_month_start (t : Z) :
  let S := MakeDay (YearFromTime t) (MonthFromTime t - 1) 1 in
  28 <= Day t - S <= 61.
Proof.
  intros S. subst S.
  pose proof (MonthFromTime_range t) as R.
  pose proof (DateFromTime_range t) as D.
  pose proof (InLeapYear_range t) as L.
  rewrite (Day_fields t). unfold MakeDay.
  change (if DaysInYear (YearFromTime t) =? 366 then 1 else 0) with (InLeapYear t).
  set (y := YearFromTime t) in *. set (m := MonthFromTime t) in *.
  set (l := InLeapYear t) in *. set (d := DateFromTime t) in *.
  destruct (Z.eq_dec m 0) as [M0|M0].
  - rewrite M0. change ((0 - 1) / 12) with (-1). change ((0 - 1) mod 12) with 11.
    cbn [month_start].
    pose proof (DaysInYear_spec (y + -1)) as Y.
    replace (y + -1 + 1) with y in Y by lia.
    destruct (Z.eqb_spec (DaysInYear (y + -1)) 366) as [E|E].
    + lia.
    + assert (DaysInYear (y + -1) = 365).
      { unfold DaysInYear in *.
        destruct ((y + -1) mod 4 =? 0); destruct (negb ((y + -1) mod 100 =? 0));
          destruct ((y + -1) mod 400 =? 0); simpl in *; lia. }
      lia.
  - rewrite Z.div_small, Z.mod_small, Z.add_0_r by lia.
    assert (C : m = 1 \/ m = 2 \/ m = 3 \/ m = 4 \/ m = 5 \/ m = 6 \/ m = 7
                \/ m = 8 \/ m = 9 \/ m = 10 \/ m = 11) by lia.
    change (if DaysInYear y =? 366 then 1 else 0) with l.
    clearbody l d y.
    generalize (DayFromYear y). intros dy.
    destruct L as [L|L];
      destruct C as [C|[C|[C|[C|[C|[C|[C|[C|[C|[C|C]]]]]]]]]]; rewrite L, C;
      simpl month_start; lia.
Qed.

(** The sessions counted by GET /stats as of the current month are those
    started since local midnight of the first day of the month before:
    between 28 and 61 days before today. *)
Theorem stats_window_since_previous_month (tza now : Z) :
  0 <= now + tza -> - msPerDay <= tza <= msPerDay -> now <= 8640000000000000 ->
  exists start,
    lastMonth tza now = Some start
    /\ TimeWithinDay (start + tza) = 0
    /\ 28 <= Day (now + tza) - Day (start + tza) <= 61.
Proof.
  intros H0 HT HN. unfold lastMonth, getFullYear, getMonth, LocalTime.
  pose proof (YearFromTime_epoch _ H0) as Y.
  destruct (Z.leb_spec (YearFromTime (now + tza)) 99) as [C|_]; [lia|].
  rewrite andb_false_r.
  pose proof (previous_month_start (now + tza)) as P. cbv zeta in P.
  set (S := MakeDay (YearFromTime (now + tza)) (MonthFromTime (now + tza) - 1) 1) in *.
  assert (D : Day (now + tza) * msPerDay <= now + tza
              < Day (now + tza) * msPerDay + msPerDay).
  { unfold Day, msPerDay.
    pose proof (Z.div_mod (now + tza) 86400000 ltac:(lia)).
    pose proof (Z.mod_pos_bound (now + tza) 86400000 ltac:(lia)). lia. }
  exists (S * msPerDay - tza). unfold MakeDate, TimeClip.
  replace (S * msPerDay + 0 - tza) with (S * msPerDay - tza) by lia.
  unfold msPerDay in *.
  destruct (Z.leb_spec (Z.abs (S * 86400000 - tza)) 8640000000000000) as [_|B];
    [|lia].
  split; [reflexivity|].
  replace (S * 86400000 - tza + tza) with (S * 86400000) by lia.
  split.
  - unfold TimeWithinDay, msPerDay. apply Z_mod_mult.
  - assert (E : Day (S * 86400000) = S)
      by (unfold Day, msPerDay; apply Z.div_mul; lia).
    rewrite E. exact P.
Qed.

Lemma stats_window_since_previous_month_witness :
  exists start,
    lastMonth 3600000 1710288000000 = Some start
    /\ TimeWithinDay (start + 3600000) = 0
    /\ 28 <= Day (1710288000000 + 3600000) - Day (start + 3600000) <= 61.
Proof.
  apply (stats_window_since_previous_month 3600000 1710288000000);
    vm_compute; try split; discriminate.
Defined.

End WindowProps.

Module StabilityProps.
Import Num Js Analytics NumFacts JsFacts FunnelClaims GroupingFacts RankingClaims.
Import LtvClaims.
Local Open Scope string_scope.
Local Open Scope Z_scope.

Section Stable.
Context {A : Type}.
Variable gt : A -> A -> bool.
Variable p : A -> bool.
Hypothesis tie : forall a b, p a = true -> p b = true -> gt a b = false.

Lemma insert_sorted_filter (x : A) (l : list A) :
  filter p (insert_sorted gt x l)
  = if p x then x :: filter p l else filter p l.
Proof.
  induction l as [|y l IH]; cbn [insert_sorted filter].
  - destruct (p x); reflexivity.
  - destruct (gt x y) eqn:G; cbn [filter].
    + rewrite IH. destruct (p x) eqn:Px; [|reflexivity].
      destruct (p y) eqn:Py; [|reflexivity].
      rewrite (tie x y Px Py) in G. discriminate.
    + destruct (p x); reflexivity.
Qed.

(** Elements the comparator does not tell apart keep their order. *)
Lemma js_sort_stable (l : list A) : filter p (js_sort gt l) = filter p l.
Proof.
  induction l as [|x l IH]; [reflexivity|].
  cbn [js_sort fold_right]. fold (js_sort gt l).
  rewrite insert_sorted_filter, IH. reflexivity.
Qed.
End Stable.

Section StableOn.
Context {A : Type}.
Variable gt : A -> A -> bool.
Variable p : A -> bool.
Variable Q : A -> Prop.
Hypothesis tie :
  forall a b, Q a -> Q b -> p a = true -> p b = true -> gt a b = false.

Lemma insert_sorted_filter_on (x : A) (l : list A) :
  Q x -> Forall Q l ->
  filter p (insert_sorted gt x l)
  = if p x then x :: filter p l else filter p l.
Proof.
  intros Qx F. induction F as [|y l Qy F IH]; cbn [insert_sorted filter].
  - destruct (p x); reflexivity.
  - destruct (gt x y) eqn:G; cbn [filter].
    + rewrite IH. destruct (p x) eqn:Px; [|reflexivity].
      destruct (p y) eqn:Py; [|reflexivity].
      rewrite (tie x y Qx Qy Px Py) in G. discriminate.
    + destruct (p x); reflexivity.
Qed.

(** The same among elements on which the comparator is consistent. *)
Lemma js_sort_stable_on (l : list A) :
  Forall Q l -> filter p (js_sort gt l) = filter p l.
Proof.
  induction 1 as [|x l Qx F IH]; [reflexivity|].
  cbn [js_sort fold_right]. fold (js_sort gt l).
  rewrite insert_sorted_filter_on, IH; [reflexivity|exact Qx|].
  apply (Permutation_Forall (Permutation_sym (js_sort_perm gt l))), F.
Qed.
End StableOn.

(** The sort of the rankings is stable.  Delivery companies with the same
    number of orders come out in the order Object.values gave them.  When
    every amount is finite no total is NaN, the comparator [b - a] is
    consistent, and the same holds of the stores with the same revenue and
    of the customers with the same total spent. *)
Theorem ranking_ties_keep_order (os : list order) (n : Z) (r : number) :
  is_nan r = false ->
  filter (fun q => total_orders q =? n)
    (js_sort orders_gt (values (deliveryPerformance os)))
  = filter (fun q => total_orders q =? n) (values (deliveryPerformance os))
  /\ (Forall finite_amount os ->
      Forall (fun q => is_nan (total_revenue q) = false) (values (storePerformance os))
      /\ Forall (fun c => is_nan (total_spent c) = false) (values (customerValues os))
      /\ filter (fun q => negb (num_lt (total_revenue q) r)
                          && negb (num_lt r (total_revenue q)))
           (js_sort revenue_gt (values (storePerformance os)))
         = filter (fun q => negb (num_lt (total_revenue q) r)
                            && negb (num_lt r (total_revenue q)))
             (values (storePerformance os))
      /\ filter (fun c => negb (num_lt (total_spent c) r)
                          && negb (num_lt r (total_spent c)))
           (js_sort spent_gt (values (customerValues os)))
         = filter (fun c => negb (num_lt (total_spent c) r)
                            && negb (num_lt r (total_spent c)))
             (values (customerValues os))).
Proof.
  intros Hr.
  assert (T : forall x y : number,
    is_nan x = false -> is_nan y = false ->
    negb (num_lt x r) && negb (num_lt r x) = true ->
    negb (num_lt y r) && negb (num_lt r y) = true ->
    num_lt x y = false).
  { intros x y X3 Y3 Hx Hy.
    apply andb_prop in Hx. destruct Hx as [X1 X2].
    apply andb_prop in Hy. destruct Hy as [Y1 Y2].
    apply negb_true_iff in X1, X2, Y1, Y2.
    apply (num_lt_ntrans x r y); assumption. }
  split.
  - apply js_sort_stable. intros a b Ha Hb. unfold orders_gt.
    apply Z.eqb_eq in Ha, Hb. apply Z.ltb_ge. lia.
  - intros F.
    assert (NS : Forall (fun q => is_nan (total_revenue q) = false)
                   (values (storePerformance os))).
    { apply (values_Forall (fun q => is_nan (total_revenue q) = false)).
      apply grouping_not_nan; [exact F|constructor]. }
    assert (NC : Forall (fun c => is_nan (total_spent c) = false)
                   (values (customerValues os))).
    { apply (values_Forall (fun c => is_nan (total_spent c) = false)).
      apply customers_not_nan; [exact F|constructor]. }
    split; [exact NS|]. split; [exact NC|]. split.
    + apply (js_sort_stable_on revenue_gt _
               (fun q => is_nan (total_revenue q) = false)); [|exact NS].
      intros a b Qa Qb Ha Hb. rewrite revenue_gt_lt. apply (T _ _ Qa Qb Ha Hb).
    + apply (js_sort_stable_on spent_gt _
               (fun c => is_nan (total_spent c) = false)); [|exact NC].
      intros a b Qa Qb Ha Hb. rewrite spent_gt_lt. apply (T _ _ Qa Qb Ha Hb).
Qed.

Lemma ranking_ties_keep_order_witness :
  filter (fun q => total_orders q =? 1)
    (js_sort orders_gt (values (deliveryPerformance
       [sale 2 "B" (JNum 1 0); sale 1 "A" (JNum 1 0)])))
  = filter (fun q => total_orders q =? 1)
      (values (deliveryPerformance [sale 2 "B" (JNum 1 0); sale 1 "A" (JNum 1 0)]))
  /\ Forall (fun q => is_nan (total_revenue q) = false)
       (values (storePerformance [sale 2 "B" (JNum 1 0); sale 1 "A" (JNum 1 0)]))
  /\ Forall (fun c => is_nan (total_spent c) = false)
       (values (customerValues [sale 2 "B" (JNum 1 0); sale 1 "A" (JNum 1 0)]))
  /\ filter (fun q => negb (num_lt (total_revenue q) (Fin U))
                      && negb (num_lt (Fin U) (total_revenue q)))
       (js_sort revenue_gt (values (storePerformance
          [sale 2 "B" (JNum 1 0); sale 1 "A" (JNum 1 0)])))
     = filter (fun q => negb (num_lt (total_revenue q) (Fin U))
                        && negb (num_lt (Fin U) (total_revenue q)))
         (values (storePerformance [sale 2 "B" (JNum 1 0); sale 1 "A" (JNum 1 0)]))
  /\ filter (fun c => negb (num_lt (total_spent c) (Fin U))
                      && negb (num_lt (Fin U) (total_spent c)))
       (js_sort spent_gt (values (customerValues
          [sale 2 "B" (JNum 1 0); sale 1 "A" (JNum 1 0)])))
     = filter (fun c => negb (num_lt (total_spent c) (Fin U))
                        && negb (num_lt (Fin U) (total_spent c)))
         (values (customerValues [sale 2 "B" (JNum 1 0); sale 1 "A" (JNum 1 0)])).
Proof.
  destruct (ranking_ties_keep_order [sale 2 "B" (JNum 1 0); sale 1 "A" (JNum 1 0)] 1 (Fin U))
    as [D R]; [reflexivity|].
  split; [exact D|]. apply R.
  repeat constructor; vm_compute; reflexivity.
Defined.

End StabilityProps.

Module RangeProps.
Import Num Js Chatbots NumFacts.
Local Open Scope string_scope.
Local Open Scope Z_scope.

Lemma digit_plain (c : ascii) :
  is_digit c = true ->
  is_space c = false /\ c <> "-"%char /\ c <> "+"%char /\ c <> "x"%char
  /\ c <> "X"%char /\ c <> "o"%char /\ c <> "O"%char /\ c <> "b"%char
  /\ c <> "B"%char /\ c <> "I"%char /\ c <> "."%char.
Proof.
  intros H. unfold is_digit, is_space, code in *.
  apply andb_prop in H. destruct H as [H1 H2].
  apply Z.leb_le in H1, H2.
  assert (N : forall d : ascii, (Z.of_nat (nat_of_ascii d) < 48
                                 \/ 57 < Z.of_nat (nat_of_ascii d)) -> c <> d).
  { intros d Hd E. subst d. lia. }
  repeat split; try (apply N; vm_compute; intuition congruence).
  destruct (Z.leb_spec 9 (Z.of_nat (nat_of_ascii c)));
    destruct (Z.leb_spec (Z.of_nat (nat_of_ascii c)) 13);
    destruct (Z.eqb_spec (Z.of_nat (nat_of_ascii c)) 32); simpl; try reflexivity; lia.
Qed.

Lemma triple_eq (a a' b b' : Z) (c : string) :
  a = a' -> b = b' -> (a, b, c) = (a', b', c).
Proof. intros -> ->. reflexivity. Qed.

Lemma digits_all (s : string) (acc n : Z) :
  all_digits s = true ->
  digits s acc n
  = (acc * 10 ^ Z.of_nat (String.length s) + digits_value s,
     n + Z.of_nat (String.length s), "").
Proof.
  revert acc n. induction s as [|c s IH]; intros acc n H.
  - unfold digits_value. simpl. rewrite Z.mul_1_r, !Z.add_0_r. reflexivity.
  - cbn [all_digits] in H. apply andb_prop in H. destruct H as [Hc Hs].
    unfold digits_value. cbn [digits String.length]. rewrite Hc.
    rewrite !(IH _ _ Hs). cbn [fst]. rewrite Nat2Z.inj_succ, Z.pow_succ_r by lia.
    apply triple_eq; lia.
Qed.

Lemma all_digits_app (a b : string) :
  all_digits a = true -> all_digits b = true -> all_digits (a ++ b) = true.
Proof.
  induction a as [|c a IH]; intros Ha Hb; [exact Hb|].
  cbn [all_digits append] in *. apply andb_prop in Ha. destruct Ha as [Hc Ha].
  rewrite Hc, (IH Ha Hb). reflexivity.
Qed.

Lemma digits_value_app (a b : string) :
  all_digits a = true -> all_digits b = true ->
  digits_value (a ++ b)
  = digits_value a * 10 ^ Z.of_nat (String.length b) + digits_value b.
Proof.
  intros Ha Hb.
  assert (G : forall acc n,
    digits (a ++ b) acc n
    = digits b (acc * 10 ^ Z.of_nat (String.length a) + digits_value a)
        (n + Z.of_nat (String.length a))).
  { induction a as [|c a IH]; intros acc n.
    - unfold digits_value. simpl. f_equal; lia.
    - cbn [all_digits] in Ha. apply andb_prop in Ha. destruct Ha as [Hc Ha].
      cbn [append digits String.length]. rewrite Hc, (IH Ha).
      unfold digits_value at 2. cbn [digits]. rewrite Hc.
      rewrite (digits_all a _ _ Ha). cbn [fst].
      rewrite Nat2Z.inj_succ, Z.pow_succ_r by lia. f_equal; lia. }
  unfold digits_value at 1. rewrite G, (digits_all b _ _ Hb). cbn [fst]. lia.
Qed.

Lemma trim_end_digits (s : string) : all_digits s = true -> trim_end s = s.
Proof.
  induction s as [|c s IH]; [reflexivity|]. cbn [all_digits trim_end].
  intros H. apply andb_prop in H. destruct H as [Hc Hs]. rewrite (IH Hs).
  destruct (digit_plain c Hc) as [Sp _]. rewrite Sp. destruct s; reflexivity.
Qed.

Lemma prefix_letter (a b : ascii) (s : string) :
  all_digits s = true -> is_digit b = false ->
  prefix (String a (String b "")) s = false.
Proof.
  intros H Hb. destruct s as [|c [|d s]]; cbn [prefix]; try reflexivity.
  - destruct (ascii_dec a c); reflexivity.
  - destruct (ascii_dec a c); [|reflexivity].
    destruct (ascii_dec b d) as [E|]; [|reflexivity]. subst d.
    cbn [all_digits] in H. apply andb_prop in H. destruct H as [_ H].
    apply andb_prop in H. destruct H as [H _]. congruence.
Qed.

(** [Number] of a non-empty text of digits is the integer it denotes. *)
Lemma to_number_digits (s : string) :
  all_digits s = true -> s <> "" -> to_number s = of_Z (digits_value s).
Proof.
  intros H NE. unfold to_number.
  destruct s as [|c s]; [congruence|]. clear NE.
  assert (Hc : is_digit c = true).
  { cbn [all_digits] in H. apply andb_prop in H. apply H. }
  destruct (digit_plain c Hc) as (Sp & M & P & _ & _ & _ & _ & _ & _ & I & _).
  assert (SK : skip_space (String c s) = String c s) by (simpl; rewrite Sp; reflexivity).
  rewrite SK, (trim_end_digits _ H). cbn [String.eqb].
  rewrite !(prefix_letter _ _ _ H) by reflexivity. cbn [orb].
  assert (SG : sign_prefix (String c s) = (false, String c s)).
  { unfold sign_prefix.
    destruct c as [[] [] [] [] [] [] [] []]; try reflexivity; congruence. }
  rewrite SG.
  assert (NI : String.eqb (String c s) "Infinity" = false).
  { cbn [String.eqb]. destruct (Ascii.eqb_spec c "I"); [congruence|reflexivity]. }
  rewrite NI, (digits_all _ 0 0 H). cbn [String.length].
  rewrite Z.mul_0_l, !Z.add_0_l.
  destruct (Z.eqb_spec (Z.of_nat (S (String.length s)) + 0) 0) as [E|_]; [lia|].
  cbn [exponent_only]. unfold of_decimal, of_Z.
  cbn [Z.sub Z.opp Z.add Z.leb Z.compare]. change (10 ^ 0) with 1.
  rewrite Z.mul_1_r. reflexivity.
Qed.

Lemma digits_value_nonneg (s : string) : all_digits s = true -> 0 <= digits_value s.
Proof.
  assert (G : forall s acc n, 0 <= acc -> 0 <= fst (fst (digits s acc n))).
  { induction s0 as [|c s0 IH]; intros acc n Ha; [exact Ha|].
    cbn [digits]. destruct (is_digit c) eqn:Hc; [|exact Ha].
    apply IH. unfold is_digit in Hc. apply andb_prop in Hc.
    destruct Hc as [H1 _]. apply Z.leb_le in H1. unfold digit_val. lia. }
  intros _. apply G. lia.
Qed.

Lemma fsub_one (v : Z) : 1 <= v <= 2 ^ 53 -> fsub (of_Z v) (of_Z 1) = of_Z (v - 1).
Proof.
  intros Hv. rewrite (of_Z_exact v), (of_Z_exact 1) by lia.
  unfold fsub, fneg, fadd, of_Z. f_equal. ring.
Qed.

(** GET /sessions asks the store for the rows from [offset] to
    [offset + limit - 1].  When both parameters come with the query they
    are texts, so [+] joins them: for two texts of digits the end of the
    range is the number written by the digits of [offset] followed by
    those of [limit], less one.  That is never below the sum of the two
    numbers less one, and it is above it as soon as [offset] is not zero
    and [limit] is not the empty text.  With neither parameter the end
    is 49. *)
Theorem range_end_joins_the_digits (o l : string) :
  all_digits o = true -> all_digits l = true ->
  1 <= digits_value o * 10 ^ Z.of_nat (String.length l) + digits_value l <= 2 ^ 53 ->
  range_end (Some o) (Some l)
  = of_Z (digits_value o * 10 ^ Z.of_nat (String.length l) + digits_value l - 1)
  /\ digits_value o + digits_value l
     <= digits_value o * 10 ^ Z.of_nat (String.length l) + digits_value l
  /\ (1 <= digits_value o -> l <> "" ->
      digits_value o + digits_value l
      < digits_value o * 10 ^ Z.of_nat (String.length l) + digits_value l)
  /\ range_end None None = of_Z 49.
Proof.
  intros Ho Hl Hv.
  pose proof (digits_value_nonneg o Ho) as Po.
  pose proof (digits_value_nonneg l Hl) as Pl.
  assert (P1 : 1 <= 10 ^ Z.of_nat (String.length l)).
  { pose proof (Z.pow_pos_nonneg 10 (Z.of_nat (String.length l))). lia. }
  split; [|split; [|split]].
  - unfold range_end.
    assert (NE : o ++ l <> "").
    { intros E. destruct o; [|discriminate]. cbn [append] in E. subst l.
      unfold digits_value in Hv. simpl in Hv. lia. }
    rewrite (to_number_digits _ (all_digits_app _ _ Ho Hl) NE).
    rewrite (digits_value_app _ _ Ho Hl). apply fsub_one. exact Hv.
  - apply Z.add_le_mono_r.
    rewrite <- (Z.mul_1_r (digits_value o)) at 1.
    apply Z.mul_le_mono_nonneg_l; assumption.
  - intros H1 NE. apply Z.add_lt_mono_r.
    rewrite <- (Z.mul_1_r (digits_value o)) at 1.
    apply Z.mul_lt_mono_pos_l; [lia|].
    destruct l as [|c l]; [congruence|]. cbn [String.length].
    rewrite Nat2Z.inj_succ, Z.pow_succ_r by lia.
    pose proof (Z.pow_pos_nonneg 10 (Z.of_nat (String.length l))). lia.
  - unfold range_end. rewrite (of_Z_exact 0), (of_Z_exact 50) by lia.
    cbn [fadd]. change (0 * U + 50 * U) with (50 * U).
    fold (of_Z 50). apply (fsub_one 50). lia.
Qed.

Lemma range_end_joins_the_digits_witness :
  range_end (Some "5") (Some "5") = of_Z (5 * 10 ^ 1 + 5 - 1)
  /\ 5 + 5 <= 5 * 10 ^ 1 + 5
  /\ (1 <= 5 -> "5" <> "" -> 5 + 5 < 5 * 10 ^ 1 + 5)
  /\ range_end None None = of_Z 49.
Proof.
  apply (range_end_joins_the_digits "5" "5").
  - reflexivity.
  - reflexivity.
  - vm_compute. split; discriminate.
Defined.

End RangeProps.
